(** * Discord-Bot-NSWG1: attendance calendar and PERSCOM client

    A shallow embedding of
      - [src/commands/attendance.ts]  (the [nswg-attendance] slash command and
        its calendar renderer [generateCalendarEmbed]), and
      - [src/services/request_perscom.ts] ([PerscomService]),
    together with the properties of these functions that the specification
    states.

    JavaScript numbers are modelled as exact integers or NaN ([number]);
    [Date] objects by their time value.  The date arithmetic follows the
    abstract operations of ECMA-262 (Day, DayFromYear, YearFromTime,
    MonthFromTime, DateFromTime, WeekDay, MakeDay, MakeDate, TimeClip).

    Range of the model.  A number stands for the double of the same value,
    which is exact for integers of magnitude up to 2^53; properties that
    print or parse a number of unbounded size carry that bound.  A string
    is the UTF-8 bytes of its text, as a string literal holds them: the
    ASCII separators, digits and prefixes the code looks for are found
    byte by byte as they are found in the text, white space is recognised
    in its UTF-8 form ([trimStart]), and [.length] counts UTF-16 code
    units ([codeUnits]). *)

From Stdlib Require Import ZArith List String Ascii Bool Lia QArith Qround.
From Stdlib Require Import DecimalString DecimalPos Permutation.
From Equations Require Import Equations.
Import ListNotations.

Local Open Scope Z_scope.

(* ===================================================================== *)
(** * Part I: definitions                                                  *)
(* ===================================================================== *)

(** ** JavaScript numbers *)

Module JSNum.

(** A JavaScript number that is either an integer or NaN ([None]). *)
Definition number := option Z.

Definition NaN : number := None.

Definition isNaN (x : number) : bool :=
  match x with None => true | Some _ => false end.

(** Arithmetic propagates NaN. *)
Definition lift2 (f : Z -> Z -> Z) (x y : number) : number :=
  match x, y with
  | Some a, Some b => Some (f a b)
  | _, _ => None
  end.

Definition add := lift2 Z.add.
Definition sub := lift2 Z.sub.

(** Comparisons: every comparison with NaN is [false]. *)
Definition cmp (f : Z -> Z -> bool) (x y : number) : bool :=
  match x, y with
  | Some a, Some b => f a b
  | _, _ => false
  end.

Definition lt := cmp Z.ltb.
Definition gt := cmp Z.gtb.
Definition le := cmp Z.leb.
Definition ge := cmp Z.geb.
(** [===] on numbers. *)
Definition seq := cmp Z.eqb.

End JSNum.

Definition number := JSNum.number.

(** ** ECMA-262 date arithmetic *)

Module JSDate.

Definition msPerDay : Z := 86400000.
Definition msPerHour : Z := 3600000.
Definition msPerMinute : Z := 60000.
Definition msPerSecond : Z := 1000.

(** Largest magnitude of a time value: 8.64e15 ms. *)
Definition maxTime : Z := 8640000000000000.

Definition Day (t : Z) : Z := t / msPerDay.
Definition TimeWithinDay (t : Z) : Z := t mod msPerDay.

Definition DaysInYear (y : Z) : Z :=
  if negb (y mod 4 =? 0) then 365
  else if negb (y mod 100 =? 0) then 366
  else if negb (y mod 400 =? 0) then 365
  else 366.

Definition DayFromYear (y : Z) : Z :=
  365 * (y - 1970) + (y - 1969) / 4 - (y - 1901) / 100 + (y - 1601) / 400.

(** The largest [y] with [DayFromYear y <= d], from an estimate that is off
    by at most one year. *)
Definition YearFromDay (d : Z) : Z :=
  let y := 1970 + (400 * d) / 146097 in
  if DayFromYear (y + 1) <=? d then y + 1
  else if DayFromYear y <=? d then y
  else y - 1.

Definition YearFromTime (t : Z) : Z := YearFromDay (Day t).

Definition InLeapYearOf (y : Z) : Z :=
  if DaysInYear y =? 366 then 1 else 0.

Definition DayWithinYear (d : Z) : Z := d - DayFromYear (YearFromDay d).

(** Day number within the year of the first day of month [m] (0..11);
    [monthStart leap 12] is the length of the year. *)
Definition monthStart (leap m : Z) : Z :=
  match m with
  | 0 => 0
  | 1 => 31
  | 2 => 59 + leap
  | 3 => 90 + leap
  | 4 => 120 + leap
  | 5 => 151 + leap
  | 6 => 181 + leap
  | 7 => 212 + leap
  | 8 => 243 + leap
  | 9 => 273 + leap
  | 10 => 304 + leap
  | 11 => 334 + leap
  | _ => 365 + leap
  end.

(** Length of month [m] in a year with leap flag [leap]. *)
Definition monthLength (leap m : Z) : Z :=
  monthStart leap (m + 1) - monthStart leap m.

Definition MonthFromDay (d : Z) : Z :=
  let leap := InLeapYearOf (YearFromDay d) in
  let w := DayWithinYear d in
  if w <? 31 then 0
  else if w <? 59 + leap then 1
  else if w <? 90 + leap then 2
  else if w <? 120 + leap then 3
  else if w <? 151 + leap then 4
  else if w <? 181 + leap then 5
  else if w <? 212 + leap then 6
  else if w <? 243 + leap then 7
  else if w <? 273 + leap then 8
  else if w <? 304 + leap then 9
  else if w <? 334 + leap then 10
  else 11.

Definition DateFromDay (d : Z) : Z :=
  DayWithinYear d
  - monthStart (InLeapYearOf (YearFromDay d)) (MonthFromDay d) + 1.

Definition MonthFromTime (t : Z) : Z := MonthFromDay (Day t).
Definition DateFromTime (t : Z) : Z := DateFromDay (Day t).
Definition WeekDay (t : Z) : Z := (Day t + 4) mod 7.

(** MakeDay: the month is first normalised into 0..11, carrying into the
    year; the day of month is an offset from the first of that month. *)
Definition MakeDay (year month date : number) : number :=
  match year, month, date with
  | Some y, Some m, Some dt =>
      let ym := y + m / 12 in
      let mn := m mod 12 in
      Some (DayFromYear ym + monthStart (InLeapYearOf ym) mn + dt - 1)
  | _, _, _ => None
  end.

Definition MakeTime (hour min sec ms : Z) : Z :=
  hour * msPerHour + min * msPerMinute + sec * msPerSecond + ms.

Definition MakeDate (day : number) (time : Z) : number :=
  match day with
  | Some d => Some (d * msPerDay + time)
  | None => None
  end.

Definition TimeClip (t : number) : number :=
  match t with
  | Some v => if Z.abs v <=? maxTime then Some v else None
  | None => None
  end.

(** MakeFullYear: years 0..99 denote 1900..1999. *)
Definition MakeFullYear (year : number) : number :=
  match year with
  | Some y => if (0 <=? y) && (y <=? 99) then Some (1900 + y) else Some y
  | None => None
  end.

(** [Date.UTC(year, month, date, hours, minutes, seconds, ms)]. *)
Definition Date_UTC7 (year month date : number) (h mi s ms : Z) : number :=
  TimeClip (MakeDate (MakeDay (MakeFullYear year) month date)
                     (MakeTime h mi s ms)).

(** [Date.UTC(year, month, date)]. *)
Definition Date_UTC (year month date : number) : number :=
  Date_UTC7 year month date 0 0 0 0.

(** [new Date(value)] for a numeric [value]. *)
Definition Date_of_value (v : number) : number := TimeClip v.

(** Accessors in UTC; each returns NaN on an invalid date. *)
Definition getTime (t : number) : number := t.
Definition getUTCFullYear (t : number) : number := option_map YearFromTime t.
Definition getUTCMonth (t : number) : number := option_map MonthFromTime t.
Definition getUTCDate (t : number) : number := option_map DateFromTime t.
Definition getUTCDay (t : number) : number := option_map WeekDay t.

Section LocalTime.
(** The host's offset from UTC in milliseconds, taken as constant. *)
Variable LocalTZA : Z.

Definition LocalTime (t : Z) : Z := t + LocalTZA.
Definition UTC (t : number) : number := option_map (fun v => v - LocalTZA) t.

(** [new Date(year, month, date)] in local time. *)
Definition Date_local (year month date : number) : number :=
  TimeClip (UTC (MakeDate (MakeDay (MakeFullYear year) month date)
                          (MakeTime 0 0 0 0))).

Definition getFullYear (t : number) : number :=
  option_map (fun v => YearFromTime (LocalTime v)) t.
Definition getMonth (t : number) : number :=
  option_map (fun v => MonthFromTime (LocalTime v)) t.
Definition getDate (t : number) : number :=
  option_map (fun v => DateFromTime (LocalTime v)) t.
End LocalTime.

End JSDate.

(** ** JavaScript strings (ASCII) and the built-ins the command uses *)

Module JSString.

Local Open Scope string_scope.
Local Open Scope Z_scope.

Definition nl : string := String (ascii_of_nat 10) EmptyString.
Definition esc : string := String (ascii_of_nat 27) EmptyString.

(** [Number.prototype.toString] for an integer or NaN: the decimal digits,
    as JavaScript prints an integer of magnitude up to 2^53 (beyond it a
    double no longer holds every integer, and from 10^21 the exponent
    form is used). *)
Definition Z_toString (z : Z) : string := NilZero.string_of_int (Z.to_int z).

Definition toString (x : number) : string :=
  match x with
  | Some z => Z_toString z
  | None => "NaN"
  end.

(** [s.padStart(2)]: pad with a space on the left up to length 2. *)
Definition padStart2 (s : string) : string :=
  match String.length s with
  | O => "  "
  | S O => (" " ++ s)%string
  | _ => s
  end.

(** [s.split(sep)] for a one-character separator: never empty. *)
Fixpoint split (sep : ascii) (s : string) : list string :=
  match s with
  | EmptyString => [EmptyString]
  | String c rest =>
      if Ascii.eqb c sep then EmptyString :: split sep rest
      else match split sep rest with
           | piece :: pieces => String c piece :: pieces
           | [] => [String c EmptyString]
           end
  end.

(** Is [p] a prefix of [s]? *)
Fixpoint startsWith (p s : string) : bool :=
  match p, s with
  | EmptyString, _ => true
  | String a p', String b s' => Ascii.eqb a b && startsWith p' s'
  | String _ _, EmptyString => false
  end.

Fixpoint drop (n : nat) (s : string) : string :=
  match n, s with
  | O, _ => s
  | S n', String _ s' => drop n' s'
  | S _, EmptyString => EmptyString
  end.

(** [s.replace(pat, by)] for a string pattern: the first occurrence only. *)
Fixpoint replace (pat by_ s : string) : string :=
  if startsWith pat s then (by_ ++ drop (String.length pat) s)%string
  else match s with
       | EmptyString => EmptyString
       | String c s' => String c (replace pat by_ s')
       end.

(** Does the character [c] occur in [s]? *)
Fixpoint contains (c : ascii) (s : string) : bool :=
  match s with
  | EmptyString => false
  | String c' s' => Ascii.eqb c' c || contains c s'
  end.

(** The white space and line terminators that [parseInt] skips
    (ECMA-262 StrWhiteSpaceChar), in UTF-8.  One byte: TAB, LF, VT, FF, CR
    and SP. *)
Definition isWhiteSpace (c : ascii) : bool :=
  match nat_of_ascii c with
  | 9%nat | 10%nat | 11%nat | 12%nat | 13%nat | 32%nat => true
  | _ => false
  end.

Definition byteOf (c : ascii) : Z := Z.of_nat (nat_of_ascii c).

(** Two bytes: U+00A0 (no-break space). *)
Definition isWhiteSpace2 (c1 c2 : ascii) : bool :=
  (byteOf c1 =? 194) && (byteOf c2 =? 160).

(** Three bytes: U+1680, U+2000 to U+200A, U+2028, U+2029, U+202F, U+205F,
    U+3000 and U+FEFF. *)
Definition isWhiteSpace3 (c1 c2 c3 : ascii) : bool :=
  let '(b1, b2, b3) := (byteOf c1, byteOf c2, byteOf c3) in
  (b1 =? 225) && (b2 =? 154) && (b3 =? 128)
  || (b1 =? 226) && (b2 =? 128)
     && ((128 <=? b3) && (b3 <=? 138)
         || (b3 =? 168) || (b3 =? 169) || (b3 =? 175))
  || (b1 =? 226) && (b2 =? 129) && (b3 =? 159)
  || (b1 =? 227) && (b2 =? 128) && (b3 =? 128)
  || (b1 =? 239) && (b2 =? 187) && (b3 =? 191).

(** The first bytes of the white space of more than one byte. *)
Definition isWhiteSpaceLead (c : ascii) : bool :=
  (byteOf c =? 194) || (byteOf c =? 225) || (byteOf c =? 226)
  || (byteOf c =? 227) || (byteOf c =? 239).

Fixpoint trimStart (s : string) : string :=
  match s with
  | String c s1 =>
      if isWhiteSpace c then trimStart s1
      else if isWhiteSpaceLead c then
        match s1 with
        | String c2 s2 =>
            if isWhiteSpace2 c c2 then trimStart s2
            else match s2 with
                 | String c3 s3 =>
                     if isWhiteSpace3 c c2 c3 then trimStart s3 else s
                 | EmptyString => s
                 end
        | EmptyString => s
        end
      else s
  | EmptyString => s
  end.

(** [s.length]: the UTF-16 code units of the text.  A character takes one,
    or two when it lies beyond U+FFFF, which UTF-8 writes in four bytes
    (first byte from 240); continuation bytes (128 to 191) add nothing. *)
Fixpoint codeUnits (s : string) : nat :=
  match s with
  | EmptyString => 0%nat
  | String c s' =>
      let units :=
        if (128 <=? byteOf c) && (byteOf c <? 192) then 0%nat
        else if 240 <=? byteOf c then 2%nat else 1%nat in
      (units + codeUnits s')%nat
  end.

(** Value of [c] as a digit in [radix] (10 or 16). *)
Definition digitValue (radix : Z) (c : ascii) : option Z :=
  let n := Z.of_nat (nat_of_ascii c) in
  let v :=
    if (48 <=? n) && (n <=? 57) then Some (n - 48)
    else if (97 <=? n) && (n <=? 122) then Some (n - 97 + 10)
    else if (65 <=? n) && (n <=? 90) then Some (n - 65 + 10)
    else None in
  match v with
  | Some d => if d <? radix then Some d else None
  | None => None
  end.

(** Decimal digits, and strings made of them. *)
Definition isDigit (c : ascii) : bool :=
  match digitValue 10 c with Some _ => true | None => false end.

Fixpoint allDigits (s : string) : bool :=
  match s with
  | EmptyString => true
  | String c s' => isDigit c && allDigits s'
  end.

(** The longest prefix of digits, read in [radix]; NaN when it is empty. *)
Fixpoint parseDigits (radix : Z) (s : string) (acc : number) : number :=
  match s with
  | EmptyString => acc
  | String c s' =>
      match digitValue radix c with
      | Some d =>
          parseDigits radix s'
            (Some (match acc with Some a => a * radix + d | None => d end))
      | None => acc
      end
  end.

(** [parseInt(s)] with no radix argument. *)
Definition parseInt (input : string) : number :=
  let s := trimStart input in
  let '(sign, s) :=
    match s with
    | String "-" s' => (-1, s')
    | String "+" s' => (1, s')
    | _ => (1, s)
    end in
  let '(radix, s) :=
    if startsWith "0x" s || startsWith "0X" s then (16, drop 2 s)
    else (10, s) in
  option_map (Z.mul sign) (parseDigits radix s None).

(** [parseInt] of a value that may be [undefined]. *)
Definition parseInt_opt (input : option string) : number :=
  match input with
  | Some s => parseInt s
  | None => parseInt "undefined"
  end.

(** [Array.prototype.slice(start, end)]; NaN bounds count as 0. *)
Definition slice {A} (l : list A) (start end_ : number) : list A :=
  let len := Z.of_nat (List.length l) in
  let rel (x : number) :=
    match x with
    | Some v => if v <? 0 then Z.max (len + v) 0 else Z.min v len
    | None => 0
    end in
  let k := rel start in
  let final := rel end_ in
  firstn (Z.to_nat (final - k)) (skipn (Z.to_nat k) l).

End JSString.

(** ** src/commands/attendance.ts *)

Module Attendance.

Import JSDate JSString.
Local Open Scope string_scope.
Local Open Scope Z_scope.

(** [AttendanceRecord] of the attendance service: the time value of its
    [date]. *)
Record AttendanceRecord := { date : number }.

(** A cell handed to the table: a bare string, or an object with
    [content], an optional [colSpan] and [hAlign]. *)
Inductive Cell :=
| CellString (s : string)
| CellObj (content : string) (colSpan : option Z) (hAlign : string).

Definition Row := list Cell.

Inductive Color := Blue.

Record Embed := { title : string; color : Color; description : string }.

(** What the module takes from its imports and from the host: the
    tracking-start constant of the attendance service (a valid date), the
    host's time zone and locale formatting, and the table renderer. *)
Class Host := {
  TRACKING_START_DATE : Z;
  LocalTZA : Z;
  toLocaleDateString : Z -> string;
  monthLongName : number -> string;
  Table_toString : list Row -> string
}.

(** The three readings of [new Date()] inside [generateCalendarEmbed], in
    the order the code takes them. *)
Record Clock := { now_year : Z; now_month : Z; now_cutoff : Z }.

Definition centered (s : string) : Cell := CellObj s None "center".

(** [arr[i] = v] on a week row; a NaN index leaves the elements alone. *)
Fixpoint setNth {A} (n : nat) (v : A) (l : list A) : list A :=
  match l, n with
  | [], _ => []
  | _ :: l', O => v :: l'
  | x :: l', S n' => x :: setNth n' v l'
  end.

Definition setCell (i : number) (v : Cell) (week : Row) : Row :=
  match i with
  | Some k => if 0 <=? k then setNth (Z.to_nat k) v week else week
  | None => week
  end.

(** [Math.round]: to the nearest integer, ties upwards. *)
Definition Math_round (q : Q) : Z := Qfloor (Qplus q (1 # 2)).

Record LoopState := {
  table : list Row;
  currentWeek : Row;
  totalRaidDays : Z;
  attendedRaidDays : Z
}.

Section Renderer.
Context {host : Host}.
Variable clock : Clock.
Variable attendanceData : list AttendanceRecord.
Variables year month : number.

Definition monthAttendance : list AttendanceRecord :=
  filter (fun record =>
            JSNum.seq (getUTCFullYear (date record)) year
            && JSNum.seq (getUTCMonth (date record)) month)
         attendanceData.

Definition lastDay : number :=
  getDate LocalTZA (Date_local LocalTZA year (JSNum.add month (Some 1)) (Some 0)).

Definition compareDates (date1 date2 : number) : bool :=
  let startOfDay :=
    Date_of_value (Date_UTC7 year month (getUTCDate date2) 0 0 0 0) in
  let endOfDay :=
    Date_of_value (Date_UTC7 year month (getUTCDate date2) 23 59 59 999) in
  JSNum.ge (getTime date1) (getTime startOfDay)
  && JSNum.le (getTime date1) (getTime endOfDay).

Definition isCurrentMonth : bool :=
  JSNum.seq year (getUTCFullYear (Some (now_year clock)))
  && JSNum.seq month (getUTCMonth (Some (now_month clock))).

Definition lastDayToCount : number :=
  if isCurrentMonth then Some (now_cutoff clock)
  else Date_of_value (Date_UTC year (JSNum.add month (Some 1)) (Some 0)).

Definition dateOfDay (day : Z) : number :=
  Date_of_value (Date_UTC year month (Some day)).

Definition isRaidDay (day : Z) : bool :=
  let dayOfWeek := getUTCDay (dateOfDay day) in
  JSNum.seq dayOfWeek (Some 3) || JSNum.seq dayOfWeek (Some 6).

Definition isTrackingEnabled (day : Z) : bool :=
  JSNum.ge (dateOfDay day) (Some TRACKING_START_DATE).

Definition wasPresent (day : Z) : bool :=
  existsb (fun record => compareDates (date record) (dateOfDay day))
          monthAttendance.

Definition green (dayText : string) : string :=
  esc ++ "[32;1m" ++ dayText ++ esc ++ "[0m".
Definition red (dayText : string) : string :=
  esc ++ "[31;1m" ++ dayText ++ esc ++ "[0m".

Definition blankWeek : Row := repeat (centered "  ") 7.

(** One iteration of the [for] loop over the days of the month. *)
Definition dayBody (st : LoopState) (day : Z) : LoopState :=
  let date := dateOfDay day in
  let dayOfWeek := getUTCDay date in
  let dayText := padStart2 (Z_toString day) in
  let '(total, attended, dayText) :=
    if isRaidDay day && JSNum.le date lastDayToCount then
      if isTrackingEnabled day then
        if wasPresent day
        then (totalRaidDays st + 1, attendedRaidDays st + 1, green dayText)
        else (totalRaidDays st + 1, attendedRaidDays st, red dayText)
      else (totalRaidDays st, attendedRaidDays st, dayText)
    else (totalRaidDays st, attendedRaidDays st, dayText) in
  let week := setCell dayOfWeek (centered dayText) (currentWeek st) in
  if JSNum.seq dayOfWeek (Some 6) || JSNum.seq (Some day) lastDay
  then {| table := (table st ++ [week])%list; currentWeek := blankWeek;
          totalRaidDays := total; attendedRaidDays := attended |}
  else {| table := table st; currentWeek := week;
          totalRaidDays := total; attendedRaidDays := attended |}.

Definition headerRows : list Row :=
  [ [CellObj (monthLongName (Date_local LocalTZA year month (Some 1))
              ++ " " ++ toString year) (Some 7) "center"];
    map centered ["Su"; "Mo"; "Tu"; "We"; "Th"; "Fr"; "Sa"] ].

Definition initialState : LoopState :=
  {| table := headerRows; currentWeek := repeat (CellString "  ") 7;
     totalRaidDays := 0; attendedRaidDays := 0 |}.

(** The state after the first [n] iterations: days 1, ..., n. *)
Fixpoint calendarLoop (n : nat) : LoopState :=
  match n with
  | O => initialState
  | S k => dayBody (calendarLoop k) (Z.of_nat (S k))
  end.

(** [for (let day = 1; day <= lastDay; day++)] runs [lastDay] times, and
    not at all when [lastDay] is NaN. *)
Definition iterations : nat :=
  match lastDay with
  | Some n => Z.to_nat n
  | None => O
  end.

Definition finalState : LoopState := calendarLoop iterations.

(** A day that enters the rate: a raid day, not after the cutoff, with
    tracking enabled. *)
Definition counted (day : Z) : bool :=
  isRaidDay day && JSNum.le (dateOfDay day) lastDayToCount
  && isTrackingEnabled day.

(** The days the first [n] iterations visit. *)
Definition days (n : nat) : list Z := map Z.of_nat (List.seq 1 n).

(** How many elements of [l] satisfy [f]. *)
Definition countIf (f : Z -> bool) (l : list Z) : Z :=
  Z.of_nat (List.length (filter f l)).

Definition attendanceRate (attended total : Z) : Z :=
  if total =? 0 then 0
  else Math_round (Qmult (Qdiv (inject_Z attended) (inject_Z total))
                         (inject_Z 100)).

Definition noDataLine : string :=
  nl ++ "No attendance data available yet. Tracking begins "
     ++ toLocaleDateString TRACKING_START_DATE.

Definition rateLine (rate attended total : Z) : string :=
  nl ++ "Attendance Rate: " ++ Z_toString rate ++ "% ("
     ++ Z_toString attended ++ "/" ++ Z_toString total ++ " raids)".

Definition summaryLine (attended total : Z) : string :=
  if (attended =? 0) && (total =? 0) then noDataLine
  else rateLine (attendanceRate attended total) attended total.

Definition calendarText (st : LoopState) : string :=
  "```ansi" ++ nl ++ Table_toString (table st) ++ nl ++ "```"
  ++ summaryLine (attendedRaidDays st) (totalRaidDays st).

Definition generateCalendarEmbed (memberName : string) : Embed :=
  {| title := "Attendance Calendar for " ++ memberName;
     color := Blue;
     description := calendarText finalState |}.
End Renderer.

(** *** The slash command *)

(** A guild member as the command reads it: [id], [displayName] and
    [user.bot]. *)
Record GuildMember := { id : string; displayName : string; bot : bool }.

Record MemberInfo := { info_id : string; info_displayName : string }.

(** The guild: its member cache as [fetchGuildMembers] finds it on entry
    (lines 243-247), whether [features] includes ['COMMUNITY'], and the
    member cache as the [catch] block finds it when it reads it again
    (lines 291-294), after the awaited fetches: they, and the gateway
    meanwhile, can have filled it. *)
Record Guild := {
  cache : list GuildMember;
  community : bool;
  cacheAfterFetch : list GuildMember
}.

(** Outcome of one [guild.members.fetch] call. *)
Inductive FetchResult :=
| Fetched (members : list GuildMember)
| FetchFailed.

(** Outcome of one [awaitMessageComponent] wait inside the [try]. *)
Inductive Selection :=
| SelRejected                 (* the wait times out or throws *)
| SelNotStringSelect          (* no channel, or not a string select menu *)
| SelValue (v : string).      (* [selection.values[0]] *)

Record SelectOption := {
  opt_label : string; opt_value : string; opt_description : string
}.

Inductive Components :=
| Unchanged
| Cleared
| SelectMenu (options : list SelectOption).

Inductive FetchKind := ChunkFetch | ListFetch.

(** What the command does to the outside, in order.  Console output is
    left out.  A call on the interaction that Discord rejects is recorded
    as [Rejected call]: the user sees nothing of it. *)
Inductive Event :=
| DeferReply
| EditReply (content : string) (components : Components)
| MembersFetch (kind : FetchKind)
| AwaitMessageComponent
| DeferUpdate
| GetPlayerAttendance (name : string)
| FollowUp (embed : Embed)
| Reply (content : string)
| Rejected (call : Event).

(** What a rejected call throws: an [Error] with its [message], or any
    other value. *)
Inductive Thrown :=
| ErrorObject (message : string)
| OtherValue.

(** One invocation: the two options, the reading of [new Date()] at the
    start, and how the outside answers.  [rejects n] is the outcome of the
    [n]-th call (from 0) of [deferReply], [editReply], [followUp] or
    [reply] on the interaction: [None] when it resolves, the thrown value
    when it rejects. *)
Record Invocation := {
  requestedMonth : option string;
  customDate : option string;
  today : Z;
  guild : option Guild;
  chunkFetch : FetchResult;
  listFetch : FetchResult;
  selections : list Selection;
  playerAttendance : string -> option (list AttendanceRecord);
  clock : Clock;
  rejects : nat -> option Thrown
}.

(** The interaction while the command runs: how many of its reply calls
    were made, and its [deferred] and [replied] flags. *)
Record Interaction := { callsMade : nat; deferred : bool; replied : bool }.

Definition freshInteraction : Interaction :=
  {| callsMade := 0; deferred := false; replied := false |}.

(** An asynchronous step: from the interaction it finds, the events it
    causes, the interaction it leaves, and its value or what it throws. *)
Definition Run (A : Type) : Type :=
  Interaction -> list Event * Interaction * (A + Thrown).

Definition eventsOf {A} (r : list Event * Interaction * (A + Thrown))
  : list Event := fst (fst r).
Definition interactionOf {A} (r : list Event * Interaction * (A + Thrown))
  : Interaction := snd (fst r).
Definition outcomeOf {A} (r : list Event * Interaction * (A + Thrown))
  : A + Thrown := snd r.

Definition ret {A} (a : A) : Run A := fun i => ([], i, inl a).

Definition throw {A} (thrown : Thrown) : Run A := fun i => ([], i, inr thrown).

Definition bind {A B} (m : Run A) (k : A -> Run B) : Run B :=
  fun i =>
    let r := m i in
    match outcomeOf r with
    | inl a =>
        let r' := k a (interactionOf r) in
        ((eventsOf r ++ eventsOf r')%list, interactionOf r', outcomeOf r')
    | inr thrown => (eventsOf r, interactionOf r, inr thrown)
    end.

(** [try { m } catch (error) { handler error }]. *)
Definition tryCatch {A} (m : Run A) (handler : Thrown -> Run A) : Run A :=
  fun i =>
    let r := m i in
    match outcomeOf r with
    | inl a => r
    | inr thrown =>
        let r' := handler thrown (interactionOf r) in
        ((eventsOf r ++ eventsOf r')%list, interactionOf r', outcomeOf r')
    end.

(** Something that happens and cannot fail here. *)
Definition emit (e : Event) : Run unit := fun i => ([e], i, inl tt).

(** A step that leaves the interaction alone. *)
Definition lift {A} (p : list Event * A) : Run A :=
  fun i => (fst p, i, inl (snd p)).

Declare Scope run_scope.
Delimit Scope run_scope with run.
Local Notation "x <- m ;; k" := (bind m (fun x => k))
  (at level 61, m at next level, right associativity) : run_scope.
Local Notation "m ;; k" := (bind m (fun _ => k))
  (at level 61, right associativity) : run_scope.

(** The interaction once one more call was made on it. *)
Definition afterCall (i : Interaction) : Interaction :=
  {| callsMade := S (callsMade i);
     deferred := deferred i; replied := replied i |}.

(** One reply call on the interaction: it counts, and it either resolves,
    which sets a flag, or rejects, which sets none. *)
Definition call (rejects : nat -> option Thrown) (e : Event)
    (resolved : Interaction -> Interaction) : Run unit :=
  fun i =>
    match rejects (callsMade i) with
    | None => ([e], resolved (afterCall i), inl tt)
    | Some thrown => ([Rejected e], afterCall i, inr thrown)
    end.

(** [deferReply] sets [deferred] when it resolves; [editReply], [followUp]
    and [reply] set [replied]. *)
Definition setDeferred (i : Interaction) : Interaction :=
  {| callsMade := callsMade i; deferred := true; replied := replied i |}.
Definition setReplied (i : Interaction) : Interaction :=
  {| callsMade := callsMade i; deferred := deferred i; replied := true |}.

Definition deferReply (rejects : nat -> option Thrown) : Run unit :=
  call rejects DeferReply setDeferred.
Definition editReply (rejects : nat -> option Thrown)
    (content : string) (components : Components) : Run unit :=
  call rejects (EditReply content components) setReplied.
Definition followUp (rejects : nat -> option Thrown) (embed : Embed)
  : Run unit :=
  call rejects (FollowUp embed) setReplied.
Definition reply (rejects : nat -> option Thrown) (content : string)
  : Run unit :=
  call rejects (Reply content) setReplied.

(** [promise.catch(() => {})]: a rejection is swallowed. *)
Definition swallow (m : Run unit) : Run unit :=
  tryCatch m (fun _ => ret tt).

(** [error instanceof Error ? error.message : 'Unknown error']. *)
Definition errorMessage (thrown : Thrown) : string :=
  match thrown with
  | ErrorObject message => message
  | OtherValue => "Unknown error"
  end.

Definition ITEMS_PER_PAGE : Z := 24.

Definition getMemberOptions (members : list MemberInfo) (page : number)
  : list SelectOption :=
  let len := Z.of_nat (List.length members) in
  let start := JSNum.lift2 Z.mul page (Some ITEMS_PER_PAGE) in
  let items := slice members start (JSNum.add start (Some ITEMS_PER_PAGE)) in
  let hasMore := JSNum.gt (Some len) (JSNum.add start (Some ITEMS_PER_PAGE)) in
  let options :=
    map (fun member =>
           {| opt_label := info_displayName member;
              opt_value := "member_" ++ info_id member;
              opt_description :=
                "View attendance for " ++ info_displayName member |})
        items in
  if hasMore then
    (options ++
    [ {| opt_label := "Next Page";
         opt_value := "page_" ++ toString (JSNum.add page (Some 1));
         opt_description :=
           "View more members ("
           ++ toString (JSNum.add start (Some (ITEMS_PER_PAGE + 1)))
           ++ "-"
           ++ toString (JSNum.lift2 Z.min
                          (JSNum.add start (Some (ITEMS_PER_PAGE * 2)))
                          (Some len))
           ++ ")" |} ])%list
  else options.

(** [fetchGuildMembers]: the cache when it is not empty, else a chunk-based
    fetch on community servers, else (or when that fails) the regular
    fetch; when the regular fetch fails, the cache as it is by then, or
    [null] when that is empty. *)
Definition fetchGuildMembers (g : Guild) (chunk list_ : FetchResult)
  : list Event * option (list GuildMember) :=
  if (0 <? Z.of_nat (List.length (cache g))) then ([], Some (cache g))
  else
    let regular (before : list Event) :=
      match list_ with
      | Fetched members => ((before ++ [MembersFetch ListFetch])%list, Some members)
      | FetchFailed =>
          ((before ++ [MembersFetch ListFetch])%list,
           if (0 <? Z.of_nat (List.length (cacheAfterFetch g)))
           then Some (cacheAfterFetch g)
           else None)
      end in
    if community g then
      match chunk with
      | Fetched members => ([MembersFetch ChunkFetch], Some members)
      | FetchFailed => regular [MembersFetch ChunkFetch]
      end
    else regular [].

Definition selectPrompt : string := "Select a member to view their attendance:".

(** [handleMemberSelection]: each call shows one page of the menu and
    waits; a [page_N] choice recurses.  The answers come from the script
    [sels]; when it is exhausted the wait times out.  The [editReply] that
    shows the page stands before the [try]: when it rejects, so does the
    call.  The recursive call is returned, not awaited, so the [catch]
    does not see its rejection either. *)
Fixpoint handleMemberSelection (rejects : nat -> option Thrown)
    (memberList : list MemberInfo)
    (sels : list Selection) (page : number) {struct sels}
  : Run (option string) :=
  (editReply rejects selectPrompt
     (SelectMenu (getMemberOptions memberList page)) ;;
   emit AwaitMessageComponent ;;
   match sels with
   | [] => ret None
   | SelRejected :: _ => ret None
   | SelNotStringSelect :: _ => ret None
   | SelValue v :: rest =>
       emit DeferUpdate ;;
       let pieces := split "_" v in
       let type := hd EmptyString pieces in
       let value := hd_error (tl pieces) in
       if String.eqb type "page" then
         handleMemberSelection rejects memberList rest (parseInt_opt value)
       else ret value
   end)%run.

(** What one call of [handleMemberSelection] does before the answer
    arrives, when the reply edit resolves: it shows the page and waits. *)
Definition shownPage (memberList : list MemberInfo) (page : number)
  : list Event :=
  [ EditReply selectPrompt (SelectMenu (getMemberOptions memberList page));
    AwaitMessageComponent ].

Definition invalidDateFormat : string :=
  "Invalid date format. Please use MM/YYYY format (e.g., 02/2024)".
Definition futureDates : string := "Cannot view future dates".

Definition calendarDisplayed : string :=
  "Attendance calendar has been displayed.".
Definition retrievalError : string :=
  "There was an error retrieving attendance data. This could be due to a database connection issue. Please try again in a few minutes.".
Definition executionError (thrown : Thrown) : string :=
  "There was an error executing this command: " ++ errorMessage thrown.

Section Command.
Context {host : Host}.

Definition beforeTrackingStart : string :=
  "Cannot view attendance before tracking start date ("
  ++ toLocaleDateString TRACKING_START_DATE ++ ")".

(** Lines 52-95: the year and month to show, or the message of the
    validation that rejects the request. *)
Definition resolveMonth (inv : Invocation) : string + (number * number) :=
  let currentYear := getFullYear LocalTZA (Some (today inv)) in
  let currentMonth := getMonth LocalTZA (Some (today inv)) in
  let truthy (s : option string) :=
    match s with
    | Some s' => negb (String.eqb s' EmptyString)
    | None => false
    end in
  if truthy (customDate inv) then
    let pieces :=
      split "/" (match customDate inv with Some s => s | None => EmptyString end) in
    let monthStr := hd EmptyString pieces in
    let yearStr := hd_error (tl pieces) in
    let month := JSNum.sub (parseInt monthStr) (Some 1) in
    let year := parseInt_opt yearStr in
    if JSNum.isNaN month || JSNum.isNaN year
       || JSNum.lt month (Some 0) || JSNum.gt month (Some 11)
       || match yearStr with
          | Some ys => negb (Z.of_nat (codeUnits ys) =? 4)
          | None => true (* not reached: [isNaN(year)] holds *)
          end
    then inl invalidDateFormat
    else
      let customDateObj := Date_local LocalTZA year month (Some 1) in
      if JSNum.lt customDateObj (Some TRACKING_START_DATE)
      then inl beforeTrackingStart
      else if JSNum.gt customDateObj (Some (today inv))
      then inl futureDates
      else inr (year, month)
  else
    match requestedMonth inv with
    | Some requested =>
        let monthIndex := parseInt requested in
        if JSNum.gt monthIndex (getMonth LocalTZA (Some (today inv)))
        then inr (JSNum.sub currentYear (Some 1), monthIndex)
        else inr (currentYear, monthIndex)
    | None => inr (currentYear, currentMonth)
    end.

(** Lines 196-220: the attendance of the chosen member.  Whatever the
    [try] throws (the lookup, the follow-up or the reply edit), the
    [catch] edits the reply; that edit is not guarded. *)
Definition showCalendar (inv : Invocation) (currentYear currentMonth : number)
    (name : string) : Run unit :=
  tryCatch
    (emit (GetPlayerAttendance name) ;;
     match playerAttendance inv name with
     | Some attendanceData =>
         followUp (rejects inv)
           (generateCalendarEmbed (clock inv) attendanceData
              currentYear currentMonth name) ;;
         editReply (rejects inv) calendarDisplayed Cleared
     | None => throw OtherValue (* the [catch] only logs what was thrown *)
     end)%run
    (fun _ => editReply (rejects inv) retrievalError Cleared).

(** Lines 97-220: everything after the month is settled. *)
Definition showAttendance (inv : Invocation) (currentYear currentMonth : number)
  : Run unit :=
  match guild inv with
  | None =>
      editReply (rejects inv)
        "This command can only be used in a server." Unchanged
  | Some g =>
      (members <- lift (fetchGuildMembers g (chunkFetch inv) (listFetch inv)) ;;
       match members with
       | None | Some [] =>
           editReply (rejects inv)
             "Unable to fetch server members. Please ensure the bot has the correct permissions and try again."
             Unchanged
       | Some members =>
           let memberList :=
             map (fun m => {| info_id := id m;
                              info_displayName := displayName m |})
                 (filter (fun m => negb (bot m)) members) in
           match memberList with
           | [] =>
               editReply (rejects inv)
                 "No members found in the server (excluding bots)." Unchanged
           | _ =>
               selectedMemberId <-
                 handleMemberSelection (rejects inv) memberList
                   (selections inv) (Some 0) ;;
               match selectedMemberId with
               | None | Some EmptyString =>
                   editReply (rejects inv) "Selection timed out." Cleared
               | Some selected =>
                   match find (fun member =>
                                 String.eqb (info_id member)
                                            (replace "member_" EmptyString selected))
                              memberList with
                   | None =>
                       editReply (rejects inv)
                         "Selected member not found." Cleared
                   | Some selectedMember =>
                       showCalendar inv currentYear currentMonth
                         (info_displayName selectedMember)
                   end
               end
           end
       end)%run
  end.

(** Lines 49-220: the body of the outer [try]. *)
Definition attempt (inv : Invocation) : Run unit :=
  (deferReply (rejects inv) ;;
   match resolveMonth inv with
   | inl message => editReply (rejects inv) message Unchanged
   | inr (currentYear, currentMonth) =>
       showAttendance inv currentYear currentMonth
   end)%run.

(** Lines 222-236: the outer [catch].  It answers with [reply] when the
    interaction is neither replied nor deferred, else it edits the reply;
    a rejection of either is swallowed. *)
Definition recover (inv : Invocation) (thrown : Thrown) : Run unit :=
  fun i =>
    if negb (replied i) && negb (deferred i)
    then swallow (reply (rejects inv) (executionError thrown)) i
    else swallow (editReply (rejects inv) (executionError thrown) Unchanged) i.

(** [attendanceCommand.execute]: what it does, from a fresh interaction. *)
Definition execute (inv : Invocation) : list Event :=
  eventsOf (tryCatch (attempt inv) (recover inv) freshInteraction).

(** The replies that report a validation error. *)
Definition isValidationError (e : Event) : bool :=
  match e with
  | EditReply content _ =>
      String.eqb content invalidDateFormat
      || String.eqb content beforeTrackingStart
      || String.eqb content futureDates
  | _ => false
  end.
End Command.

(** Is the record stamped in the viewed UTC year and month? *)
Definition inViewedMonth (year month : number) (record : AttendanceRecord)
  : bool :=
  JSNum.seq (getUTCFullYear (date record)) year
  && JSNum.seq (getUTCMonth (date record)) month.

(** The option [getMemberOptions] builds for a member. *)
Definition memberOption (member : MemberInfo) : SelectOption :=
  {| opt_label := info_displayName member;
     opt_value := "member_" ++ info_id member;
     opt_description := "View attendance for " ++ info_displayName member |}.

(** The "Next Page" option shown on page [page] of a list of [len]
    members. *)
Definition nextPageOption (page len : Z) : SelectOption :=
  {| opt_label := "Next Page";
     opt_value := "page_" ++ Z_toString (page + 1);
     opt_description :=
       "View more members ("
       ++ Z_toString (page * ITEMS_PER_PAGE + (ITEMS_PER_PAGE + 1))
       ++ "-"
       ++ Z_toString (Z.min (page * ITEMS_PER_PAGE + ITEMS_PER_PAGE * 2) len)
       ++ ")" |}.

(** The entry of the member list made from a guild member. *)
Definition memberInfo (m : GuildMember) : MemberInfo :=
  {| info_id := id m; info_displayName := displayName m |}.

(** The list ends with a reply edit that resolved. *)
Definition endsWithReply (events : list Event) : Prop :=
  exists before content components,
    events = (before ++ [EditReply content components])%list.

(** The calls that leave the process: member fetches and the attendance
    lookup. *)
Definition isExternalFetch (e : Event) : bool :=
  match e with
  | MembersFetch _ | GetPlayerAttendance _ => true
  | _ => false
  end.

(** A call that answers the user, whether it resolved or was rejected:
    [reply] or [editReply]. *)
Definition isAnswer (e : Event) : bool :=
  match e with
  | EditReply _ _ | Reply _ => true
  | Rejected (EditReply _ _) | Rejected (Reply _) => true
  | _ => false
  end.

(** Every event of a step satisfies [P], whatever interaction it finds. *)
Definition eventsAll {A} (P : Event -> Prop) (m : Run A) : Prop :=
  forall i, Forall P (eventsOf (m i)).

(** A step that, when it does not throw, ends with a reply edit. *)
Definition repliesLast {A} (m : Run A) : Prop :=
  forall i a, outcomeOf (m i) = inl a -> endsWithReply (eventsOf (m i)).

(** A step that does not throw. *)
Definition resolves {A} (m : Run A) : Prop :=
  forall i, exists a, outcomeOf (m i) = inl a.

(** The texts lines 97-220 edit the reply with. *)
Definition showAttendanceMessages : list string :=
  [ "This command can only be used in a server.";
    "Unable to fetch server members. Please ensure the bot has the correct permissions and try again.";
    "No members found in the server (excluding bots).";
    selectPrompt;
    "Selection timed out.";
    "Selected member not found.";
    calendarDisplayed;
    retrievalError ].

(** [name] is the display name of a fetched member that is not a bot. *)
Definition fetchedNonBot (inv : Invocation) (name : string) : Prop :=
  exists g members member,
    guild inv = Some g
    /\ snd (fetchGuildMembers g (chunkFetch inv) (listFetch inv))
       = Some members
    /\ In member members
    /\ bot member = false
    /\ displayName member = name.

Section Expected.
Context {host : Host}.

(** The text of a reply edit of the command: the validation message, one
    of the texts of lines 97-220, or the text of the outer [catch]. *)
Definition replyText (inv : Invocation) (content : string) : Prop :=
  resolveMonth inv = inl content
  \/ ((exists accepted, resolveMonth inv = inr accepted)
      /\ In content showAttendanceMessages)
  \/ exists thrown, content = executionError thrown.

(** What a run of the command can hold: each kind of event with the
    condition under which it occurs. *)
Definition expected (inv : Invocation) (e : Event) : Prop :=
  match e with
  | DeferReply | Rejected DeferReply => True
  | EditReply content _ | Rejected (EditReply content _) =>
      replyText inv content
  | Reply content | Rejected (Reply content) =>
      exists thrown, content = executionError thrown
  | MembersFetch _ | AwaitMessageComponent | DeferUpdate
  | FollowUp _ | Rejected (FollowUp _) =>
      exists accepted, resolveMonth inv = inr accepted
  | GetPlayerAttendance name =>
      (exists accepted, resolveMonth inv = inr accepted)
      /\ fetchedNonBot inv name
  | Rejected _ => False
  end.
End Expected.

End Attendance.

(** ** src/services/request_perscom.ts *)

Module Perscom.

Local Open Scope string_scope.
Local Open Scope Z_scope.

Module Submission.
Record t := {
  id : Z;
  form_id : Z;
  user_id : Z;
  created_at : string;
  updated_at : string;
  arma_3_id : string;
  discord_name : string;
  first_name : string;
  date_of_birth : string;
  email_address : string;
  previous_unit : Z;
  preferred_position : string;
  why_do_you_want_to_join_red_squadron : string;
  label : string
}.
End Submission.

Module Form1Submission.
Record t := {
  first_name : string;
  discord_name : string;
  preferred_position : string;
  user_id : Z;
  form_id : Z;
  date_of_birth : string
}.
End Form1Submission.

Module DeniedUsers.
Record t := {
  first_name : string;
  discord_name : string;
  user_id : Z;
  preferred_position : string;
  form_id : option Z;
  date_of_birth : option string
}.
End DeniedUsers.

(** *** deleteUsers *)

(** How one [DELETE /v2/users/{id}] ends.  [text] and [json] are [None]
    when reading the body throws. *)
Inductive DeleteResponse :=
| FetchThrows (err : string)
| NotOk (status : Z) (statusText : string) (text : option string)
| Ok (json : option string).

Inductive DeleteEvent :=
| HttpDelete (user_id : Z)
| ErrorFailedToDelete (first_name : string) (status : Z)
                      (statusText errorMsg : string)
| ErrorDeleting (first_name : string)
| LogDeleted (first_name : string) (data : string).

Section DeleteUsers.
(** The service the requests go to, with whatever state it keeps. *)
Variable Server : Type.
Variable respond : Server -> Z -> DeleteResponse * Server.

(** The body of the [for] loop for one user. *)
Definition deleteUser (server : Server) (user : DeniedUsers.t)
  : list DeleteEvent * Server :=
  let '(response, server') := respond server (DeniedUsers.user_id user) in
  let name := DeniedUsers.first_name user in
  let request := HttpDelete (DeniedUsers.user_id user) in
  match response with
  | FetchThrows _ => ([request; ErrorDeleting name], server')
  | NotOk status statusText (Some errorMsg) =>
      ([request; ErrorFailedToDelete name status statusText errorMsg],
       server')
  | NotOk _ _ None => ([request; ErrorDeleting name], server')
  | Ok (Some data) => ([request; LogDeleted name data], server')
  | Ok None => ([request; ErrorDeleting name], server')
  end.

Fixpoint deleteUsers (server : Server) (users : list DeniedUsers.t)
  : list DeleteEvent * Server :=
  match users with
  | [] => ([], server)
  | user :: rest =>
      let '(events, server') := deleteUser server user in
      let '(events', server'') := deleteUsers server' rest in
      ((events ++ events')%list, server'')
  end.
End DeleteUsers.

Arguments deleteUser {Server}.
Arguments deleteUsers {Server}.

(** A deletion that did not succeed: a thrown error or a non-ok answer. *)
Definition failed (r : DeleteResponse) : bool :=
  match r with
  | Ok (Some _) => false
  | _ => true
  end.

Definition isErrorLog (e : DeleteEvent) : bool :=
  match e with
  | ErrorFailedToDelete _ _ _ _ | ErrorDeleting _ => true
  | _ => false
  end.

(** The user ids a run sent a DELETE for, in order. *)
Fixpoint attempted (events : list DeleteEvent) : list Z :=
  match events with
  | [] => []
  | HttpDelete uid :: rest => uid :: attempted rest
  | _ :: rest => attempted rest
  end.

(** The responses the users of a run get, in order. *)
Fixpoint deleteResponses {Server : Type}
    (respond : Server -> Z -> DeleteResponse * Server)
    (server : Server) (users : list DeniedUsers.t) : list DeleteResponse :=
  match users with
  | [] => []
  | user :: rest =>
      fst (respond server (DeniedUsers.user_id user))
      :: deleteResponses respond
           (snd (respond server (DeniedUsers.user_id user))) rest
  end.

Definition countErrors (events : list DeleteEvent) : nat :=
  List.length (filter isErrorLog events).

(** *** getSubmissionStatus *)

Module Status.
Record t := {
  id : Z;
  name : string;
  color : string;
  order : Z;
  created_at : string;
  updated_at : string;
  label : string
}.
End Status.

Module AcceptedUsers.
Record t := {
  first_name : string;
  discord_name : string;
  user_id : Z;
  preferred_position : string;
  form_id : option Z;
  date_of_birth : option string
}.
End AcceptedUsers.

(** How one [GET /v2/submissions/{formId}/statuses] ends: the request
    throws (a network error or a status outside 2xx), or the body arrives
    with its [data], which may be missing. *)
Inductive StatusOutcome :=
| StatusThrows
| StatusData (data : option (list Status.t)).

Inductive StatusEvent :=
| GetStatuses (formId : Z)
| ErrorFetchingStatuses (formId : Z).

(** The object pushed for a submission with a matching status. *)
Definition toAccepted (submission : Form1Submission.t) : AcceptedUsers.t :=
  {| AcceptedUsers.discord_name := Form1Submission.discord_name submission;
     AcceptedUsers.first_name := Form1Submission.first_name submission;
     AcceptedUsers.user_id := Form1Submission.user_id submission;
     AcceptedUsers.preferred_position :=
       Form1Submission.preferred_position submission;
     AcceptedUsers.form_id := Some (Form1Submission.form_id submission);
     AcceptedUsers.date_of_birth :=
       Some (Form1Submission.date_of_birth submission) |}.

(** Does the outcome carry a status with the wanted id? *)
Definition hasStatus (statusId : Z) (outcome : StatusOutcome) : bool :=
  match outcome with
  | StatusData (Some statusData) =>
      existsb (fun status => Status.id status =? statusId) statusData
  | _ => false
  end.

Section GetSubmissionStatus.
Variable Server : Type.
Variable respond : Server -> Z -> StatusOutcome * Server.
Variable statusId : Z.

(** The body of the [for] loop for one submission: what it sends and
    logs, and what it pushes. *)
Definition statusOf (server : Server) (submission : Form1Submission.t)
  : list StatusEvent * list AcceptedUsers.t * Server :=
  let formId := Form1Submission.form_id submission in
  let '(outcome, server') := respond server formId in
  match outcome with
  | StatusThrows =>
      ([GetStatuses formId; ErrorFetchingStatuses formId], [], server')
  | StatusData None => ([GetStatuses formId], [], server')
  | StatusData (Some statusData) =>
      match statusData with
      | [] => ([GetStatuses formId], [], server')
      | _ =>
          match find (fun status => Status.id status =? statusId) statusData with
          | Some _ => ([GetStatuses formId], [toAccepted submission], server')
          | None => ([GetStatuses formId], [], server')
          end
      end
  end.

Fixpoint getSubmissionStatus (server : Server)
    (submissions : list Form1Submission.t)
  : list StatusEvent * list AcceptedUsers.t * Server :=
  match submissions with
  | [] => ([], [], server)
  | submission :: rest =>
      let '(events, pushed, server') := statusOf server submission in
      let '(events', activeUsers, server'') :=
        getSubmissionStatus server' rest in
      ((events ++ events')%list, (pushed ++ activeUsers)%list, server'')
  end.
End GetSubmissionStatus.

Arguments statusOf {Server}.
Arguments getSubmissionStatus {Server}.

(** The form ids a run asked the statuses of, in order. *)
Fixpoint statusesRequested (events : list StatusEvent) : list Z :=
  match events with
  | [] => []
  | GetStatuses formId :: rest => formId :: statusesRequested rest
  | _ :: rest => statusesRequested rest
  end.

(** *** clearCache *)

(** How [POST /v2/cache] ends. *)
Inductive CacheOutcome :=
| CacheThrows
| CacheStatus (status : Z) (statusText : string).

Inductive CacheEvent :=
| PostCache
| WarnCacheClear (status : Z) (statusText : string)
| ErrorClearingCache.

Definition clearCache (outcome : CacheOutcome) : list CacheEvent :=
  match outcome with
  | CacheThrows => [PostCache; ErrorClearingCache]
  | CacheStatus status statusText =>
      if status =? 200 then [PostCache]
      else [PostCache; WarnCacheClear status statusText]
  end.

(** *** getAllForm1Data *)

(** Answer to [GET /v2/submissions]: the fetch or the JSON reading throws,
    the status is not ok, or the metadata with its [meta.last_page]. *)
Inductive MetadataResponse :=
| MetaThrows
| MetaNotOk (status : Z) (statusText : string)
| MetaOk (last_page : number).

(** Answer to [GET /v2/submissions?page=N]. *)
Inductive PageResponse :=
| PageThrows
| PageNotOk (status : Z) (statusText : string)
| PageOk (data : list Submission.t).

Inductive PagingEvent :=
| GetMetadata
| GetPage (page : Z)
| ErrorMetadataResponse (status : Z) (statusText : string)
| ErrorFetchingMetadata
| ErrorFetchingSubmissions (page status : Z) (statusText : string)
| ErrorFetchingData (page : Z).

(** The [filter(...).map(...)] of one page. *)
Definition toForm1 (submission : Submission.t) : Form1Submission.t :=
  {| Form1Submission.first_name := Submission.first_name submission;
     Form1Submission.discord_name := Submission.discord_name submission;
     Form1Submission.preferred_position :=
       Submission.preferred_position submission;
     Form1Submission.form_id := Submission.id submission;
     Form1Submission.user_id := Submission.user_id submission;
     Form1Submission.date_of_birth := Submission.date_of_birth submission |}.

Definition form1Submissions (data : list Submission.t)
  : list Form1Submission.t :=
  map toForm1 (filter (fun submission => Submission.form_id submission =? 1) data).

(** The first page the loop asks for. *)
Definition firstPage : Z := 4.

(** [while (page <= lastPage)]: one request per round; a failure breaks
    out with what has been collected.  Each page is asked for at most once,
    so the service is a function of the page number. *)
Equations? pagingLoop (api : Z -> PageResponse) (lastPage page : Z)
    (allForm1Submissions : list Form1Submission.t)
  : list PagingEvent * list Form1Submission.t
  by wf (Z.to_nat (lastPage + 1 - page)) lt :=
  pagingLoop api lastPage page all with Z_le_gt_dec page lastPage => {
    | right _ := ([], all);
    | left _ with api page => {
        | PageThrows := ([GetPage page; ErrorFetchingData page], all);
        | PageNotOk status statusText :=
            ([GetPage page; ErrorFetchingSubmissions page status statusText],
             all);
        | PageOk data :=
            let '(events, result) :=
              pagingLoop api lastPage (page + 1)
                         (all ++ form1Submissions data)%list in
            (GetPage page :: events, result) } }.
Proof. lia. Qed.

Definition getAllForm1Data (metadata : MetadataResponse)
    (api : Z -> PageResponse)
  : list PagingEvent * list Form1Submission.t :=
  match metadata with
  | MetaThrows => ([GetMetadata; ErrorFetchingMetadata], [])
  | MetaNotOk status statusText =>
      ([GetMetadata; ErrorMetadataResponse status statusText], [])
  | MetaOk (Some lastPage) =>
      let '(events, result) := pagingLoop api lastPage firstPage [] in
      (GetMetadata :: events, result)
  | MetaOk None => ([GetMetadata], [])
  end.

(** Page [p] of the service answers with a list that holds
    [submission]. *)
Definition servedOn (api : Z -> PageResponse) (p : Z)
    (submission : Submission.t) : Prop :=
  exists data, api p = PageOk data /\ In submission data.

(** The pages from [page] to [lastPage], in order. *)
Definition pagesFrom (page lastPage : Z) : list Z :=
  map (fun i => page + Z.of_nat i) (List.seq 0 (Z.to_nat (lastPage + 1 - page))).

(** The form-1 submissions of a page, when it answers with data. *)
Definition form1OfPage (api : Z -> PageResponse) (p : Z)
  : list Form1Submission.t :=
  match api p with
  | PageOk data => form1Submissions data
  | _ => []
  end.

Definition pageIsOk (api : Z -> PageResponse) (p : Z) : bool :=
  match api p with
  | PageOk _ => true
  | _ => false
  end.

(** The pages of a list that a run asks for: each one up to and including
    the first that does not answer with data. *)
Fixpoint requestedOf (api : Z -> PageResponse) (pages : list Z) : list Z :=
  match pages with
  | [] => []
  | p :: rest => if pageIsOk api p then p :: requestedOf api rest else [p]
  end.

(** What a run collects from a list of pages: the form-1 submissions of
    each one before the first that does not answer with data. *)
Fixpoint collectedOf (api : Z -> PageResponse) (pages : list Z)
  : list Form1Submission.t :=
  match pages with
  | [] => []
  | p :: rest =>
      if pageIsOk api p
      then (form1OfPage api p ++ collectedOf api rest)%list
      else []
  end.

(** The pages a run asked for, in order. *)
Fixpoint pagesRequested (events : list PagingEvent) : list Z :=
  match events with
  | [] => []
  | GetPage p :: rest => p :: pagesRequested rest
  | _ :: rest => pagesRequested rest
  end.

End Perscom.

(** ** src/bots/commandBot.ts *)

Module Bot.

Local Open Scope string_scope.
Local Open Scope Z_scope.

(** A guild of the client's cache: its [name] and [id]. *)
Record GuildInfo := { guild_name : string; guild_id : string }.

(** What the handlers do to the outside, console output included. *)
Inductive BotEvent :=
| LogLoggedIn (tag : option string)
| LogStartedRefreshing
| LogRefreshing (guildName : string)
| Put (applicationId guildId : string) (body : list string)
| LogRefreshed (guildName : string)
| ErrorRefreshFailed (guildName : string)
| LogFinished
| ErrorManagingCommands
| LogRegistering (guildName : string)
| LogRegistered (guildName : string)
| ErrorRegisterFailed (guildName : string).

Section Registration.
(** The REST service the PUT requests go to; [false] stands for a request
    that throws. *)
Variable Rest : Type.
Variable put : Rest -> string -> string -> list string -> bool * Rest.

(** [client.user?.id || ''], and the JSON of the commands ([None] when
    building it throws). *)
Variable userId : option string.
Variable commandData : option (list string).

Definition applicationId : string :=
  match userId with
  | Some i => i
  | None => EmptyString
  end.

(** The body of the loop over the guilds in the [ClientReady] handler. *)
Definition refreshGuild (rest : Rest) (body : list string) (g : GuildInfo)
  : list BotEvent * Rest :=
  let '(ok, rest') := put rest applicationId (guild_id g) body in
  ([ LogRefreshing (guild_name g);
     Put applicationId (guild_id g) body;
     if ok then LogRefreshed (guild_name g)
     else ErrorRefreshFailed (guild_name g) ],
   rest').

Fixpoint refreshGuilds (rest : Rest) (body : list string)
    (guilds : list GuildInfo) : list BotEvent * Rest :=
  match guilds with
  | [] => ([], rest)
  | g :: others =>
      let '(events, rest') := refreshGuild rest body g in
      let '(events', rest'') := refreshGuilds rest' body others in
      ((events ++ events')%list, rest'')
  end.

(** The [ClientReady] handler. *)
Definition onReady (tag : option string) (rest : Rest)
    (guilds : list GuildInfo) : list BotEvent * Rest :=
  match commandData with
  | None => ([LogLoggedIn tag; LogStartedRefreshing; ErrorManagingCommands],
             rest)
  | Some body =>
      let '(events, rest') := refreshGuilds rest body guilds in
      ((LogLoggedIn tag :: LogStartedRefreshing :: events ++ [LogFinished])%list,
       rest')
  end.

(** The [guildCreate] handler. *)
Definition onGuildCreate (rest : Rest) (g : GuildInfo)
  : list BotEvent * Rest :=
  match commandData with
  | None => ([LogRegistering (guild_name g);
              ErrorRegisterFailed (guild_name g)], rest)
  | Some body =>
      let '(ok, rest') := put rest applicationId (guild_id g) body in
      ([ LogRegistering (guild_name g);
         Put applicationId (guild_id g) body;
         if ok then LogRegistered (guild_name g)
         else ErrorRegisterFailed (guild_name g) ],
       rest')
  end.
End Registration.

Arguments refreshGuild {Rest}.
Arguments refreshGuilds {Rest}.
Arguments onReady {Rest}.
Arguments onGuildCreate {Rest}.

(** The guild ids a run sent a PUT for, in order. *)
Fixpoint putsSent (events : list BotEvent) : list string :=
  match events with
  | [] => []
  | Put _ guildId _ :: rest => guildId :: putsSent rest
  | _ :: rest => putsSent rest
  end.

(** *** Dispatching an interaction *)

(** How a command's [execute] ends: it returns, or throws with the
    interaction replied to or deferred, or not. *)
Inductive Outcome :=
| Returned
| Threw (repliedOrDeferred : bool).

Section Dispatch.
(** The events of the commands themselves, and the interactions. *)
Variable E : Type.
Variable I : Type.

Record Command := {
  name : string;
  execute : I -> list E * Outcome
}.

(** A [Collection] keyed by name, in insertion order. *)
Definition Collection := list (string * Command).

(** [collection.set(key, value)]: replaces the value of a key already
    there, else appends. *)
Fixpoint set (key : string) (value : Command) (c : Collection) : Collection :=
  match c with
  | [] => [(key, value)]
  | (key', value') :: rest =>
      if String.eqb key' key then (key', value) :: rest
      else (key', value') :: set key value rest
  end.

Fixpoint get (key : string) (c : Collection) : option Command :=
  match c with
  | [] => None
  | (key', value) :: rest =>
      if String.eqb key' key then Some value else get key rest
  end.

(** The loop that fills [botClient.commands]. *)
Fixpoint register (commands : list Command) (c : Collection) : Collection :=
  match commands with
  | [] => c
  | command :: rest => register rest (set (name command) command c)
  end.

Inductive DispatchEvent :=
| LogReceived (commandName : string)
| LogNotFound (commandName : string)
| Ran (events : list E)
| ErrorExecuting (commandName : string)
| FollowUpError
| ReplyError.

(** The [InteractionCreate] handler. *)
Definition onInteraction (c : Collection) (isChatInputCommand : bool)
    (commandName : string) (interaction : I) : list DispatchEvent :=
  if negb isChatInputCommand then []
  else
    match get commandName c with
    | None => [LogReceived commandName; LogNotFound commandName]
    | Some command =>
        let '(events, outcome) := execute command interaction in
        match outcome with
        | Returned => [LogReceived commandName; Ran events]
        | Threw repliedOrDeferred =>
            [ LogReceived commandName; Ran events;
              ErrorExecuting commandName;
              if repliedOrDeferred then FollowUpError else ReplyError ]
        end
    end.
End Dispatch.

Arguments name {E I}.
Arguments execute {E I}.
Arguments set {E I}.
Arguments get {E I}.
Arguments register {E I}.
Arguments onInteraction {E I}.
Arguments LogReceived {E}.
Arguments LogNotFound {E}.
Arguments Ran {E}.
Arguments ErrorExecuting {E}.
Arguments FollowUpError {E}.
Arguments ReplyError {E}.

End Bot.

(** ** The calendar, as the specification words it *)

Module Calendar.

Local Open Scope Z_scope.

(** Gregorian leap years. *)
Definition isLeapYear (y : Z) : bool :=
((y mod 4 =? 0) && negb (y mod 100 =? 0)) || (y mod 400 =? 0).

(** The length of month [m] (0 = January) of year [y]. *)
Definition daysInMonth (y m : Z) : Z :=
match m with
| 1 => if isLeapYear y then 29 else 28
| 3 | 5 | 8 | 10 => 30
| _ => 31
end.

End Calendar.

(** ** Sample hosts and inputs *)

Module Samples.

Import Attendance Perscom.
Local Open Scope string_scope.
Local Open Scope Z_scope.

(** A stand-in for the table renderer: cell contents separated by bars. *)
Definition cellText (c : Cell) : string :=
  match c with
  | CellString s => s
  | CellObj content _ _ => content
  end.

Definition renderTable (rows : list Row) : string :=
  String.concat JSString.nl
    (map (fun row => String.concat "|" (map cellText row)) rows).

Definition english_month (t : number) : string :=
  match JSDate.getUTCMonth t with
  | Some 0 => "January"
  | Some 1 => "February"
  | Some _ => "Month"
  | None => "Invalid Date"
  end.

(** 2024-01-01T00:00:00Z and its neighbours. *)
Definition jan_1_2024 : Z := 1704067200000.
Definition jan_3_2024 : Z := 1704240000000.
Definition jan_4_2024 : Z := 1704326400000.
Definition jan_10_2024 : Z := 1704844800000.

(** A host on UTC whose tracking starts on 1 January 2024. *)
Definition utcHost : Host :=
  {| TRACKING_START_DATE := jan_1_2024;
     LocalTZA := 0;
     toLocaleDateString := fun _ => "1/1/2024";
     monthLongName := english_month;
     Table_toString := renderTable |}.

(** The same host with tracking starting on 10 January 2024. *)
Definition lateHost : Host :=
  {| TRACKING_START_DATE := jan_10_2024;
     LocalTZA := 0;
     toLocaleDateString := fun _ => "1/10/2024";
     monthLongName := english_month;
     Table_toString := renderTable |}.

(** A clock that reads 4 January 2024, 00:00 UTC, every time. *)
Definition clock_jan_4 : Clock :=
  {| now_year := jan_4_2024; now_month := jan_4_2024;
     now_cutoff := jan_4_2024 |}.

Definition record_jan_3 : AttendanceRecord := {| date := Some jan_3_2024 |}.

(** A time value on 3 January 2024, from 00:00:00.000 to 23:59:59.999
    UTC. *)
Definition on_jan_3_2024 (t : Z) : Prop :=
  1704240000000 <= t <= 1704326399999.

Definition bob : GuildMember :=
  {| id := "42"; displayName := "Bob"; bot := false |}.

(** An invocation on 4 January 2024 in a guild with one member, who is
    then selected. *)
Definition invocation (month custom : option string) : Invocation :=
  {| requestedMonth := month;
     customDate := custom;
     today := jan_4_2024;
     guild := Some {| cache := []; community := false;
                      cacheAfterFetch := [] |};
     chunkFetch := FetchFailed;
     listFetch := Fetched [bob];
     selections := [SelValue "member_42"];
     playerAttendance := fun _ => Some [record_jan_3; record_jan_3];
     clock := clock_jan_4;
     rejects := fun _ => None |}.

(** The same invocation when the [n]-th reply call on the interaction is
    rejected with an [Error] saying "Unknown interaction". *)
Definition rejectedAt (n : nat) (inv : Invocation) : Invocation :=
  {| requestedMonth := requestedMonth inv;
     customDate := customDate inv;
     today := today inv;
     guild := guild inv;
     chunkFetch := chunkFetch inv;
     listFetch := listFetch inv;
     selections := selections inv;
     playerAttendance := playerAttendance inv;
     clock := clock inv;
     rejects := fun k => if Nat.eqb k n
                         then Some (ErrorObject "Unknown interaction")
                         else rejects inv k |}.

Definition submission (i f : Z) : Submission.t :=
  {| Submission.id := i; Submission.form_id := f; Submission.user_id := 7;
     Submission.created_at := EmptyString; Submission.updated_at := EmptyString;
     Submission.arma_3_id := EmptyString; Submission.discord_name := "d";
     Submission.first_name := "f"; Submission.date_of_birth := EmptyString;
     Submission.email_address := EmptyString; Submission.previous_unit := 0;
     Submission.preferred_position := EmptyString;
     Submission.why_do_you_want_to_join_red_squadron := EmptyString;
     Submission.label := EmptyString |}.

(** Six pages; page [p] serves submissions [10p] (form 1) and [10p + 1]
    (form 2). *)
Definition sixPages (p : Z) : PageResponse :=
  PageOk [submission (10 * p) 1; submission (10 * p + 1) 2].

(** The same service with page 5 answering 500. *)
Definition failsAtFive (p : Z) : PageResponse :=
  if p =? 5 then PageNotOk 500 "Server Error" else sixPages p.

Definition status (i : Z) : Status.t :=
  {| Status.id := i; Status.name := "s"; Status.color := "c";
     Status.order := 0; Status.created_at := EmptyString;
     Status.updated_at := EmptyString; Status.label := "l" |}.

(** A status service that answers by form id: status 7 for form 40, an
    error for form 50, no status otherwise. *)
Definition statusById (formId : Z) : StatusOutcome :=
  if formId =? 40 then StatusData (Some [status 3; status 7])
  else if formId =? 50 then StatusThrows
  else StatusData (Some []).

Definition statusServer (served : nat) (formId : Z) : StatusOutcome * nat :=
  (statusById formId, S served).

(** The attendance command as the bot registers it, and a second
    command. *)
Definition attendanceCommand : Bot.Command Event Invocation :=
  {| Bot.name := "nswg-attendance";
     Bot.execute := fun inv => (execute (host := utcHost) inv, Bot.Returned) |}.

Definition otherCommand : Bot.Command Event Invocation :=
  {| Bot.name := "nswg-message";
     Bot.execute := fun _ => ([], Bot.Threw false) |}.

(** A REST service that counts requests and refuses guild "g2". *)
Definition flakyRest (served : nat) (applicationId guildId : string)
    (body : list string) : bool * nat :=
  (negb (String.eqb guildId "g2"), S served).

Definition denied (name : string) (uid : Z) : DeniedUsers.t :=
  {| DeniedUsers.first_name := name; DeniedUsers.discord_name := EmptyString;
     DeniedUsers.user_id := uid; DeniedUsers.preferred_position := EmptyString;
     DeniedUsers.form_id := None; DeniedUsers.date_of_birth := None |}.

(** A service that counts requests, refuses user 2 and is unreachable for
    user 3. *)
Definition flakyServer (served : nat) (uid : Z) : DeleteResponse * nat :=
  (if uid =? 2 then NotOk 404 "Not Found" (Some "gone")
   else if uid =? 3 then FetchThrows "network"
   else Ok (Some "{}"),
   S served).

End Samples.

(* ===================================================================== *)
(** * Part II: properties                                                  *)
(* ===================================================================== *)

Import JSDate JSString Attendance.
Local Open Scope string_scope.
Local Open Scope Z_scope.

(** ** Date arithmetic *)

Lemma DayFromYear_succ y : DayFromYear (y + 1) = DayFromYear y + DaysInYear y.
Proof.
  unfold DayFromYear, DaysInYear.
  destruct (Z.eqb_spec (y mod 4) 0), (Z.eqb_spec (y mod 100) 0),
    (Z.eqb_spec (y mod 400) 0); cbn [negb]; Z.div_mod_to_equations; lia.
Qed.

Lemma DayFromYear_mono y1 y2 : y1 <= y2 -> DayFromYear y1 <= DayFromYear y2.
Proof.
  unfold DayFromYear. intros. Z.div_mod_to_equations. lia.
Qed.

Lemma DaysInYear_leap y : DaysInYear y = 365 + InLeapYearOf y.
Proof.
  unfold InLeapYearOf, DaysInYear.
  destruct (y mod 4 =? 0), (y mod 100 =? 0), (y mod 400 =? 0); reflexivity.
Qed.

Lemma InLeapYearOf_range y : InLeapYearOf y = 0 \/ InLeapYearOf y = 1.
Proof. unfold InLeapYearOf. destruct (_ =? _); auto. Qed.

(** [YearFromDay] returns the year whose days include [d]. *)
Lemma YearFromDay_spec d :
  DayFromYear (YearFromDay d) <= d < DayFromYear (YearFromDay d + 1).
Proof.
  unfold YearFromDay.
  set (y := 1970 + 400 * d / 146097).
  assert (Hlo : DayFromYear (y - 1) <= d).
  { unfold DayFromYear, y. Z.div_mod_to_equations. lia. }
  assert (Hhi : d < DayFromYear (y + 2)).
  { unfold DayFromYear, y. Z.div_mod_to_equations. lia. }
  destruct (Z.leb_spec (DayFromYear (y + 1)) d).
  - replace (y + 1 + 1) with (y + 2) by lia. lia.
  - destruct (Z.leb_spec (DayFromYear y) d).
    + lia.
    + replace (y - 1 + 1) with y by lia. lia.
Qed.

Lemma YearFromDay_unique y d :
  DayFromYear y <= d < DayFromYear (y + 1) -> YearFromDay d = y.
Proof.
  intros Hd. pose proof (YearFromDay_spec d) as Hs.
  destruct (Z.lt_trichotomy (YearFromDay d) y) as [Hlt | [Heq | Hgt]]; auto.
  - pose proof (DayFromYear_mono (YearFromDay d + 1) y). lia.
  - pose proof (DayFromYear_mono (y + 1) (YearFromDay d)). lia.
Qed.

(** A day given by its year and its offset within the year. *)
Lemma year_and_offset y w :
  0 <= w < DaysInYear y ->
  YearFromDay (DayFromYear y + w) = y /\ DayWithinYear (DayFromYear y + w) = w.
Proof.
  intros Hw.
  assert (Hy : YearFromDay (DayFromYear y + w) = y).
  { apply YearFromDay_unique. rewrite DayFromYear_succ. lia. }
  split; auto. unfold DayWithinYear. rewrite Hy. lia.
Qed.

Lemma month_cases m :
  0 <= m <= 11 ->
  m = 0 \/ m = 1 \/ m = 2 \/ m = 3 \/ m = 4 \/ m = 5 \/ m = 6 \/ m = 7 \/
  m = 8 \/ m = 9 \/ m = 10 \/ m = 11.
Proof. lia. Qed.

Ltac each_month H :=
  destruct (month_cases _ H) as
    [-> | [-> | [-> | [-> | [-> | [-> | [-> | [-> | [-> | [-> | [-> | ->]]]]]]]]]]].

(** Day 0 of month [m + 1] is the last day of month [m] of the same year. *)
Lemma MakeDay_day0 y m :
  0 <= m <= 11 ->
  MakeDay (Some y) (Some (m + 1)) (Some 0) =
  Some (DayFromYear y + (monthStart (InLeapYearOf y) (m + 1) - 1)).
Proof.
  intros Hm. unfold MakeDay. f_equal.
  destruct (Z.eq_dec m 11) as [-> | Hne].
  - change ((11 + 1) / 12) with 1. change ((11 + 1) mod 12) with 0.
    rewrite DayFromYear_succ, DaysInYear_leap.
    destruct (InLeapYearOf_range y) as [-> | ->],
      (InLeapYearOf_range (y + 1)) as [-> | ->]; cbn; lia.
  - rewrite Z.div_small, Z.mod_small by lia.
    rewrite !Z.add_0_r. lia.
Qed.

Lemma DateFromDay_last y m :
  0 <= m <= 11 ->
  DateFromDay (DayFromYear y + (monthStart (InLeapYearOf y) (m + 1) - 1)) =
  monthLength (InLeapYearOf y) m.
Proof.
  intros Hm.
  assert (Hw : 0 <= monthStart (InLeapYearOf y) (m + 1) - 1 < DaysInYear y).
  { rewrite DaysInYear_leap.
    destruct (InLeapYearOf_range y) as [-> | ->]; each_month Hm; cbn; lia. }
  destruct (year_and_offset y _ Hw) as [Hy Hd].
  unfold DateFromDay, MonthFromDay, monthLength. rewrite Hy, Hd.
  destruct (InLeapYearOf_range y) as [-> | ->]; each_month Hm; reflexivity.
Qed.

Lemma monthLength_daysInMonth y m :
  0 <= m <= 11 ->
  monthLength (InLeapYearOf y) m = Calendar.daysInMonth y m.
Proof.
  intros Hm.
  assert (Hl : InLeapYearOf y = if Calendar.isLeapYear y then 1 else 0).
  { unfold InLeapYearOf, DaysInYear, Calendar.isLeapYear.
    destruct (Z.eqb_spec (y mod 4) 0), (Z.eqb_spec (y mod 100) 0),
      (Z.eqb_spec (y mod 400) 0); try reflexivity;
      exfalso; Z.div_mod_to_equations; lia. }
  rewrite Hl. unfold Calendar.daysInMonth.
  destruct (Calendar.isLeapYear y); each_month Hm; reflexivity.
Qed.

(** Two-digit years are read as 19xx, which keeps the leap flag except for
    year 0. *)
Lemma InLeapYearOf_two_digit y :
  1 <= y <= 99 -> InLeapYearOf (1900 + y) = InLeapYearOf y.
Proof.
  intros Hy. unfold InLeapYearOf, DaysInYear.
  assert (H4 : (1900 + y) mod 4 = y mod 4)
    by (Z.div_mod_to_equations; lia).
  assert (H100 : (1900 + y) mod 100 = y mod 100)
    by (Z.div_mod_to_equations; lia).
  assert (Hn : y mod 100 <> 0) by (Z.div_mod_to_equations; lia).
  rewrite H4, H100.
  destruct (Z.eqb_spec (y mod 100) 0); [contradiction |].
  destruct (y mod 4 =? 0); reflexivity.
Qed.


(** ** The number of days the loop visits *)

Section DaysInMonth.
Context {host : Host}.

Lemma DayFromYear_range y :
  -271820 <= y <= 275759 ->
  -99999744 <= DayFromYear y /\ DayFromYear y + 365 <= 99999744.
Proof.
  intros Hy.
  pose proof (DayFromYear_mono (-271820) y).
  pose proof (DayFromYear_mono y 275759).
  assert (DayFromYear (-271820) = -99999744) by reflexivity.
  assert (DayFromYear 275759 = 99999379) by reflexivity.
  lia.
Qed.

(** The local date built for day 0 of the following month, read back
    with [getDate]. *)
Lemma getDate_day0 y m :
  - msPerDay <= LocalTZA <= msPerDay ->
  -271820 <= y <= 275759 ->
  0 <= m <= 11 ->
  getDate LocalTZA
    (TimeClip (UTC LocalTZA
       (MakeDate (MakeDay (Some y) (Some (m + 1)) (Some 0))
                 (MakeTime 0 0 0 0)))) =
  Some (monthLength (InLeapYearOf y) m).
Proof.
  intros Htz Hy Hm. rewrite MakeDay_day0 by assumption.
  set (d := DayFromYear y + (monthStart (InLeapYearOf y) (m + 1) - 1)).
  assert (Hd : -99999744 <= d <= 99999744).
  { pose proof (DayFromYear_range y Hy). subst d.
    destruct (InLeapYearOf_range y) as [-> | ->]; each_month Hm; cbn; lia. }
  cbn [MakeDate UTC option_map TimeClip].
  change (MakeTime 0 0 0 0) with 0.
  unfold msPerDay, maxTime in *.
  destruct (Z.leb_spec (Z.abs (d * 86400000 + 0 - LocalTZA))
                       8640000000000000) as [_ | Hbad]; [| lia].
  cbn [getDate option_map]. f_equal.
  unfold DateFromTime, LocalTime, Day, msPerDay.
  replace (d * 86400000 + 0 - LocalTZA + LocalTZA) with (d * 86400000)
    by lia.
  rewrite Z.div_mul by lia. subst d. apply DateFromDay_last. assumption.
Qed.

Lemma lastDay_daysInMonth (year month : Z) :
  - msPerDay <= LocalTZA <= msPerDay ->
  -271820 <= year <= 275759 ->
  year <> 0 ->
  0 <= month <= 11 ->
  lastDay (Some year) (Some month) = Some (Calendar.daysInMonth year month).
Proof.
  intros Htz Hy H0 Hm. unfold lastDay, Date_local.
  change (JSNum.add (Some month) (Some 1)) with (Some (month + 1)).
  rewrite <- monthLength_daysInMonth by assumption.
  unfold MakeFullYear.
  destruct (Z.leb_spec 0 year), (Z.leb_spec year 99); cbn [andb].
  - rewrite getDate_day0 by (try assumption; lia).
    rewrite InLeapYearOf_two_digit by lia. reflexivity.
  - apply getDate_day0; assumption.
  - apply getDate_day0; assumption.
  - apply getDate_day0; assumption.
Qed.

End DaysInMonth.



(** ** The day loop *)

Section DayLoop.
Context {host : Host}.
Variable clock : Clock.
Variable attendanceData : list AttendanceRecord.
Variables year month : number.

Let body := dayBody clock attendanceData year month.
Let loop := calendarLoop clock attendanceData year month.

(** What one iteration adds to the two counters. *)
Lemma dayBody_counts st day :
  totalRaidDays (body st day)
  = totalRaidDays st + (if counted clock year month day then 1 else 0)
  /\ attendedRaidDays (body st day)
     = attendedRaidDays st
       + (if counted clock year month day
             && wasPresent attendanceData year month day
          then 1 else 0).
Proof.
  unfold body, dayBody, counted.
  destruct (isRaidDay year month day);
    destruct (JSNum.le (dateOfDay year month day)
                       (lastDayToCount clock year month));
    destruct (isTrackingEnabled year month day);
    destruct (wasPresent attendanceData year month day);
    cbn [andb];
    destruct (_ || _); cbn; lia.
Qed.

Lemma loop_succ n : loop (S n) = body (loop n) (Z.of_nat (S n)).
Proof. reflexivity. Qed.

(** The counters never decrease, and [attended] never overtakes
    [total]. *)
Lemma loop_invariant n :
  0 <= attendedRaidDays (loop n) <= totalRaidDays (loop n).
Proof.
  induction n as [| n IH].
  - cbn. lia.
  - rewrite loop_succ.
    destruct (dayBody_counts (loop n) (Z.of_nat (S n))) as [-> ->].
    destruct (counted clock year month (Z.of_nat (S n)));
      destruct (wasPresent attendanceData year month (Z.of_nat (S n)));
      cbn [andb]; lia.
Qed.

Lemma days_succ n : days (S n) = (days n ++ [Z.of_nat (S n)])%list.
Proof.
  unfold days. rewrite seq_S, map_app. reflexivity.
Qed.

Lemma countIf_snoc f l d :
  countIf f (l ++ [d]) = countIf f l + (if f d then 1 else 0).
Proof.
  unfold countIf. rewrite filter_app, length_app. cbn [filter].
  destruct (f d); cbn [List.length]; lia.
Qed.

(** The counters after [n] iterations count the days that enter the
    rate, and those of them with a matching record. *)
Lemma loop_counts n :
  totalRaidDays (loop n) = countIf (counted clock year month) (days n)
  /\ attendedRaidDays (loop n)
     = countIf (fun day => counted clock year month day
                           && wasPresent attendanceData year month day)
               (days n).
Proof.
  induction n as [| n [IHt IHa]].
  - split; reflexivity.
  - rewrite loop_succ, days_succ, !countIf_snoc.
    destruct (dayBody_counts (loop n) (Z.of_nat (S n))) as [-> ->].
    rewrite IHt, IHa. split; reflexivity.
Qed.
End DayLoop.

(** ** Which days enter the rate *)

Section CountedDays.
Context {host : Host}.

(** C2: a raid day (UTC Wednesday or Saturday) of the rendered month that
    falls strictly before [TRACKING_START_DATE] adds to neither the
    attended count nor the total, whatever the attendance records are. *)
Theorem raid_day_before_tracking_not_counted
    (clock : Clock) (attendanceData : list AttendanceRecord)
    (year month : number) (n : nat) :
  isRaidDay year month (Z.of_nat (S n)) = true ->
  JSNum.lt (dateOfDay year month (Z.of_nat (S n)))
           (Some TRACKING_START_DATE) = true ->
  totalRaidDays (calendarLoop clock attendanceData year month (S n))
  = totalRaidDays (calendarLoop clock attendanceData year month n)
  /\ attendedRaidDays (calendarLoop clock attendanceData year month (S n))
     = attendedRaidDays (calendarLoop clock attendanceData year month n).
Proof.
  intros _ Hbefore.
  assert (Hc : counted clock year month (Z.of_nat (S n)) = false).
  { unfold counted, isTrackingEnabled.
    destruct (dateOfDay year month (Z.of_nat (S n))) as [t |];
      [| discriminate].
    cbn in Hbefore |- *.
    replace (t >=? TRACKING_START_DATE) with false.
    - apply andb_false_r.
    - symmetry. rewrite Z.geb_leb. apply Z.leb_gt. apply Z.ltb_lt.
      exact Hbefore. }
  rewrite loop_succ.
  destruct (dayBody_counts clock attendanceData year month
              (calendarLoop clock attendanceData year month n)
              (Z.of_nat (S n))) as [-> ->].
  rewrite Hc. cbn [andb]. lia.
Qed.

(** C5: when the viewed year and month are the current UTC year and
    month, a raid day after "now" (the cutoff) adds to neither the
    attended count nor the total. *)
Theorem raid_day_after_now_not_counted
    (clock : Clock) (attendanceData : list AttendanceRecord)
    (year month : number) (n : nat) :
  isCurrentMonth clock year month = true ->
  isRaidDay year month (Z.of_nat (S n)) = true ->
  JSNum.gt (dateOfDay year month (Z.of_nat (S n)))
           (Some (now_cutoff clock)) = true ->
  totalRaidDays (calendarLoop clock attendanceData year month (S n))
  = totalRaidDays (calendarLoop clock attendanceData year month n)
  /\ attendedRaidDays (calendarLoop clock attendanceData year month (S n))
     = attendedRaidDays (calendarLoop clock attendanceData year month n).
Proof.
  intros Hcur _ Hafter.
  assert (Hc : counted clock year month (Z.of_nat (S n)) = false).
  { unfold counted, lastDayToCount. rewrite Hcur.
    destruct (dateOfDay year month (Z.of_nat (S n))) as [t |];
      [| discriminate].
    cbn in Hafter |- *.
    replace (t <=? now_cutoff clock) with false.
    - rewrite andb_false_r. reflexivity.
    - symmetry. apply Z.leb_gt. rewrite Z.gtb_ltb in Hafter.
      apply Z.ltb_lt. exact Hafter. }
  rewrite loop_succ.
  destruct (dayBody_counts clock attendanceData year month
              (calendarLoop clock attendanceData year month n)
              (Z.of_nat (S n))) as [-> ->].
  rewrite Hc. cbn [andb]. lia.
Qed.
End CountedDays.

(** Wednesday 3 January 2024 with tracking starting on 10 January, and two
    records on that day. *)
Lemma raid_day_before_tracking_not_counted_witness :
  (isRaidDay (Some 2024) (Some 0) 3 = true
   /\ JSNum.lt (dateOfDay (Some 2024) (Some 0) 3)
               (Some (TRACKING_START_DATE (Host := Samples.lateHost))) = true)
  /\ (totalRaidDays
        (calendarLoop (host := Samples.lateHost) Samples.clock_jan_4
           [Samples.record_jan_3; Samples.record_jan_3] (Some 2024) (Some 0) 3)
      = totalRaidDays
          (calendarLoop (host := Samples.lateHost) Samples.clock_jan_4
             [Samples.record_jan_3; Samples.record_jan_3] (Some 2024) (Some 0) 2)
      /\ attendedRaidDays
           (calendarLoop (host := Samples.lateHost) Samples.clock_jan_4
              [Samples.record_jan_3; Samples.record_jan_3] (Some 2024) (Some 0) 3)
         = attendedRaidDays
             (calendarLoop (host := Samples.lateHost) Samples.clock_jan_4
                [Samples.record_jan_3; Samples.record_jan_3] (Some 2024) (Some 0) 2)).
Proof.
  split.
  - split; reflexivity.
  - apply (raid_day_before_tracking_not_counted (host := Samples.lateHost)
             Samples.clock_jan_4 [Samples.record_jan_3; Samples.record_jan_3]
             (Some 2024) (Some 0) 2); reflexivity.
Defined.

(** Saturday 6 January 2024 seen on 4 January 2024. *)
Lemma raid_day_after_now_not_counted_witness :
  (isCurrentMonth Samples.clock_jan_4 (Some 2024) (Some 0) = true
   /\ isRaidDay (Some 2024) (Some 0) 6 = true
   /\ JSNum.gt (dateOfDay (Some 2024) (Some 0) 6)
               (Some (now_cutoff Samples.clock_jan_4)) = true)
  /\ (totalRaidDays
        (calendarLoop (host := Samples.utcHost) Samples.clock_jan_4
           [Samples.record_jan_3] (Some 2024) (Some 0) 6)
      = totalRaidDays
          (calendarLoop (host := Samples.utcHost) Samples.clock_jan_4
             [Samples.record_jan_3] (Some 2024) (Some 0) 5)
      /\ attendedRaidDays
           (calendarLoop (host := Samples.utcHost) Samples.clock_jan_4
              [Samples.record_jan_3] (Some 2024) (Some 0) 6)
         = attendedRaidDays
             (calendarLoop (host := Samples.utcHost) Samples.clock_jan_4
                [Samples.record_jan_3] (Some 2024) (Some 0) 5)).
Proof.
  split.
  - repeat split; reflexivity.
  - apply (raid_day_after_now_not_counted (host := Samples.utcHost)
             Samples.clock_jan_4 [Samples.record_jan_3]
             (Some 2024) (Some 0) 5); reflexivity.
Defined.

(** ** The attendance rate *)

Section Rate.
Context {host : Host}.

(** [Math.round(attended / total * 100)] in integer arithmetic. *)
Lemma attendanceRate_exact attended total :
  0 < total ->
  attendanceRate attended total = (200 * attended + total) / (2 * total).
Proof.
  intros Ht. unfold attendanceRate, Math_round.
  destruct (Z.eqb_spec total 0) as [-> | _]; [lia |].
  destruct total as [| p | p]; try lia.
  unfold Qdiv, Qinv, inject_Z. cbn [Qnum Qden].
  unfold Qmult, Qplus, Qfloor. cbn [Qnum Qden].
  f_equal; lia.
Qed.

Lemma attendanceRate_bounds attended total :
  0 <= attended <= total ->
  0 <= attendanceRate attended total <= 100.
Proof.
  intros Ha.
  destruct (Z.eq_dec total 0) as [-> | Hne].
  - unfold attendanceRate. rewrite Z.eqb_refl. lia.
  - rewrite attendanceRate_exact by lia.
    split.
    + apply Z.div_pos; lia.
    + apply Z.lt_succ_r. apply Z.div_lt_upper_bound; lia.
Qed.

(** C9: at every iteration of the day loop [attendedRaidDays] is at most
    [totalRaidDays]; so the rate lies between 0 and 100, no raid days
    counted means none attended, and the no-data guard
    [attendedRaidDays === 0 && totalRaidDays === 0] is the same test as
    [totalRaidDays === 0]. *)
Theorem attended_le_total
    (clock : Clock) (attendanceData : list AttendanceRecord)
    (year month : number) (n : nat) :
  attendedRaidDays (calendarLoop clock attendanceData year month n)
  <= totalRaidDays (calendarLoop clock attendanceData year month n)
  /\ 0 <= attendanceRate
            (attendedRaidDays (finalState clock attendanceData year month))
            (totalRaidDays (finalState clock attendanceData year month))
       <= 100
  /\ (totalRaidDays (calendarLoop clock attendanceData year month n) = 0 ->
      attendedRaidDays (calendarLoop clock attendanceData year month n) = 0)
  /\ (attendedRaidDays (finalState clock attendanceData year month) =? 0)
     && (totalRaidDays (finalState clock attendanceData year month) =? 0)
     = (totalRaidDays (finalState clock attendanceData year month) =? 0).
Proof.
  pose proof (loop_invariant clock attendanceData year month n) as Hn.
  pose proof (loop_invariant clock attendanceData year month
                (iterations year month)) as Hf.
  fold (finalState clock attendanceData year month) in Hf.
  repeat split.
  - lia.
  - apply attendanceRate_bounds. exact Hf.
  - apply attendanceRate_bounds. exact Hf.
  - lia.
  - destruct (Z.eqb_spec (totalRaidDays
                (finalState clock attendanceData year month)) 0) as [E | E].
    + replace (attendedRaidDays
                 (finalState clock attendanceData year month)) with 0 by lia.
      reflexivity.
    + apply andb_false_r.
Qed.
End Rate.

(** ** The summary under the grid *)

Section Summary.
Context {host : Host}.

End Summary.


(** The two descriptions of the sample runs, rendered. *)
Example description_no_data :
  description
    (generateCalendarEmbed (host := Samples.utcHost) Samples.clock_jan_4
       [Samples.record_jan_3] (Some 2023) (Some 0) "Bob")
  = "```ansi" ++ nl
    ++ Samples.renderTable
         (table (finalState (host := Samples.utcHost) Samples.clock_jan_4
                   [Samples.record_jan_3] (Some 2023) (Some 0)))
    ++ nl ++ "```" ++ nl
    ++ "No attendance data available yet. Tracking begins 1/1/2024".
Proof. vm_compute. reflexivity. Qed.

Example description_rate :
  description
    (generateCalendarEmbed (host := Samples.utcHost) Samples.clock_jan_4
       [Samples.record_jan_3] (Some 2024) (Some 0) "Bob")
  = "```ansi" ++ nl
    ++ Samples.renderTable
         (table (finalState (host := Samples.utcHost) Samples.clock_jan_4
                   [Samples.record_jan_3] (Some 2024) (Some 0)))
    ++ nl ++ "```" ++ nl ++ "Attendance Rate: 100% (1/1 raids)".
Proof. vm_compute. reflexivity. Qed.

(** Rounding: one raid attended out of three gives 33, one out of eight
    (12.5) rounds up to 13. *)
Example attendanceRate_1_3 : attendanceRate 1 3 = 33 /\ attendanceRate 1 8 = 13.
Proof. split; reflexivity. Qed.

(** ** Several records on one raid day *)

Section Duplicates.
Context {host : Host}.

Lemma Day_jan_3_2024 t : Samples.on_jan_3_2024 t -> Day t = 19725.
Proof.
  unfold Samples.on_jan_3_2024, Day, msPerDay. intros Ht.
  Z.div_mod_to_equations. lia.
Qed.

(** A record stamped on 3 January 2024 marks that day present in the
    January 2024 view, however often it is repeated. *)
Lemma wasPresent_jan_3_2024 t more :
  Samples.on_jan_3_2024 t ->
  wasPresent ({| date := Some t |} :: more) (Some 2024) (Some 0) 3 = true.
Proof.
  intros Ht. pose proof (Day_jan_3_2024 t Ht) as Hday.
  unfold wasPresent, monthAttendance. cbn [filter date].
  assert (Hy : getUTCFullYear (Some t) = Some 2024).
  { cbn [getUTCFullYear option_map]. unfold YearFromTime.
    rewrite Hday. reflexivity. }
  assert (Hm : getUTCMonth (Some t) = Some 0).
  { cbn [getUTCMonth option_map]. unfold MonthFromTime.
    rewrite Hday. reflexivity. }
  rewrite Hy, Hm. cbn [JSNum.seq JSNum.cmp Z.eqb Pos.eqb andb].
  change (JSNum.seq (Some 2024) (Some 2024)) with true.
  cbn [andb existsb date].
  assert (Hc : compareDates (Some 2024) (Some 0) (Some t)
                 (dateOfDay (Some 2024) (Some 0) 3) = true).
  { unfold compareDates, getTime.
    change (Date_of_value
              (Date_UTC7 (Some 2024) (Some 0)
                 (getUTCDate (dateOfDay (Some 2024) (Some 0) 3)) 0 0 0 0))
      with (Some 1704240000000).
    change (Date_of_value
              (Date_UTC7 (Some 2024) (Some 0)
                 (getUTCDate (dateOfDay (Some 2024) (Some 0) 3))
                 23 59 59 999))
      with (Some 1704326399999).
    unfold Samples.on_jan_3_2024 in Ht. cbn [JSNum.ge JSNum.le JSNum.cmp].
    rewrite Z.geb_leb.
    apply andb_true_intro. split; apply Z.leb_le; lia. }
  rewrite Hc. reflexivity.
Qed.

Lemma days_range n d : In d (days n) -> 1 <= d <= Z.of_nat n.
Proof.
  unfold days. rewrite in_map_iff. intros [k [<- Hk]].
  apply in_seq in Hk. lia.
Qed.

Lemma countIf_ext f g l :
  (forall d, In d l -> f d = g d) -> countIf f l = countIf g l.
Proof.
  intros H. unfold countIf. f_equal. f_equal. apply filter_ext_in. exact H.
Qed.

End Duplicates.


(** ** Runs of the command *)

Section Runs.

Lemma call_resolves rejects e resolved i :
  rejects (callsMade i) = None ->
  call rejects e resolved i = ([e], resolved (afterCall i), inl tt).
Proof. intros H. unfold call. rewrite H. reflexivity. Qed.

Lemma call_rejected rejects e resolved i thrown :
  rejects (callsMade i) = Some thrown ->
  call rejects e resolved i = ([Rejected e], afterCall i, inr thrown).
Proof. intros H. unfold call. rewrite H. reflexivity. Qed.

Lemma existsb_false_Forall {A} (f : A -> bool) l :
  Forall (fun x => f x = false) l -> existsb f l = false.
Proof.
  induction 1 as [| x l Hx _ IH]; [reflexivity |].
  cbn [existsb]. rewrite Hx, IH. reflexivity.
Qed.

Lemma eventsAll_ret {A} P (a : A) : eventsAll P (ret a).
Proof. intros i. constructor. Qed.

Lemma eventsAll_throw {A} P thrown : eventsAll P (@throw A thrown).
Proof. intros i. constructor. Qed.

Lemma eventsAll_emit (P : Event -> Prop) e : P e -> eventsAll P (emit e).
Proof. intros He i. repeat constructor. exact He. Qed.

Lemma eventsAll_lift {A} P (p : list Event * A) :
  Forall P (fst p) -> eventsAll P (lift p).
Proof. intros Hp i. exact Hp. Qed.

Lemma eventsAll_call (P : Event -> Prop) rejects e resolved :
  P e -> P (Rejected e) -> eventsAll P (call rejects e resolved).
Proof.
  intros He Hr i. unfold call.
  destruct (rejects (callsMade i)); repeat constructor; assumption.
Qed.

Lemma eventsAll_bind {A B} P (m : Run A) (k : A -> Run B) :
  eventsAll P m ->
  (forall a, (exists i, outcomeOf (m i) = inl a) -> eventsAll P (k a)) ->
  eventsAll P (bind m k).
Proof.
  intros Hm Hk i. unfold bind.
  destruct (outcomeOf (m i)) as [a | thrown] eqn:Ho; cbn [eventsOf fst].
  - apply Forall_app. split; [apply Hm | apply Hk; eauto].
  - apply Hm.
Qed.

Lemma eventsAll_tryCatch {A} P (m : Run A) handler :
  eventsAll P m -> (forall thrown, eventsAll P (handler thrown)) ->
  eventsAll P (tryCatch m handler).
Proof.
  intros Hm Hh i. unfold tryCatch.
  destruct (outcomeOf (m i)) as [a | thrown]; cbn [eventsOf fst].
  - apply Hm.
  - apply Forall_app. split; [apply Hm | apply Hh].
Qed.

Lemma eventsAll_swallow P m : eventsAll P m -> eventsAll P (swallow m).
Proof.
  intros Hm. apply eventsAll_tryCatch; [exact Hm |].
  intros thrown. apply eventsAll_ret.
Qed.

Lemma handleMemberSelection_events (P : Event -> Prop)
    rejects memberList sels page :
  (forall options, P (EditReply selectPrompt (SelectMenu options))) ->
  (forall options, P (Rejected (EditReply selectPrompt (SelectMenu options)))) ->
  P AwaitMessageComponent -> P DeferUpdate ->
  eventsAll P (handleMemberSelection rejects memberList sels page).
Proof.
  intros Hshow Hrejected Hwait Hupdate. revert page.
  induction sels as [| sel rest IH]; intros page;
    cbn [handleMemberSelection].
  all: apply eventsAll_bind; [apply eventsAll_call; auto | intros _ _].
  all: apply eventsAll_bind; [apply eventsAll_emit; exact Hwait | intros _ _].
  { apply eventsAll_ret. }
  destruct sel as [| | v]; try apply eventsAll_ret.
  apply eventsAll_bind; [apply eventsAll_emit; exact Hupdate | intros _ _].
  destruct (String.eqb _ "page"); [apply IH | apply eventsAll_ret].
Qed.

Lemma fetchGuildMembers_events g chunk list_ :
  Forall (fun e => exists kind, e = MembersFetch kind)
         (fst (fetchGuildMembers g chunk list_)).
Proof.
  unfold fetchGuildMembers.
  destruct (0 <? _); [constructor |].
  destruct (community g), chunk, list_; cbn [fst app];
    repeat constructor; eauto.
Qed.

Context {host : Host}.

Lemma showCalendar_expected inv y m name :
  resolveMonth inv = inr (y, m) ->
  fetchedNonBot inv name ->
  eventsAll (expected inv) (showCalendar inv y m name).
Proof.
  intros Hmonth Hname.
  assert (Haccepted : exists accepted, resolveMonth inv = inr accepted)
    by eauto.
  assert (Htext : forall content,
             In content showAttendanceMessages -> replyText inv content).
  { intros content Hin. right. left. auto. }
  unfold showCalendar. apply eventsAll_tryCatch.
  - apply eventsAll_bind;
      [apply eventsAll_emit; cbn [expected]; auto | intros _ _].
    destruct (playerAttendance inv name); [| apply eventsAll_throw].
    apply eventsAll_bind;
      [apply eventsAll_call; cbn [expected]; exact Haccepted | intros _ _].
    apply eventsAll_call; cbn [expected]; apply Htext;
      unfold showAttendanceMessages; cbn [In]; tauto.
  - intros thrown.
    apply eventsAll_call; cbn [expected]; apply Htext;
      unfold showAttendanceMessages; cbn [In]; tauto.
Qed.

Lemma showAttendance_expected inv y m :
  resolveMonth inv = inr (y, m) ->
  eventsAll (expected inv) (showAttendance inv y m).
Proof.
  intros Hmonth.
  assert (Haccepted : exists accepted, resolveMonth inv = inr accepted)
    by eauto.
  assert (Hedit : forall content components,
             In content showAttendanceMessages ->
             eventsAll (expected inv)
               (editReply (rejects inv) content components)).
  { intros content components Hin.
    apply eventsAll_call; cbn [expected]; right; left; auto. }
  unfold showAttendance.
  destruct (guild inv) as [g |] eqn:Hguild;
    [| apply Hedit; unfold showAttendanceMessages; cbn [In]; tauto].
  apply eventsAll_bind.
  { apply eventsAll_lift.
    eapply Forall_impl; [| apply fetchGuildMembers_events].
    intros e [kind ->]. exact Haccepted. }
  intros fetched [i Hfetched]. cbn in Hfetched.
  injection Hfetched as Hfetched.
  destruct fetched as [[| member members] |];
    try (apply Hedit; unfold showAttendanceMessages; cbn [In]; tauto).
  set (all := member :: members) in *.
  set (memberList :=
         map (fun m0 => {| info_id := id m0;
                           info_displayName := displayName m0 |})
             (filter (fun m0 => negb (bot m0)) all)) in *.
  destruct memberList as [| info infos] eqn:Hl;
    [apply Hedit; unfold showAttendanceMessages; cbn [In]; tauto |].
  apply eventsAll_bind.
  { apply handleMemberSelection_events; cbn [expected];
      try exact Haccepted;
      intros options; right; left; (split; [exact Haccepted |]);
      unfold showAttendanceMessages; cbn [In]; tauto. }
  intros selected _.
  destruct selected as [[| c selected] |];
    try (apply Hedit; unfold showAttendanceMessages; cbn [In]; tauto).
  destruct (find _ (info :: infos)) as [selectedMember |] eqn:Hfind;
    [| apply Hedit; unfold showAttendanceMessages; cbn [In]; tauto].
  apply showCalendar_expected; [exact Hmonth |].
  apply find_some in Hfind. destruct Hfind as [Hmember _].
  rewrite <- Hl in Hmember. subst memberList.
  apply in_map_iff in Hmember. destruct Hmember as [m0 [Hinfo Hm0]].
  apply filter_In in Hm0. destruct Hm0 as [Hm0 Hbot].
  exists g, all, m0. repeat split; try assumption.
  - apply negb_true_iff. exact Hbot.
  - rewrite <- Hinfo. reflexivity.
Qed.

Lemma recover_expected inv thrown : eventsAll (expected inv) (recover inv thrown).
Proof.
  intros i. unfold recover.
  destruct (negb (replied i) && negb (deferred i)).
  - apply (eventsAll_swallow (expected inv)).
    apply eventsAll_call; cbn [expected]; eauto.
  - apply (eventsAll_swallow (expected inv)).
    apply eventsAll_call; cbn [expected]; right; right; eauto.
Qed.

(** Every event of a run is one the command can cause, under the
    condition that goes with it. *)
Lemma execute_expected inv : Forall (expected inv) (execute inv).
Proof.
  unfold execute. apply eventsAll_tryCatch; [| apply recover_expected].
  unfold attempt. apply eventsAll_bind.
  { apply eventsAll_call; exact I. }
  intros _ _. destruct (resolveMonth inv) as [message | [y m]] eqn:Hmonth.
  - apply eventsAll_call; cbn [expected]; left; exact Hmonth.
  - apply showAttendance_expected. exact Hmonth.
Qed.

(** A custom date whose month field reads 13 is answered with the
    invalid-format message. *)
Lemma resolveMonth_month_13 inv s :
  customDate inv = Some s ->
  parseInt (hd EmptyString (split "/" s)) = Some 13 ->
  resolveMonth inv = inl invalidDateFormat.
Proof.
  intros Hcustom Hmonth. unfold resolveMonth. rewrite Hcustom.
  destruct s as [| c s']; [discriminate Hmonth |].
  cbn [String.eqb negb]. rewrite Hmonth.
  change (JSNum.sub (Some 13) (Some 1)) with (Some 12).
  change (JSNum.gt (Some 12) (Some 11)) with true.
  rewrite orb_true_r. cbn [orb]. reflexivity.
Qed.

(** Without a custom date nothing is validated. *)
Lemma resolveMonth_without_custom_date inv :
  customDate inv = None \/ customDate inv = Some EmptyString ->
  exists accepted, resolveMonth inv = inr accepted.
Proof.
  intros Hcustom. unfold resolveMonth.
  assert (Hfalsy : match customDate inv with
                   | Some s' => negb (String.eqb s' EmptyString)
                   | None => false
                   end = false)
    by (destruct Hcustom as [-> | ->]; reflexivity).
  rewrite Hfalsy.
  destruct (requestedMonth inv) as [requested |]; [| eauto].
  destruct (JSNum.gt _ _); eauto.
Qed.
End Runs.

(** ** Validation of the requested month *)

Section Validation.
Context {host : Host}.

End Validation.


(** When Discord rejects the call that would show the validation message,
    the user sees the text of the outer [catch] instead; when it rejects
    [deferReply], the command answers with [reply]. *)
Example validation_reply_when_calls_are_rejected :
  execute (host := Samples.utcHost)
    (Samples.rejectedAt 1 (Samples.invocation None (Some "13/2024")))
  = [ DeferReply;
      Rejected (EditReply invalidDateFormat Unchanged);
      EditReply "There was an error executing this command: Unknown interaction"
        Unchanged ]
  /\ execute (host := Samples.utcHost)
       (Samples.rejectedAt 0 (Samples.invocation None (Some "13/2024")))
     = [ Rejected DeferReply;
         Reply "There was an error executing this command: Unknown interaction" ].
Proof. split; vm_compute; reflexivity. Qed.


(** ** PerscomService.deleteUsers *)

Import Perscom.

Section DeleteUsersProps.
Variable Server : Type.
Variable respond : Server -> Z -> DeleteResponse * Server.

(** One round sends the request and writes one log entry, an error entry
    when the deletion failed; the service moves on either way. *)
Lemma deleteUser_round server user :
  exists entry,
    fst (deleteUser respond server user)
    = [HttpDelete (DeniedUsers.user_id user); entry]
    /\ snd (deleteUser respond server user)
       = snd (respond server (DeniedUsers.user_id user))
    /\ isErrorLog entry
       = failed (fst (respond server (DeniedUsers.user_id user)))
    /\ attempted [entry] = [].
Proof.
  unfold deleteUser.
  destruct (respond server (DeniedUsers.user_id user)) as [response server'].
  destruct response as [err | status statusText [errorMsg |] | [data |]];
    eexists; repeat split.
Qed.

Lemma deleteUsers_cons server user rest :
  deleteUsers respond server (user :: rest)
  = ((fst (deleteUser respond server user)
      ++ fst (deleteUsers respond
                (snd (deleteUser respond server user)) rest))%list,
     snd (deleteUsers respond (snd (deleteUser respond server user)) rest)).
Proof.
  cbn [deleteUsers].
  destruct (deleteUser respond server user) as [events server'].
  cbn [fst snd].
  destruct (deleteUsers respond server' rest) as [events' server''].
  reflexivity.
Qed.

Lemma deleteUsers_app server before after :
  deleteUsers respond server (before ++ after)
  = ((fst (deleteUsers respond server before)
      ++ fst (deleteUsers respond
                (snd (deleteUsers respond server before)) after))%list,
     snd (deleteUsers respond
            (snd (deleteUsers respond server before)) after)).
Proof.
  revert server. induction before as [| user before IH]; intros server.
  - cbn. destruct (deleteUsers respond server after). reflexivity.
  - rewrite <- app_comm_cons. rewrite !deleteUsers_cons, IH.
    cbn [fst snd]. rewrite app_assoc. reflexivity.
Qed.

Lemma attempted_app events events' :
  attempted (events ++ events') = (attempted events ++ attempted events')%list.
Proof.
  induction events as [| e events IH]; [reflexivity |].
  destruct e; cbn; rewrite IH; reflexivity.
Qed.

(** Every user of the list is sent a DELETE, in order. *)
Lemma deleteUsers_attempted server users :
  attempted (fst (deleteUsers respond server users))
  = map DeniedUsers.user_id users.
Proof.
  revert server. induction users as [| user rest IH]; intros server.
  - reflexivity.
  - rewrite deleteUsers_cons. cbn [fst map]. rewrite attempted_app, IH.
    destruct (deleteUser_round server user) as [entry [-> [_ [_ Hentry]]]].
    cbn [attempted] in Hentry |- *.
    destruct entry; try discriminate; reflexivity.
Qed.

(** C7: when the deletion of one user fails (a non-ok response or a
    thrown error) an error is logged for it and the run goes on: the
    users after it are processed as in a run of their own, and every user
    of the list is attempted. *)
Theorem deleteUsers_continues_after_failure
    (server : Server) (before : list DeniedUsers.t) (user : DeniedUsers.t)
    (after : list DeniedUsers.t) :
  failed (fst (respond (snd (deleteUsers respond server before))
                       (DeniedUsers.user_id user))) = true ->
  exists entry,
    isErrorLog entry = true
    /\ fst (deleteUsers respond server (before ++ user :: after))
       = (fst (deleteUsers respond server before)
          ++ [HttpDelete (DeniedUsers.user_id user); entry]
          ++ fst (deleteUsers respond
                    (snd (respond (snd (deleteUsers respond server before))
                                  (DeniedUsers.user_id user)))
                    after))%list
    /\ attempted (fst (deleteUsers respond server (before ++ user :: after)))
       = map DeniedUsers.user_id (before ++ user :: after).
Proof.
  intros Hfailed.
  destruct (deleteUser_round (snd (deleteUsers respond server before)) user)
    as [entry [Hevents [Hserver [Hentry _]]]].
  exists entry. split; [congruence |]. split.
  - rewrite deleteUsers_app. cbn [fst].
    rewrite deleteUsers_cons. cbn [fst].
    rewrite Hevents, Hserver. reflexivity.
  - apply deleteUsers_attempted.
Qed.
End DeleteUsersProps.

(** Users 1 to 4 against a service that refuses user 2 and cannot be
    reached for user 3. *)
Lemma deleteUsers_continues_after_failure_witness :
  failed (fst (Samples.flakyServer
                 (snd (deleteUsers Samples.flakyServer O
                         [Samples.denied "a" 1]))
                 2)) = true
  /\ exists entry,
       isErrorLog entry = true
       /\ fst (deleteUsers Samples.flakyServer O
                 ([Samples.denied "a" 1]
                  ++ Samples.denied "b" 2
                  :: [Samples.denied "c" 3; Samples.denied "d" 4]))
          = (fst (deleteUsers Samples.flakyServer O [Samples.denied "a" 1])
             ++ [HttpDelete 2; entry]
             ++ fst (deleteUsers Samples.flakyServer
                       (snd (Samples.flakyServer
                               (snd (deleteUsers Samples.flakyServer O
                                       [Samples.denied "a" 1]))
                               2))
                       [Samples.denied "c" 3; Samples.denied "d" 4]))%list
       /\ attempted
            (fst (deleteUsers Samples.flakyServer O
                    ([Samples.denied "a" 1]
                     ++ Samples.denied "b" 2
                     :: [Samples.denied "c" 3; Samples.denied "d" 4])))
          = map DeniedUsers.user_id
              ([Samples.denied "a" 1]
               ++ Samples.denied "b" 2
               :: [Samples.denied "c" 3; Samples.denied "d" 4]).
Proof.
  split.
  - reflexivity.
  - apply (deleteUsers_continues_after_failure nat Samples.flakyServer O
             [Samples.denied "a" 1] (Samples.denied "b" 2)
             [Samples.denied "c" 3; Samples.denied "d" 4]).
    reflexivity.
Defined.

(** The whole run of that example. *)
Example deleteUsers_flaky_run :
  fst (deleteUsers Samples.flakyServer O
         [Samples.denied "a" 1; Samples.denied "b" 2;
          Samples.denied "c" 3; Samples.denied "d" 4])
  = [HttpDelete 1; LogDeleted "a" "{}";
     HttpDelete 2; ErrorFailedToDelete "b" 404 "Not Found" "gone";
     HttpDelete 3; ErrorDeleting "c";
     HttpDelete 4; LogDeleted "d" "{}"].
Proof. reflexivity. Qed.

(** ** PerscomService.getAllForm1Data *)

Section Paging.
Variable api : Z -> PageResponse.

Lemma form1Submissions_In x data :
  In x (form1Submissions data) ->
  exists submission,
    In submission data /\ Submission.form_id submission = 1
    /\ x = toForm1 submission.
Proof.
  unfold form1Submissions. rewrite in_map_iff.
  intros [submission [<- Hin]]. apply filter_In in Hin.
  destruct Hin as [Hin Hform]. exists submission.
  repeat split; auto. apply Z.eqb_eq. exact Hform.
Qed.

(** The loop asks for consecutive pages from [page] on, and whatever it
    adds to the list comes from a form-1 submission of a page it
    fetched, in [page..lastPage]. *)
Lemma pagingLoop_spec lastPage page all :
  (exists n, pagesRequested (fst (pagingLoop api lastPage page all))
             = map (fun i => page + Z.of_nat i) (List.seq 0 n))
  /\ forall x, In x (snd (pagingLoop api lastPage page all)) ->
       In x all \/
       exists p submission,
         In p (pagesRequested (fst (pagingLoop api lastPage page all)))
         /\ page <= p <= lastPage /\ servedOn api p submission
         /\ Submission.form_id submission = 1 /\ x = toForm1 submission.
Proof.
  funelim (pagingLoop api lastPage page all).
  - split; [exists O; reflexivity | intros x Hx; left; exact Hx].
  - split; [exists 1%nat; cbn; rewrite Z.add_0_r; reflexivity |].
    intros x Hx. left. exact Hx.
  - split; [exists 1%nat; cbn; rewrite Z.add_0_r; reflexivity |].
    intros x Hx. left. exact Hx.
  - match goal with
    | IH : _ /\ _ |- _ => destruct IH as [[n Hpages] Hresult]
    end.
    destruct (pagingLoop api lastPage (page + 1)
                (all ++ form1Submissions data)) as [events result].
    cbn [fst snd] in *. split.
    + exists (S n). cbn [pagesRequested]. rewrite Hpages.
      cbn [List.seq map]. rewrite Z.add_0_r. f_equal.
      rewrite <- seq_shift, map_map. apply map_ext. intros i. lia.
    + intros x Hx. cbn [pagesRequested].
      destruct (Hresult x Hx) as [Hold | Hnew].
      * apply in_app_or in Hold. destruct Hold as [Hall | Hdata];
          [left; exact Hall | right].
        destruct (form1Submissions_In x data Hdata)
          as [submission [Hin [Hform Hx']]].
        exists page, submission.
        repeat split; try assumption; try lia.
        -- left. reflexivity.
        -- exists data. split; assumption.
      * right. destruct Hnew as [p [submission [Hreq [Hp Hrest]]]].
        exists p, submission.
        split; [right; exact Hreq | split; [lia | exact Hrest]].
Qed.

(** C8: the paging loop starts at the fixed page 4, not at page 1: the
    pages asked for are 4, 5, ... in order, and every element returned
    carries the id of a submission served on a page from 4 on; so a
    submission that is served only on earlier pages never appears in the
    returned list. *)
Theorem paging_skips_pages_before_offset
    (metadata : MetadataResponse) (sid : Z) :
  firstPage = 4
  /\ (exists n, pagesRequested (fst (getAllForm1Data metadata api))
                = map (fun i => 4 + Z.of_nat i) (List.seq 0 n))
  /\ ((forall p submission,
          servedOn api p submission -> Submission.id submission = sid -> p < 4) ->
      forall x, In x (snd (getAllForm1Data metadata api)) ->
                Form1Submission.form_id x <> sid).
Proof.
  split; [reflexivity |].
  unfold getAllForm1Data.
  destruct metadata as [| status statusText | [lastPage |]];
    try (split; [exists O; reflexivity | intros _ x []]).
  destruct (pagingLoop_spec lastPage firstPage []) as [[n Hpages] Hresult].
  destruct (pagingLoop api lastPage firstPage []) as [events result].
  cbn [fst snd] in *. split.
  - exists n. exact Hpages.
  - intros Honly x Hx Hsid.
    destruct (Hresult x Hx)
      as [[] | [p [submission [_ [Hp [Hserved [_ ->]]]]]]].
    specialize (Honly p submission Hserved Hsid).
    unfold firstPage in Hp. lia.
Qed.

(** C10: every element of the returned list comes from a submission of a
    fetched page whose [form_id] is 1, and its [form_id] field holds that
    submission's [id] (its other fields are copied), not the
    submission's [form_id]. *)
Theorem form1_elements_origin
    (metadata : MetadataResponse) (x : Form1Submission.t) :
  In x (snd (getAllForm1Data metadata api)) ->
  exists p submission,
    In p (pagesRequested (fst (getAllForm1Data metadata api)))
    /\ servedOn api p submission
    /\ Submission.form_id submission = 1
    /\ Form1Submission.form_id x = Submission.id submission
    /\ x = toForm1 submission
    /\ (Submission.id submission <> 1 ->
        Form1Submission.form_id x <> Submission.form_id submission).
Proof.
  unfold getAllForm1Data.
  destruct metadata as [| status statusText | [lastPage |]];
    try (intros []).
  destruct (pagingLoop_spec lastPage firstPage []) as [_ Hresult].
  destruct (pagingLoop api lastPage firstPage []) as [events result].
  cbn [fst snd] in *. intros Hx.
  destruct (Hresult x Hx)
    as [[] | [p [submission [Hreq [_ [Hserved [Hform ->]]]]]]].
  exists p, submission. cbn [pagesRequested].
  repeat split; try assumption.
  cbn. intros Hid. rewrite Hform. exact Hid.
Qed.
End Paging.

(** Six pages of two submissions each: the run asks for pages 4, 5 and 6,
    and submission 10, served on page 1 only, is not in the result. *)
Lemma paging_skips_pages_before_offset_witness :
  (forall p submission,
      servedOn Samples.sixPages p submission ->
      Submission.id submission = 10 -> p < 4)
  /\ pagesRequested (fst (getAllForm1Data (MetaOk (Some 6)) Samples.sixPages))
     = [4; 5; 6]
  /\ forall x,
       In x (snd (getAllForm1Data (MetaOk (Some 6)) Samples.sixPages)) ->
       Form1Submission.form_id x <> 10.
Proof.
  assert (Honly : forall p submission,
             servedOn Samples.sixPages p submission ->
             Submission.id submission = 10 -> p < 4).
  { intros p submission [data [Hdata Hin]] Hid.
    assert (Hd : data = [Samples.submission (10 * p) 1;
                         Samples.submission (10 * p + 1) 2])
      by (unfold Samples.sixPages in Hdata; congruence).
    subst data.
    destruct Hin as [<- | [<- | []]];
      unfold Samples.submission in Hid; cbn [Submission.id] in Hid; lia. }
  split; [exact Honly |]. split; [reflexivity |].
  apply (proj2 (proj2 (paging_skips_pages_before_offset Samples.sixPages
                         (MetaOk (Some 6)) 10))).
  exact Honly.
Defined.

(** The form-1 submission of page 5 in the same run. *)
Lemma form1_elements_origin_witness :
  In (toForm1 (Samples.submission 50 1))
     (snd (getAllForm1Data (MetaOk (Some 6)) Samples.sixPages))
  /\ exists p submission,
       In p (pagesRequested
               (fst (getAllForm1Data (MetaOk (Some 6)) Samples.sixPages)))
       /\ servedOn Samples.sixPages p submission
       /\ Submission.form_id submission = 1
       /\ Form1Submission.form_id (toForm1 (Samples.submission 50 1))
          = Submission.id submission
       /\ toForm1 (Samples.submission 50 1) = toForm1 submission
       /\ (Submission.id submission <> 1 ->
           Form1Submission.form_id (toForm1 (Samples.submission 50 1))
           <> Submission.form_id submission).
Proof.
  assert (Hin : In (toForm1 (Samples.submission 50 1))
                   (snd (getAllForm1Data (MetaOk (Some 6)) Samples.sixPages))).
  { vm_compute. right. left. reflexivity. }
  split; [exact Hin |].
  apply (form1_elements_origin Samples.sixPages (MetaOk (Some 6))
           (toForm1 (Samples.submission 50 1)) Hin).
Defined.

(** The whole result of that run: ids 40, 50 and 60 in the [form_id]
    field; 10, 20 and 30 are missing. *)
Example getAllForm1Data_six_pages :
  map Form1Submission.form_id
      (snd (getAllForm1Data (MetaOk (Some 6)) Samples.sixPages))
  = [40; 50; 60]
  /\ fst (getAllForm1Data (MetaOk (Some 6)) Samples.sixPages)
     = [GetMetadata; GetPage 4; GetPage 5; GetPage 6].
Proof. split; reflexivity. Qed.

(* ===================================================================== *)
(** * Part III: further properties of the code                             *)
(* ===================================================================== *)


(** ** The calendar depends on the records only through presence *)

Section RecordsOfTheMonth.
Context {host : Host}.
Variable clock : Clock.
Variables year month : number.

Lemma calendarLoop_presence_ext data data' :
  (forall day, wasPresent data year month day
               = wasPresent data' year month day) ->
  forall n, calendarLoop clock data year month n
            = calendarLoop clock data' year month n.
Proof.
  intros Hsame. induction n as [| n IH]; [reflexivity |].
  cbn [calendarLoop]. rewrite IH. unfold dayBody.
  rewrite (Hsame (Z.of_nat (S n))). reflexivity.
Qed.

Lemma generateCalendarEmbed_presence_ext data data' memberName :
  (forall day, wasPresent data year month day
               = wasPresent data' year month day) ->
  generateCalendarEmbed clock data year month memberName
  = generateCalendarEmbed clock data' year month memberName.
Proof.
  intros Hsame. unfold generateCalendarEmbed, finalState.
  rewrite (calendarLoop_presence_ext data data' Hsame). reflexivity.
Qed.

(** X1: a record stamped outside the viewed UTC year and month, wherever it
    stands in the list, does not change the embed. *)
Theorem record_outside_month_ignored
    (before after : list AttendanceRecord) (record : AttendanceRecord)
    (memberName : string) :
  inViewedMonth year month record = false ->
  generateCalendarEmbed clock (before ++ record :: after) year month memberName
  = generateCalendarEmbed clock (before ++ after) year month memberName.
Proof.
  intros Hout. apply generateCalendarEmbed_presence_ext. intros day.
  unfold wasPresent, monthAttendance. rewrite !filter_app. cbn [filter].
  unfold inViewedMonth in Hout. rewrite Hout. reflexivity.
Qed.

Lemma existsb_Permutation {A} (f : A -> bool) l l' :
  Permutation l l' -> existsb f l = existsb f l'.
Proof.
  induction 1 as [| x l l' _ IH | x y l | l l' l'' _ IH1 _ IH2]; cbn.
  - reflexivity.
  - rewrite IH. reflexivity.
  - destruct (f x), (f y); reflexivity.
  - congruence.
Qed.

Lemma existsb_filter {A} (f g : A -> bool) l :
  existsb f (filter g l) = existsb (fun x => g x && f x) l.
Proof.
  induction l as [| x l IH]; [reflexivity |].
  cbn. destruct (g x); cbn; rewrite IH; reflexivity.
Qed.

(** X2: the order of the attendance records does not matter. *)
Theorem record_order_irrelevant
    (data data' : list AttendanceRecord) (memberName : string) :
  Permutation data data' ->
  generateCalendarEmbed clock data year month memberName
  = generateCalendarEmbed clock data' year month memberName.
Proof.
  intros Hperm. apply generateCalendarEmbed_presence_ext. intros day.
  unfold wasPresent, monthAttendance. rewrite !existsb_filter.
  apply existsb_Permutation. exact Hperm.
Qed.

Lemma countIf_le f g l :
  (forall d, f d = true -> g d = true) -> countIf f l <= countIf g l.
Proof.
  intros Himp. unfold countIf. induction l as [| d l IH]; [reflexivity |].
  cbn [filter]. destruct (f d) eqn:Hf.
  - rewrite (Himp d Hf). cbn [List.length]. lia.
  - destruct (g d); cbn [List.length]; lia.
Qed.

Lemma wasPresent_incl data data' day :
  incl data data' ->
  wasPresent data year month day = true ->
  wasPresent data' year month day = true.
Proof.
  intros Hincl. unfold wasPresent, monthAttendance.
  rewrite !existsb_filter, !existsb_exists.
  intros [record [Hin Hrecord]]. exists record. split; auto.
Qed.

(** X3: the number of counted raid days does not depend on the records,
    and more records never lower the attended count. *)
Theorem more_records_never_lower_attendance
    (data data' : list AttendanceRecord) :
  incl data data' ->
  totalRaidDays (finalState clock data year month)
  = totalRaidDays (finalState clock data' year month)
  /\ attendedRaidDays (finalState clock data year month)
     <= attendedRaidDays (finalState clock data' year month).
Proof.
  intros Hincl. unfold finalState.
  destruct (loop_counts clock data year month (iterations year month))
    as [-> ->].
  destruct (loop_counts clock data' year month (iterations year month))
    as [-> ->].
  split; [reflexivity |].
  apply countIf_le. intros d Hd.
  apply andb_true_iff in Hd. destruct Hd as [Hc Hp].
  rewrite Hc. cbn [andb]. exact (wasPresent_incl data data' d Hincl Hp).
Qed.

(** X4: the rate's denominator is the number of days of the loop that are
    raid days, not after the cutoff and not before the tracking start; its
    numerator is the number of those days with a record on them. *)
Theorem final_counts (data : list AttendanceRecord) :
  totalRaidDays (finalState clock data year month)
  = countIf (fun day =>
               isRaidDay year month day
               && JSNum.le (dateOfDay year month day)
                           (lastDayToCount clock year month)
               && isTrackingEnabled year month day)
            (days (iterations year month))
  /\ attendedRaidDays (finalState clock data year month)
     = countIf (fun day =>
                  isRaidDay year month day
                  && JSNum.le (dateOfDay year month day)
                              (lastDayToCount clock year month)
                  && isTrackingEnabled year month day
                  && wasPresent data year month day)
               (days (iterations year month)).
Proof.
  exact (loop_counts clock data year month (iterations year month)).
Qed.
End RecordsOfTheMonth.

(** A record of 3 February 2024 in the January 2024 view. *)
Lemma record_outside_month_ignored_witness :
  inViewedMonth (Some 2024) (Some 0) {| date := Some 1706918400000 |} = false
  /\ generateCalendarEmbed (host := Samples.utcHost) Samples.clock_jan_4
       ([Samples.record_jan_3] ++ {| date := Some 1706918400000 |} :: [])
       (Some 2024) (Some 0) "Bob"
     = generateCalendarEmbed (host := Samples.utcHost) Samples.clock_jan_4
         ([Samples.record_jan_3] ++ []) (Some 2024) (Some 0) "Bob".
Proof.
  split; [reflexivity |].
  apply (record_outside_month_ignored (host := Samples.utcHost)).
  reflexivity.
Defined.

Lemma record_order_irrelevant_witness :
  Permutation [Samples.record_jan_3; {| date := Some 1706918400000 |}]
              [{| date := Some 1706918400000 |}; Samples.record_jan_3]
  /\ generateCalendarEmbed (host := Samples.utcHost) Samples.clock_jan_4
       [Samples.record_jan_3; {| date := Some 1706918400000 |}]
       (Some 2024) (Some 0) "Bob"
     = generateCalendarEmbed (host := Samples.utcHost) Samples.clock_jan_4
         [{| date := Some 1706918400000 |}; Samples.record_jan_3]
         (Some 2024) (Some 0) "Bob".
Proof.
  assert (Hperm : Permutation
            [Samples.record_jan_3; {| date := Some 1706918400000 |}]
            [{| date := Some 1706918400000 |}; Samples.record_jan_3])
    by apply perm_swap.
  split; [exact Hperm |].
  apply (record_order_irrelevant (host := Samples.utcHost)). exact Hperm.
Defined.

Lemma more_records_never_lower_attendance_witness :
  incl [] [Samples.record_jan_3]
  /\ totalRaidDays
       (finalState (host := Samples.utcHost) Samples.clock_jan_4 []
          (Some 2024) (Some 0))
     = totalRaidDays
         (finalState (host := Samples.utcHost) Samples.clock_jan_4
            [Samples.record_jan_3] (Some 2024) (Some 0))
  /\ attendedRaidDays
       (finalState (host := Samples.utcHost) Samples.clock_jan_4 []
          (Some 2024) (Some 0))
     <= attendedRaidDays
          (finalState (host := Samples.utcHost) Samples.clock_jan_4
             [Samples.record_jan_3] (Some 2024) (Some 0)).
Proof.
  assert (Hincl : incl [] [Samples.record_jan_3]) by (intros r []).
  split; [exact Hincl |].
  apply (more_records_never_lower_attendance (host := Samples.utcHost)).
  exact Hincl.
Defined.

(** ** The shape of the grid *)

Section Grid.
Context {host : Host}.
Variable clock : Clock.
Variable attendanceData : list AttendanceRecord.
Variables year month : number.

Lemma setNth_length {A} n (v : A) l :
  List.length (setNth n v l) = List.length l.
Proof.
  revert n. induction l as [| x l IH]; intros [| n]; cbn; auto.
Qed.

Lemma setCell_length i v week :
  List.length (setCell i v week) = List.length week.
Proof.
  unfold setCell. destruct i as [k |]; [| reflexivity].
  destruct (0 <=? k); [apply setNth_length | reflexivity].
Qed.

(** The week under construction has seven cells, and so has every row
    pushed after the two header rows. *)
Lemma grid_invariant n :
  List.length (currentWeek (calendarLoop clock attendanceData year month n))
  = 7%nat
  /\ exists weeks,
       table (calendarLoop clock attendanceData year month n)
       = (headerRows year month ++ weeks)%list
       /\ Forall (fun row => List.length row = 7%nat) weeks.
Proof.
  induction n as [| n [Hweek [weeks [Htable Hweeks]]]].
  - split; [reflexivity |]. exists []. split; [| constructor].
    cbn [calendarLoop initialState table]. rewrite app_nil_r. reflexivity.
  - cbn [calendarLoop]. unfold dayBody.
    set (st := calendarLoop clock attendanceData year month n) in *.
    destruct (if isRaidDay year month (Z.of_nat (S n))
                 && JSNum.le (dateOfDay year month (Z.of_nat (S n)))
                             (lastDayToCount clock year month)
              then _ else _) as [[total attended] dayText].
    destruct (_ || _); cbn [currentWeek table].
    + split; [reflexivity |].
      exists (weeks ++ [setCell (getUTCDay (dateOfDay year month
                                              (Z.of_nat (S n))))
                          (centered dayText) (currentWeek st)])%list.
      split.
      * rewrite Htable, app_assoc. reflexivity.
      * apply Forall_app. split; [exact Hweeks |].
        constructor; [| constructor]. rewrite setCell_length. exact Hweek.
    + split; [rewrite setCell_length; exact Hweek |].
      exists weeks. split; assumption.
Qed.

(** X5: the table of the embed is the month header (one cell spanning
    seven columns), the row of weekday labels, and week rows of exactly
    seven cells each. *)
Theorem week_rows_have_seven_cells :
  exists monthHeader weekdays weeks,
    table (finalState clock attendanceData year month)
    = monthHeader :: weekdays :: weeks
    /\ List.length monthHeader = 1%nat
    /\ Forall (fun row => List.length row = 7%nat) (weekdays :: weeks).
Proof.
  destruct (grid_invariant (iterations year month))
    as [_ [weeks [Htable Hweeks]]].
  unfold finalState. rewrite Htable. unfold headerRows.
  eexists _, _, weeks. split; [reflexivity |]. split; [reflexivity |].
  constructor; [reflexivity | exact Hweeks].
Qed.

(** X6: when the month has at least one day, the last week is pushed to
    the table: the loop ends with an empty week under construction and at
    least one week row. *)
Theorem last_week_is_pushed (n : Z) :
  lastDay year month = Some n ->
  1 <= n ->
  currentWeek (finalState clock attendanceData year month) = blankWeek
  /\ (3 <= List.length (table (finalState clock attendanceData year month)))%nat.
Proof.
  intros Hlast Hn. unfold finalState, iterations. rewrite Hlast.
  destruct (Z.to_nat n) as [| k] eqn:Hk; [lia |].
  destruct (grid_invariant k) as [_ [weeks [Htable _]]].
  cbn [calendarLoop]. unfold dayBody.
  set (st := calendarLoop clock attendanceData year month k) in *.
  destruct (if isRaidDay year month (Z.of_nat (S k))
               && JSNum.le (dateOfDay year month (Z.of_nat (S k)))
                           (lastDayToCount clock year month)
            then _ else _) as [[total attended] dayText].
  assert (Hpush : JSNum.seq (Some (Z.of_nat (S k))) (lastDay year month) = true).
  { rewrite Hlast. cbn [JSNum.seq JSNum.cmp]. apply Z.eqb_eq. lia. }
  rewrite Hpush, orb_true_r. cbn [currentWeek table].
  split; [reflexivity |].
  rewrite Htable, !length_app. cbn [List.length headerRows]. lia.
Qed.
End Grid.

Lemma last_week_is_pushed_witness :
  (lastDay (host := Samples.utcHost) (Some 2024) (Some 0) = Some 31
   /\ 1 <= 31)
  /\ currentWeek
       (finalState (host := Samples.utcHost) Samples.clock_jan_4
          [Samples.record_jan_3] (Some 2024) (Some 0)) = blankWeek
  /\ le 3 (List.length
             (table (finalState (host := Samples.utcHost) Samples.clock_jan_4
                       [Samples.record_jan_3] (Some 2024) (Some 0)))).
Proof.
  assert (Hlast : lastDay (host := Samples.utcHost) (Some 2024) (Some 0)
                  = Some 31) by reflexivity.
  assert (Hn : 1 <= 31) by lia.
  split; [exact (conj Hlast Hn) |].
  exact (last_week_is_pushed (host := Samples.utcHost) Samples.clock_jan_4
           [Samples.record_jan_3] (Some 2024) (Some 0) 31 Hlast Hn).
Defined.

(** ** The loop is bounded *)

Section Bounded.
Context {host : Host}.

Lemma DayWithinYear_range d :
  0 <= DayWithinYear d < 365 + InLeapYearOf (YearFromDay d).
Proof.
  unfold DayWithinYear. pose proof (YearFromDay_spec d) as Hs.
  rewrite DayFromYear_succ, DaysInYear_leap in Hs. lia.
Qed.

Ltac month_cascade :=
  repeat match goal with
         | |- context [if ?a <? ?b then _ else _] =>
             destruct (Z.ltb_spec a b)
         end.

(** The day of the month is always between 1 and 31. *)
Lemma DateFromDay_range d : 1 <= DateFromDay d <= 31.
Proof.
  pose proof (DayWithinYear_range d) as Hw.
  unfold DateFromDay, MonthFromDay.
  destruct (InLeapYearOf_range (YearFromDay d)) as [Hl | Hl];
    rewrite Hl in *; month_cascade; cbn [monthStart]; lia.
Qed.

Lemma countIf_le_length f l : countIf f l <= Z.of_nat (List.length l).
Proof.
  unfold countIf. pose proof (filter_length_le f l). lia.
Qed.

(** X7: whatever the year and month, the loop runs at most 31 times, and
    the number of counted raid days is at most the number of days
    visited. *)
Theorem at_most_31_iterations
    (clock : Clock) (attendanceData : list AttendanceRecord)
    (year month : number) :
  (iterations year month <= 31)%nat
  /\ 0 <= totalRaidDays (finalState clock attendanceData year month)
       <= Z.of_nat (iterations year month).
Proof.
  split.
  - unfold iterations, lastDay, getDate.
    destruct (Date_local LocalTZA year (JSNum.add month (Some 1)) (Some 0))
      as [t |]; cbn [option_map]; [| lia].
    pose proof (DateFromDay_range (Day (LocalTime LocalTZA t))) as Hd.
    unfold DateFromTime. lia.
  - unfold finalState.
    destruct (loop_counts clock attendanceData year month
                (iterations year month)) as [-> _].
    pose proof (countIf_le_length (counted clock year month)
                  (days (iterations year month))) as Hle.
    unfold days in Hle. rewrite length_map, length_seq in Hle.
    unfold countIf in *. fold (days (iterations year month)) in Hle. lia.
Qed.
End Bounded.

(** ** The dates the loop builds *)

(** Evaluates [monthStart] at the literal months in the goal and the
    hypotheses. *)
Ltac month_values :=
  repeat match goal with
         | |- context [monthStart _ (?a + 1)] =>
             let v := eval compute in (a + 1) in change (a + 1) with v
         | H : context [monthStart _ (?a + 1)] |- _ =>
             let v := eval compute in (a + 1) in change (a + 1) with v in H
         end;
  cbn [monthStart] in *.

Section LoopDates.
Context {host : Host}.

(** A date given by year, month and day of month reads back as such. *)
Lemma MakeDay_fields y m dt :
  0 <= m <= 11 ->
  1 <= dt <= monthLength (InLeapYearOf y) m ->
  YearFromDay (DayFromYear y + monthStart (InLeapYearOf y) m + dt - 1) = y
  /\ MonthFromDay (DayFromYear y + monthStart (InLeapYearOf y) m + dt - 1) = m
  /\ DateFromDay (DayFromYear y + monthStart (InLeapYearOf y) m + dt - 1) = dt.
Proof.
  intros Hm Hdt.
  assert (Hw : 0 <= monthStart (InLeapYearOf y) m + dt - 1 < DaysInYear y).
  { rewrite DaysInYear_leap. unfold monthLength in Hdt.
    destruct (InLeapYearOf_range y) as [Hl | Hl]; rewrite Hl in *;
      each_month Hm; month_values; lia. }
  destruct (year_and_offset y _ Hw) as [Hy Hd].
  replace (DayFromYear y + monthStart (InLeapYearOf y) m + dt - 1)
    with (DayFromYear y + (monthStart (InLeapYearOf y) m + dt - 1)) by lia.
  split; [exact Hy |].
  unfold DateFromDay, MonthFromDay. rewrite Hy, Hd.
  unfold monthLength in Hdt.
  destruct (InLeapYearOf_range y) as [Hl | Hl]; rewrite Hl in *;
    each_month Hm; month_values;
    repeat match goal with
           | |- context [if ?a <? ?b then _ else _] =>
               destruct (Z.ltb_spec a b); try lia
           end;
    cbn [monthStart]; split; lia.
Qed.

(** The day number of a time value, from its UTC fields. *)
Lemma Day_from_fields t :
  Day t
  = DayFromYear (YearFromTime t)
    + monthStart (InLeapYearOf (YearFromTime t)) (MonthFromTime t)
    + DateFromTime t - 1.
Proof.
  unfold DateFromTime, DateFromDay, MonthFromTime, YearFromTime, DayWithinYear.
  lia.
Qed.

Lemma Day_within d t :
  d * msPerDay <= t <= d * msPerDay + 86399999 <-> Day t = d.
Proof.
  unfold Day, msPerDay. split; intros H.
  - Z.div_mod_to_equations. lia.
  - subst d. Z.div_mod_to_equations. lia.
Qed.

Variables year month : Z.
Hypothesis Hyear : 100 <= year <= 275759.
Hypothesis Hmonth : 0 <= month <= 11.

Let firstDay : Z :=
  DayFromYear year + monthStart (InLeapYearOf year) month.

(** [Date.UTC(year, month, day, h, m, s, ms)] for a day near the month. *)
Lemma Date_UTC7_value day time_h time_m time_s time_ms :
  0 <= day <= 31 ->
  0 <= MakeTime time_h time_m time_s time_ms < msPerDay ->
  Date_of_value
    (Date_UTC7 (Some year) (Some month) (Some day)
               time_h time_m time_s time_ms)
  = Some ((firstDay + day - 1) * msPerDay
          + MakeTime time_h time_m time_s time_ms).
Proof.
  intros Hday Htime. unfold Date_UTC7, MakeFullYear.
  destruct (Z.leb_spec year 99); [lia |]. rewrite andb_false_r.
  unfold MakeDay. rewrite Z.div_small, Z.mod_small, Z.add_0_r by lia.
  fold firstDay. cbn [MakeDate].
  set (v := (firstDay + day - 1) * msPerDay
            + MakeTime time_h time_m time_s time_ms).
  assert (Hv : Z.abs v <= maxTime).
  { pose proof (DayFromYear_range year) as Hr.
    assert (Hs : 0 <= monthStart (InLeapYearOf year) month <= 335)
      by (destruct (InLeapYearOf_range year) as [-> | ->];
          each_month Hmonth; cbn; lia).
    subst v firstDay. unfold msPerDay, maxTime in *. lia. }
  unfold Date_of_value, TimeClip.
  destruct (Z.leb_spec (Z.abs v) maxTime); [| lia].
  destruct (Z.leb_spec (Z.abs v) maxTime); [reflexivity | lia].
Qed.

Lemma dateOfDay_value day :
  0 <= day <= 31 ->
  dateOfDay (Some year) (Some month) day
  = Some ((firstDay + day - 1) * msPerDay).
Proof.
  intros Hday. unfold dateOfDay, Date_UTC.
  rewrite (Date_UTC7_value day 0 0 0 0) by (try assumption; unfold msPerDay; cbn; lia).
  change (MakeTime 0 0 0 0) with 0. rewrite Z.add_0_r. reflexivity.
Qed.

Lemma Day_of_loop_day day : Day ((firstDay + day - 1) * msPerDay)
                            = firstDay + day - 1.
Proof. unfold Day, msPerDay. apply Z.div_mul. lia. Qed.

(** X8: for a four-digit-or-later year and a month index 0..11, the date
    the loop builds for a day of the month has that year, month and day as
    its UTC fields. *)
Theorem loop_date_fields (day : Z) :
  1 <= day <= Calendar.daysInMonth year month ->
  getUTCFullYear (dateOfDay (Some year) (Some month) day) = Some year
  /\ getUTCMonth (dateOfDay (Some year) (Some month) day) = Some month
  /\ getUTCDate (dateOfDay (Some year) (Some month) day) = Some day.
Proof.
  intros Hday.
  assert (Hlen : Calendar.daysInMonth year month <= 31).
  { unfold Calendar.daysInMonth.
    destruct (Calendar.isLeapYear year); each_month Hmonth; lia. }
  rewrite dateOfDay_value by lia.
  cbn [getUTCFullYear getUTCMonth getUTCDate option_map].
  unfold YearFromTime, MonthFromTime, DateFromTime.
  rewrite Day_of_loop_day. subst firstDay.
  rewrite <- monthLength_daysInMonth in Hday by assumption.
  destruct (MakeDay_fields year month day Hmonth Hday) as [-> [-> ->]].
  repeat split.
Qed.

(** X9: under the same conditions, a day is found present exactly when
    some record's UTC date is that calendar day. *)
Theorem present_iff_record_on_that_day
    (attendanceData : list AttendanceRecord) (day : Z) :
  1 <= day <= Calendar.daysInMonth year month ->
  wasPresent attendanceData (Some year) (Some month) day = true
  <-> exists record,
        In record attendanceData
        /\ getUTCFullYear (date record) = Some year
        /\ getUTCMonth (date record) = Some month
        /\ getUTCDate (date record) = Some day.
Proof.
  intros Hday.
  assert (Hlen : Calendar.daysInMonth year month <= 31).
  { unfold Calendar.daysInMonth.
    destruct (Calendar.isLeapYear year); each_month Hmonth; lia. }
  destruct (loop_date_fields day Hday) as [_ [_ Hdate]].
  assert (Hcompare : forall t,
             compareDates (Some year) (Some month) (Some t)
               (dateOfDay (Some year) (Some month) day) = true
             <-> Day t = firstDay + day - 1).
  { intros t. unfold compareDates, getTime. rewrite Hdate.
    rewrite (Date_UTC7_value day 0 0 0 0)
      by (try lia; unfold MakeTime, msPerDay; lia).
    rewrite (Date_UTC7_value day 23 59 59 999)
      by (try lia; unfold MakeTime, msPerDay, msPerHour, msPerMinute,
                     msPerSecond; lia).
    change (MakeTime 0 0 0 0) with 0.
    change (MakeTime 23 59 59 999) with 86399999.
    cbn [JSNum.ge JSNum.le JSNum.cmp].
    rewrite andb_true_iff, Z.geb_leb, !Z.leb_le, <- Day_within. lia. }
  unfold wasPresent, monthAttendance. rewrite existsb_exists. split.
  - intros [record [Hin Hc]]. apply filter_In in Hin.
    destruct Hin as [Hin Hmatch]. exists record. split; [exact Hin |].
    destruct (date record) as [t |] eqn:Ht;
      [| cbn in Hmatch; discriminate Hmatch].
    apply Hcompare in Hc.
    cbn [getUTCFullYear getUTCMonth getUTCDate option_map] in *.
    unfold YearFromTime, MonthFromTime, DateFromTime. rewrite Hc.
    subst firstDay.
    rewrite <- monthLength_daysInMonth in Hday by assumption.
    destruct (MakeDay_fields year month day Hmonth Hday) as [-> [-> ->]].
    repeat split.
  - intros [record [Hin [Hy [Hm Hd]]]]. exists record.
    destruct (date record) as [t |] eqn:Ht; [| discriminate Hy].
    cbn [getUTCFullYear getUTCMonth getUTCDate option_map] in Hy, Hm, Hd.
    injection Hy as Hy. injection Hm as Hm. injection Hd as Hd.
    split.
    + apply filter_In. split; [exact Hin |]. rewrite ?Ht.
      cbn [getUTCFullYear getUTCMonth option_map JSNum.seq JSNum.cmp].
      rewrite Hy, Hm, !Z.eqb_refl. reflexivity.
    + rewrite ?Ht. apply Hcompare. rewrite Day_from_fields, Hy, Hm, Hd.
      subst firstDay. lia.
Qed.

(** X10: when the viewed month is not the current one, the cutoff is the
    last day of the month, so every raid day of the month on or after the
    tracking start enters the rate. *)
Theorem past_month_counts_every_tracked_raid_day (clock : Clock) (day : Z) :
  isCurrentMonth clock (Some year) (Some month) = false ->
  1 <= day <= Calendar.daysInMonth year month ->
  counted clock (Some year) (Some month) day
  = isRaidDay (Some year) (Some month) day
    && isTrackingEnabled (Some year) (Some month) day.
Proof.
  intros Hpast Hday.
  assert (Hlen : Calendar.daysInMonth year month <= 31).
  { unfold Calendar.daysInMonth.
    destruct (Calendar.isLeapYear year); each_month Hmonth; lia. }
  assert (Hcut : JSNum.le (dateOfDay (Some year) (Some month) day)
                          (lastDayToCount clock (Some year) (Some month))
                 = true).
  { unfold lastDayToCount. rewrite Hpast.
    change (JSNum.add (Some month) (Some 1)) with (Some (month + 1)).
    rewrite dateOfDay_value by lia.
    unfold Date_UTC, Date_UTC7, MakeFullYear.
    destruct (Z.leb_spec year 99); [lia |]. rewrite andb_false_r.
    rewrite MakeDay_day0 by assumption.
    cbn [MakeDate]. change (MakeTime 0 0 0 0) with 0.
    set (lastOfMonth := DayFromYear year
                        + (monthStart (InLeapYearOf year) (month + 1) - 1)).
    assert (Hle : firstDay + day - 1 <= lastOfMonth).
    { rewrite <- monthLength_daysInMonth in Hday by assumption.
      unfold monthLength in Hday. subst firstDay lastOfMonth. lia. }
    assert (Hv : Z.abs (lastOfMonth * msPerDay + 0) <= maxTime).
    { pose proof (DayFromYear_range year) as Hr.
      assert (Hs : 1 <= monthStart (InLeapYearOf year) (month + 1) <= 366)
        by (destruct (InLeapYearOf_range year) as [-> | ->];
            each_month Hmonth; cbn; lia).
      subst lastOfMonth. unfold msPerDay, maxTime in *. lia. }
    unfold Date_of_value, TimeClip.
    destruct (Z.leb_spec (Z.abs (lastOfMonth * msPerDay + 0)) maxTime);
      [| lia].
    destruct (Z.leb_spec (Z.abs (lastOfMonth * msPerDay + 0)) maxTime);
      [| lia].
    cbn [JSNum.le JSNum.cmp]. apply Z.leb_le. unfold msPerDay. lia. }
  unfold counted. rewrite Hcut, andb_true_r. reflexivity.
Qed.
End LoopDates.

(** 3 January 2024. *)
Lemma loop_date_fields_witness :
  (100 <= 2024 <= 275759 /\ 0 <= 0 <= 11
   /\ 1 <= 3 <= Calendar.daysInMonth 2024 0)
  /\ getUTCFullYear (dateOfDay (Some 2024) (Some 0) 3) = Some 2024
  /\ getUTCMonth (dateOfDay (Some 2024) (Some 0) 3) = Some 0
  /\ getUTCDate (dateOfDay (Some 2024) (Some 0) 3) = Some 3.
Proof.
  assert (Hy : 100 <= 2024 <= 275759) by lia.
  assert (Hm : 0 <= 0 <= 11) by lia.
  assert (Hd : 1 <= 3 <= Calendar.daysInMonth 2024 0) by (cbn; lia).
  split; [exact (conj Hy (conj Hm Hd)) |].
  exact (loop_date_fields 2024 0 Hy Hm 3 Hd).
Defined.

Lemma present_iff_record_on_that_day_witness :
  (100 <= 2024 <= 275759 /\ 0 <= 0 <= 11
   /\ 1 <= 3 <= Calendar.daysInMonth 2024 0)
  /\ (wasPresent [Samples.record_jan_3] (Some 2024) (Some 0) 3 = true
      <-> exists record,
            In record [Samples.record_jan_3]
            /\ getUTCFullYear (date record) = Some 2024
            /\ getUTCMonth (date record) = Some 0
            /\ getUTCDate (date record) = Some 3).
Proof.
  assert (Hy : 100 <= 2024 <= 275759) by lia.
  assert (Hm : 0 <= 0 <= 11) by lia.
  assert (Hd : 1 <= 3 <= Calendar.daysInMonth 2024 0) by (cbn; lia).
  split; [exact (conj Hy (conj Hm Hd)) |].
  exact (present_iff_record_on_that_day 2024 0 Hy Hm
           [Samples.record_jan_3] 3 Hd).
Defined.

(** February 2024 seen on 4 January 2024. *)
Lemma past_month_counts_every_tracked_raid_day_witness :
  (100 <= 2024 <= 275759 /\ 0 <= 1 <= 11
   /\ isCurrentMonth Samples.clock_jan_4 (Some 2024) (Some 1) = false
   /\ 1 <= 3 <= Calendar.daysInMonth 2024 1)
  /\ counted (host := Samples.utcHost) Samples.clock_jan_4
       (Some 2024) (Some 1) 3
     = isRaidDay (Some 2024) (Some 1) 3
       && isTrackingEnabled (host := Samples.utcHost) (Some 2024) (Some 1) 3.
Proof.
  assert (Hy : 100 <= 2024 <= 275759) by lia.
  assert (Hm : 0 <= 1 <= 11) by lia.
  assert (Hp : isCurrentMonth Samples.clock_jan_4 (Some 2024) (Some 1)
               = false) by reflexivity.
  assert (Hd : 1 <= 3 <= Calendar.daysInMonth 2024 1) by (cbn; lia).
  split; [exact (conj Hy (conj Hm (conj Hp Hd))) |].
  exact (past_month_counts_every_tracked_raid_day
           (host := Samples.utcHost) 2024 1 Hy Hm Samples.clock_jan_4 3 Hp Hd).
Defined.

(** ** Strings: splitting, searching, numbers in decimal *)

Section Strings.

Lemma split_nonempty sep s : split sep s <> [].
Proof.
  destruct s as [| c s]; cbn; [discriminate |].
  destruct (Ascii.eqb c sep); [discriminate |].
  destruct (split sep s); discriminate.
Qed.

(** No piece of a split holds the separator. *)
Lemma split_pieces sep s :
  Forall (fun piece => contains sep piece = false) (split sep s).
Proof.
  induction s as [| c s IH]; cbn [split].
  - constructor; [reflexivity | constructor].
  - destruct (Ascii.eqb c sep) eqn:Hc.
    + constructor; [reflexivity | exact IH].
    + destruct (split sep s) as [| piece pieces];
        [constructor; [cbn; rewrite Hc; reflexivity | constructor] |].
      inversion IH as [| ? ? Hpiece Hpieces]; subst.
      constructor; [| exact Hpieces].
      cbn. rewrite Hc, Hpiece. reflexivity.
Qed.

(** A string without the separator is a single piece. *)
Lemma split_single sep s : contains sep s = false -> split sep s = [s].
Proof.
  induction s as [| c s IH]; cbn; [reflexivity |].
  intros H. apply orb_false_iff in H. destruct H as [Hc Hs].
  rewrite Hc, (IH Hs). reflexivity.
Qed.

Lemma startsWith_contains p c q s :
  startsWith (p ++ String c q) s = true -> contains c s = true.
Proof.
  revert s. induction p as [| a p IH]; intros [| b s]; cbn;
    try discriminate.
  - intros H. apply andb_true_iff in H. destruct H as [H _].
    rewrite Ascii.eqb_sym, H. reflexivity.
  - intros H. apply andb_true_iff in H. destruct H as [_ H].
    rewrite (IH s H). apply orb_true_r.
Qed.

(** Replacing a pattern that holds [c] leaves a string without [c]
    alone. *)
Lemma replace_absent p c q by_ s :
  contains c s = false -> replace (p ++ String c q) by_ s = s.
Proof.
  induction s as [| b s IH]; intros Hs.
  - cbn. destruct (startsWith (p ++ String c q) EmptyString) eqn:Hp;
      [| reflexivity].
    apply startsWith_contains in Hp. discriminate Hp.
  - cbn [replace].
    destruct (startsWith (p ++ String c q) (String b s)) eqn:Hp.
    + apply startsWith_contains in Hp. congruence.
    + cbn in Hs. apply orb_false_iff in Hs. destruct Hs as [_ Hs].
      rewrite (IH Hs). reflexivity.
Qed.

(** Decimal digits: what [parseDigits] reads back. *)
Lemma parseDigits_uint_acc d a :
  parseDigits 10 (NilEmpty.string_of_uint d) (Some (Z.pos a))
  = Some (Z.pos (Pos.of_uint_acc d a)).
Proof.
  revert a. induction d; intros a; cbn [NilEmpty.string_of_uint parseDigits];
    [reflexivity | ..];
    match goal with
    | |- context [digitValue 10 ?c] =>
        let v := eval vm_compute in (digitValue 10 c) in
        change (digitValue 10 c) with v
    end; cbn [Pos.of_uint_acc];
    match goal with
    | |- parseDigits 10 _ (Some ?x) = Some (Z.pos (Pos.of_uint_acc _ ?y)) =>
        replace x with (Z.pos y) by lia
    end; apply IHd.
Qed.

Lemma parseDigits_uint d :
  parseDigits 10 (NilEmpty.string_of_uint d) (Some 0)
  = Some (Z.of_N (Pos.of_uint d)).
Proof.
  induction d; cbn [NilEmpty.string_of_uint parseDigits Pos.of_uint];
    [reflexivity | ..];
    match goal with
    | |- context [digitValue 10 ?c] =>
        let v := eval vm_compute in (digitValue 10 c) in
        change (digitValue 10 c) with v
    end; cbn [Z.mul Z.add];
    [exact IHd | ..]; cbn [Z.of_N]; apply parseDigits_uint_acc.
Qed.

Lemma string_of_uint_digits d : allDigits (NilEmpty.string_of_uint d) = true.
Proof. induction d; cbn; auto. Qed.

Lemma allDigits_no_underscore s :
  allDigits s = true -> contains "_" s = false.
Proof.
  induction s as [| c s IH]; [reflexivity |].
  cbn [allDigits contains]. intros H. apply andb_true_iff in H.
  destruct H as [Hc Hs]. rewrite (IH Hs), orb_false_r.
  destruct (Ascii.eqb_spec c "_") as [-> | _]; [discriminate Hc | reflexivity].
Qed.

(** For a non-empty string of digits, [parseInt] reads the digits in
    base 10. *)
Lemma parseInt_digits s :
  s <> EmptyString -> allDigits s = true ->
  parseInt s = parseDigits 10 s None
  /\ parseInt (String "-" s) = option_map (Z.mul (-1)) (parseDigits 10 s None).
Proof.
  intros Hne Hd. destruct s as [| c s]; [congruence |].
  cbn [allDigits] in Hd. apply andb_true_iff in Hd. destruct Hd as [Hc Hs].
  assert (Hx : startsWith "0x" (String c s) = false
               /\ startsWith "0X" (String c s) = false).
  { destruct s as [| c' s]; cbn [startsWith];
      [rewrite !andb_false_r; auto |].
    cbn [allDigits] in Hs. apply andb_true_iff in Hs. destruct Hs as [Hc' _].
    destruct (Ascii.eqb_spec "x" c') as [<- | _]; [discriminate Hc' |].
    destruct (Ascii.eqb_spec "X" c') as [<- | _]; [discriminate Hc' |].
    cbn [andb]. rewrite !andb_false_r. auto. }
  destruct Hx as [Hx HX].
  assert (Hw : isWhiteSpace c = false /\ isWhiteSpaceLead c = false).
  { unfold isDigit, digitValue in Hc. unfold isWhiteSpace, isWhiteSpaceLead.
    destruct c as [[] [] [] [] [] [] [] []]; try (split; reflexivity);
      discriminate Hc. }
  destruct Hw as [Hw Hlead].
  split.
  - unfold parseInt. cbn [trimStart]. rewrite Hw, Hlead.
    destruct c as [[] [] [] [] [] [] [] []]; try discriminate Hc;
      rewrite Hx, HX; cbn [orb option_map];
      (destruct (parseDigits 10 _ None) as [v |]; cbn [option_map];
       [rewrite Z.mul_1_l |]; reflexivity).
  - unfold parseInt. cbn [trimStart].
    change (isWhiteSpace "-") with false.
    change (isWhiteSpaceLead "-") with false. cbv iota.
    rewrite Hx, HX. reflexivity.
Qed.

(** Writing an integer in decimal and reading it with [parseInt] gives the
    integer back. *)
Lemma parseInt_Z_toString z : parseInt (Z_toString z) = Some z.
Proof.
  assert (Hpos : forall p,
             let s := NilZero.string_of_uint (Pos.to_uint p) in
             s = NilEmpty.string_of_uint (Pos.to_uint p)
             /\ s <> EmptyString
             /\ parseDigits 10 s None = Some (Z.pos p)).
  { intros p s. subst s.
    pose proof (Unsigned.to_uint_nonnil p) as Hnil.
    pose proof (Unsigned.of_to p) as Hof.
    pose proof (parseDigits_uint (Pos.to_uint p)) as Hparse.
    rewrite Hof in Hparse. cbn [Z.of_N] in Hparse.
    destruct (Pos.to_uint p) eqn:Hu; [congruence | ..];
      (split; [reflexivity |]); (split; [discriminate |]);
      cbn [NilZero.string_of_uint NilEmpty.string_of_uint parseDigits]
        in Hparse |- *;
      exact Hparse. }
  unfold Z_toString. destruct z as [| p | p].
  - reflexivity.
  - cbn [Z.to_int NilZero.string_of_int]. destruct (Hpos p) as [Hs [Hne Hp]].
    destruct (parseInt_digits _ Hne) as [-> _]; [| exact Hp].
    rewrite Hs. apply string_of_uint_digits.
  - cbn [Z.to_int NilZero.string_of_int]. destruct (Hpos p) as [Hs [Hne Hp]].
    destruct (parseInt_digits (NilZero.string_of_uint (Pos.to_uint p)) Hne)
      as [_ Hneg]; [rewrite Hs; apply string_of_uint_digits |].
    rewrite Hneg, Hp. reflexivity.
Qed.

(** A number written in decimal holds no underscore. *)
Lemma Z_toString_no_underscore z : contains "_" (Z_toString z) = false.
Proof.
  unfold Z_toString. destruct z as [| p | p]; [reflexivity | ..];
    cbn [Z.to_int NilZero.string_of_int];
    pose proof (Unsigned.to_uint_nonnil p) as Hnil;
    pose proof (string_of_uint_digits (Pos.to_uint p)) as Hd;
    destruct (Pos.to_uint p) eqn:Hu; try congruence;
    cbn [NilZero.string_of_uint contains append];
    rewrite ?(allDigits_no_underscore _ Hd); reflexivity.
Qed.
End Strings.

(** ** The pages of the member menu *)

Section MemberOptions.

Lemma slice_window_length {A} (l : list A) (start : number) :
  le (List.length (slice l start (JSNum.add start (Some 24)))) 24.
Proof.
  unfold slice. rewrite length_firstn.
  destruct start as [v |]; cbn [JSNum.add JSNum.lift2]; [| cbn; lia].
  destruct (Z.ltb_spec v 0), (Z.ltb_spec (v + 24) 0); lia.
Qed.

Lemma slice_page {A} (l : list A) (p : Z) :
  0 <= p ->
  slice l (Some (p * 24)) (Some (p * 24 + 24))
  = firstn 24 (skipn (Z.to_nat (p * 24)) l).
Proof.
  intros Hp. unfold slice.
  destruct (Z.ltb_spec (p * 24) 0); [lia |].
  destruct (Z.ltb_spec (p * 24 + 24) 0); [lia |].
  set (len := Z.of_nat (List.length l)).
  destruct (Z.le_gt_cases len (p * 24)) as [Hout | Hin].
  - rewrite !Z.min_r by lia. rewrite Z.sub_diag.
    rewrite (skipn_all2 (n := Z.to_nat (p * 24))) by (subst len; lia).
    rewrite firstn_nil. reflexivity.
  - rewrite (Z.min_l (p * 24)) by lia.
    destruct (Z.le_gt_cases (p * 24 + 24) len) as [Hfull | Hpart].
    + rewrite Z.min_l by lia. f_equal. lia.
    + rewrite Z.min_r by lia.
      rewrite !firstn_all2; [reflexivity | |];
        rewrite length_skipn; subst len; lia.
Qed.

(** The options of a page from 0 on: the members of that page and, when
    members remain after it, the "Next Page" option. *)
Lemma getMemberOptions_page members p :
  0 <= p ->
  getMemberOptions members (Some p)
  = (map memberOption (firstn 24 (skipn (Z.to_nat (p * 24)) members))
     ++ (if Z.of_nat (List.length members) >? p * 24 + 24
         then [nextPageOption p (Z.of_nat (List.length members))]
         else []))%list.
Proof.
  intros Hp. unfold getMemberOptions, ITEMS_PER_PAGE.
  cbn [JSNum.lift2 JSNum.add JSNum.gt JSNum.cmp].
  rewrite slice_page by assumption.
  destruct (Z.of_nat (List.length members) >? p * 24 + 24).
  - reflexivity.
  - rewrite app_nil_r. reflexivity.
Qed.

(** X11: whatever the page (negative and NaN included), a menu has at most
    25 options: at most 24 members and the "Next Page" entry. *)
Theorem options_at_most_25 (members : list MemberInfo) (page : number) :
  (List.length (getMemberOptions members page) <= 25)%nat.
Proof.
  unfold getMemberOptions, ITEMS_PER_PAGE.
  pose proof (slice_window_length members
                (JSNum.lift2 Z.mul page (Some 24))) as Hw.
  destruct (JSNum.gt _ _); rewrite ?length_app, length_map; cbn; lia.
Qed.

(** X12: the member at position [i] of the list is offered on page
    [i / 24], at position [i mod 24] of the menu, under the value
    ["member_" ++ id]. *)
Theorem member_reachable_by_paging
    (members : list MemberInfo) (i : nat) (member : MemberInfo) :
  nth_error members i = Some member ->
  nth_error (getMemberOptions members (Some (Z.of_nat (i / 24))))
            (i mod 24)
  = Some (memberOption member).
Proof.
  intros Hi.
  assert (Hlt : (i < List.length members)%nat)
    by (apply nth_error_Some; congruence).
  pose proof (Nat.div_mod_eq i 24) as Hdm.
  pose proof (Nat.mod_upper_bound i 24 ltac:(lia)) as Hmod.
  rewrite getMemberOptions_page by lia.
  replace (Z.to_nat (Z.of_nat (i / 24) * 24)) with (24 * (i / 24))%nat by lia.
  rewrite nth_error_app1.
  - rewrite nth_error_map, nth_error_firstn.
    destruct (Nat.ltb_spec (i mod 24) 24); [| lia].
    rewrite nth_error_skipn. rewrite <- Hdm, Hi. reflexivity.
  - rewrite length_map, length_firstn, length_skipn. lia.
Qed.

Lemma memberOption_not_page member :
  startsWith "page_" (opt_value (memberOption member)) = false.
Proof. reflexivity. Qed.

(** X13: on a page from 0 on, an option whose value starts with "page_"
    is offered exactly when members remain after that page; member options
    never carry such a value. *)
Theorem next_page_offered_iff_more (members : list MemberInfo) (p : Z) :
  0 <= p ->
  existsb (fun option => startsWith "page_" (opt_value option))
          (getMemberOptions members (Some p))
  = (Z.of_nat (List.length members) >? (p + 1) * 24).
Proof.
  intros Hp. rewrite getMemberOptions_page by assumption.
  rewrite existsb_app.
  replace ((p + 1) * 24) with (p * 24 + 24) by lia.
  assert (Hitems : forall l,
             existsb (fun option => startsWith "page_" (opt_value option))
                     (map memberOption l) = false).
  { induction l as [| m l IH]; [reflexivity |].
    cbn [map existsb]. rewrite memberOption_not_page. exact IH. }
  rewrite Hitems.
  destruct (Z.of_nat (List.length members) >? p * 24 + 24); reflexivity.
Qed.
End MemberOptions.

Lemma member_reachable_by_paging_witness :
  nth_error [ {| info_id := "42"; info_displayName := "Bob" |} ] 0
  = Some {| info_id := "42"; info_displayName := "Bob" |}
  /\ nth_error
       (getMemberOptions [ {| info_id := "42"; info_displayName := "Bob" |} ]
          (Some (Z.of_nat (0 / 24))))
       (0 mod 24)
     = Some (memberOption {| info_id := "42"; info_displayName := "Bob" |}).
Proof.
  split; [reflexivity |].
  apply (member_reachable_by_paging
           [ {| info_id := "42"; info_displayName := "Bob" |} ] 0).
  reflexivity.
Defined.

Lemma next_page_offered_iff_more_witness :
  0 <= 0
  /\ existsb (fun option => startsWith "page_" (opt_value option))
       (getMemberOptions
          (repeat {| info_id := "42"; info_displayName := "Bob" |} 30)
          (Some 0))
     = (Z.of_nat
          (List.length
             (repeat {| info_id := "42"; info_displayName := "Bob" |} 30))
        >? (0 + 1) * 24).
Proof.
  split; [lia |].
  apply (next_page_offered_iff_more
           (repeat {| info_id := "42"; info_displayName := "Bob" |} 30) 0).
  lia.
Defined.

(** ** Choosing from the menu *)

Section Choosing.

(** One call of [handleMemberSelection], step by step. *)
Lemma handleMemberSelection_step rejects memberList sels page i :
  handleMemberSelection rejects memberList sels page i
  = match rejects (callsMade i) with
    | Some thrown =>
        ([Rejected (EditReply selectPrompt
                      (SelectMenu (getMemberOptions memberList page)))],
         afterCall i, inr thrown)
    | None =>
        let shown := setReplied (afterCall i) in
        match sels with
        | SelValue v :: rest =>
            if String.eqb (hd EmptyString (split "_" v)) "page" then
              let r :=
                handleMemberSelection rejects memberList rest
                  (parseInt_opt (hd_error (tl (split "_" v)))) shown in
              ((shownPage memberList page ++ DeferUpdate :: eventsOf r)%list,
               interactionOf r, outcomeOf r)
            else
              ((shownPage memberList page ++ [DeferUpdate])%list, shown,
               inl (hd_error (tl (split "_" v))))
        | _ => (shownPage memberList page, shown, inl None)
        end
    end.
Proof.
  destruct sels as [| [| | v] rest]; cbn [handleMemberSelection];
    unfold bind at 1, editReply, call;
    destruct (rejects (callsMade i)) as [thrown |]; try reflexivity.
  cbv zeta. destruct (String.eqb _ "page"); reflexivity.
Qed.

(** X14: when the reply edit that shows page [p] resolves, choosing the
    "Next Page" option of that page shows page [p + 1]: the page number
    written into the option's value is read back by [parseInt].  The page
    number is one a double holds exactly. *)
Theorem next_page_shows_following_page
    (rejects : nat -> option Thrown) (memberList : list MemberInfo)
    (p len : Z) (rest : list Selection) (i : Interaction) :
  0 <= p -> p + 1 < 2 ^ 53 ->
  rejects (callsMade i) = None ->
  handleMemberSelection rejects memberList
    (SelValue (opt_value (nextPageOption p len)) :: rest) (Some p) i
  = ((shownPage memberList (Some p)
      ++ DeferUpdate
         :: eventsOf (handleMemberSelection rejects memberList rest
                        (Some (p + 1)) (setReplied (afterCall i))))%list,
     interactionOf (handleMemberSelection rejects memberList rest
                      (Some (p + 1)) (setReplied (afterCall i))),
     outcomeOf (handleMemberSelection rejects memberList rest
                  (Some (p + 1)) (setReplied (afterCall i)))).
Proof.
  intros _ _ Hshown. rewrite handleMemberSelection_step, Hshown.
  cbn [nextPageOption opt_value].
  change (split "_" ("page_" ++ Z_toString (p + 1)))
    with ("page" :: split "_" (Z_toString (p + 1))).
  rewrite (split_single "_" (Z_toString (p + 1)))
    by apply Z_toString_no_underscore.
  cbn [hd tl hd_error parseInt_opt]. rewrite parseInt_Z_toString.
  change (String.eqb "page" "page") with true. reflexivity.
Qed.

(** Choosing the option of a member whose id holds no underscore returns
    that id. *)
Lemma member_choice_returns_id
    (rejects : nat -> option Thrown) (memberList : list MemberInfo)
    (member : MemberInfo) (rest : list Selection) (page : number)
    (i : Interaction) :
  contains "_" (info_id member) = false ->
  rejects (callsMade i) = None ->
  handleMemberSelection rejects memberList
    (SelValue (opt_value (memberOption member)) :: rest) page i
  = ((shownPage memberList page ++ [DeferUpdate])%list,
     setReplied (afterCall i),
     inl (Some (info_id member))).
Proof.
  intros Hid Hshown. rewrite handleMemberSelection_step, Hshown.
  cbn [memberOption opt_value].
  change (split "_" ("member_" ++ info_id member))
    with ("member" :: split "_" (info_id member)).
  rewrite (split_single "_" (info_id member) Hid).
  reflexivity.
Qed.

(** X15: whatever the user's answers and whatever Discord rejects, a value
    returned by [handleMemberSelection] holds no underscore, so the
    [replace('member_', '')] applied to it changes nothing. *)
Theorem selected_value_has_no_prefix
    (rejects : nat -> option Thrown) (memberList : list MemberInfo)
    (sels : list Selection) (page : number) (i : Interaction)
    (value : string) :
  outcomeOf (handleMemberSelection rejects memberList sels page i)
  = inl (Some value) ->
  contains "_" value = false
  /\ replace "member_" EmptyString value = value.
Proof.
  intros Hvalue.
  assert (Hno : contains "_" value = false).
  { revert page i Hvalue.
    induction sels as [| sel rest IH]; intros page i Hvalue;
      rewrite handleMemberSelection_step in Hvalue;
      destruct (rejects (callsMade i)); try discriminate Hvalue.
    destruct sel as [| | v]; try discriminate Hvalue.
    cbv zeta in Hvalue.
    destruct (String.eqb (hd EmptyString (split "_" v)) "page").
    - cbn [outcomeOf snd] in Hvalue. exact (IH _ _ Hvalue).
    - cbn [outcomeOf snd] in Hvalue.
      pose proof (split_pieces "_" v) as Hpieces.
      destruct (split "_" v) as [| first [| second others]];
        try discriminate Hvalue.
      cbn [tl hd_error] in Hvalue. injection Hvalue as <-.
      inversion Hpieces as [| ? ? _ Htail]; subst.
      inversion Htail; subst. assumption. }
  split; [exact Hno |].
  exact (replace_absent "member" "_" EmptyString EmptyString value Hno).
Qed.
End Choosing.

(** From page 0 of a list of 30 members, while every reply edit
    resolves. *)
Lemma next_page_shows_following_page_witness :
  (0 <= 0 /\ 0 + 1 < 2 ^ 53)
  /\ handleMemberSelection (fun _ => None) []
       (SelValue (opt_value (nextPageOption 0 30)) :: []) (Some 0)
       freshInteraction
     = ((shownPage [] (Some 0)
         ++ DeferUpdate
            :: eventsOf (handleMemberSelection (fun _ => None) [] []
                           (Some (0 + 1))
                           (setReplied (afterCall freshInteraction))))%list,
        interactionOf (handleMemberSelection (fun _ => None) [] []
                         (Some (0 + 1))
                         (setReplied (afterCall freshInteraction))),
        outcomeOf (handleMemberSelection (fun _ => None) [] []
                     (Some (0 + 1))
                     (setReplied (afterCall freshInteraction)))).
Proof.
  split; [lia |].
  apply (next_page_shows_following_page (fun _ => None) [] 0 30 []
           freshInteraction); [lia | lia | reflexivity].
Defined.

Lemma member_choice_returns_id_witness :
  contains "_" (info_id {| info_id := "42"; info_displayName := "Bob" |})
  = false
  /\ handleMemberSelection (fun _ => None)
       [ {| info_id := "42"; info_displayName := "Bob" |} ]
       (SelValue
          (opt_value
             (memberOption {| info_id := "42"; info_displayName := "Bob" |}))
        :: []) (Some 0) freshInteraction
     = ((shownPage [ {| info_id := "42"; info_displayName := "Bob" |} ]
                   (Some 0) ++ [DeferUpdate])%list,
        setReplied (afterCall freshInteraction),
        inl (Some "42")).
Proof.
  split; [reflexivity |].
  apply (member_choice_returns_id (fun _ => None)
           [ {| info_id := "42"; info_displayName := "Bob" |} ]
           {| info_id := "42"; info_displayName := "Bob" |} [] (Some 0)
           freshInteraction); reflexivity.
Defined.

Lemma selected_value_has_no_prefix_witness :
  outcomeOf (handleMemberSelection (fun _ => None)
               [ {| info_id := "42"; info_displayName := "Bob" |} ]
               [SelValue "page_0"; SelValue "member_42_x"] (Some 0)
               freshInteraction)
  = inl (Some "42")
  /\ contains "_" "42" = false
  /\ replace "member_" EmptyString "42" = "42".
Proof.
  assert (H : outcomeOf (handleMemberSelection (fun _ => None)
                           [ {| info_id := "42"; info_displayName := "Bob" |} ]
                           [SelValue "page_0"; SelValue "member_42_x"] (Some 0)
                           freshInteraction)
              = inl (Some "42")) by reflexivity.
  split; [exact H |].
  exact (selected_value_has_no_prefix _ _ _ _ _ _ H).
Defined.

(** ** Fetching the members *)

Section FetchMembers.

(** X16: [fetchGuildMembers] does not fetch when the cache holds members;
    it returns [null] exactly when the cache is empty on entry, the
    regular fetch fails, on a community server the chunk-based fetch
    failed too, and the cache is still empty when the [catch] block reads
    it again; when it has been filled by then, the cache is returned; it
    fetches at most twice. *)
Theorem fetchGuildMembers_outcome
    (g : Guild) (chunk list_ : FetchResult) :
  (cache g <> [] ->
   fetchGuildMembers g chunk list_ = ([], Some (cache g)))
  /\ (snd (fetchGuildMembers g chunk list_) = None
      <-> cache g = [] /\ list_ = FetchFailed
          /\ (community g = true -> chunk = FetchFailed)
          /\ cacheAfterFetch g = [])
  /\ (cache g = [] -> list_ = FetchFailed ->
      (community g = true -> chunk = FetchFailed) ->
      cacheAfterFetch g <> [] ->
      snd (fetchGuildMembers g chunk list_) = Some (cacheAfterFetch g))
  /\ (List.length (fst (fetchGuildMembers g chunk list_)) <= 2)%nat.
Proof.
  unfold fetchGuildMembers.
  assert (Hsize : forall members : list GuildMember,
             (0 <? Z.of_nat (List.length members)) = false <-> members = []).
  { intros [| member members]; cbn [List.length]; [tauto |].
    split; [| discriminate].
    intros H. apply Z.ltb_ge in H. lia. }
  destruct (0 <? Z.of_nat (List.length (cache g))) eqn:Hcache.
  - assert (Hne : cache g <> []).
    { intros H. apply Hsize in H. congruence. }
    cbn [fst snd List.length]. split; [reflexivity |].
    split; [split; [discriminate | tauto] |].
    split; [tauto | lia].
  - apply Hsize in Hcache.
    split; [congruence |].
    destruct (0 <? Z.of_nat (List.length (cacheAfterFetch g))) eqn:Hafter.
    + assert (Hne : cacheAfterFetch g <> []).
      { intros H. apply Hsize in H. congruence. }
      destruct (community g), chunk, list_; cbn [fst snd app List.length];
        repeat split; try discriminate; try lia; try tauto;
        try (intros [_ [H _]]; discriminate H);
        try (intros [_ [_ [H _]]]; specialize (H eq_refl); discriminate H);
        try (intros _ H; discriminate H);
        try (intros _ _ H; specialize (H eq_refl); discriminate H).
    + apply Hsize in Hafter.
      destruct (community g), chunk, list_; cbn [fst snd app List.length];
        repeat split; try discriminate; try lia; try tauto;
        try (intros [_ [H _]]; discriminate H);
        try (intros [_ [_ [H _]]]; specialize (H eq_refl); discriminate H);
        try (intros _ H; discriminate H);
        try (intros _ _ H; specialize (H eq_refl); discriminate H).
Qed.
End FetchMembers.

(** A regular fetch that fails on a guild whose cache was empty on entry
    and holds a member by the time the [catch] block reads it. *)
Lemma fetchGuildMembers_outcome_witness :
  snd (fetchGuildMembers
         {| cache := []; community := true;
            cacheAfterFetch := [Samples.bob] |}
         FetchFailed FetchFailed)
  = Some [Samples.bob].
Proof.
  apply (proj1 (proj2 (proj2
           (fetchGuildMembers_outcome
              {| cache := []; community := true;
                 cacheAfterFetch := [Samples.bob] |}
              FetchFailed FetchFailed))));
    try reflexivity; discriminate.
Defined.

(** ** The command as a whole *)

Section Execute.
Context {host : Host}.

Lemma endsWithReply_single content components :
  endsWithReply [EditReply content components].
Proof. exists [], content, components. reflexivity. Qed.

Lemma endsWithReply_cons e events :
  endsWithReply events -> endsWithReply (e :: events).
Proof.
  intros [before [content [components ->]]].
  exists (e :: before), content, components. reflexivity.
Qed.

Lemma endsWithReply_app before events :
  endsWithReply events -> endsWithReply (before ++ events).
Proof.
  intros [before' [content [components ->]]].
  exists (before ++ before')%list, content, components.
  rewrite app_assoc. reflexivity.
Qed.

(** *** Steps that end with a reply edit *)

Lemma repliesLast_editReply rejects content components :
  repliesLast (editReply rejects content components).
Proof.
  intros i a Hresolved. unfold editReply, call in *.
  destruct (rejects (callsMade i)); [discriminate Hresolved |].
  apply endsWithReply_single.
Qed.

Lemma repliesLast_throw {A} thrown : repliesLast (@throw A thrown).
Proof. intros i a Hresolved. discriminate Hresolved. Qed.

Lemma repliesLast_bind {A B} (m : Run A) (k : A -> Run B) :
  (forall a, repliesLast (k a)) -> repliesLast (bind m k).
Proof.
  intros Hk i b Hresolved. unfold bind in *.
  destruct (outcomeOf (m i)) as [a | thrown]; [| discriminate Hresolved].
  cbn [outcomeOf eventsOf fst snd] in *.
  apply endsWithReply_app. exact (Hk a _ b Hresolved).
Qed.

Lemma repliesLast_tryCatch {A} (m : Run A) handler :
  repliesLast m -> (forall thrown, repliesLast (handler thrown)) ->
  repliesLast (tryCatch m handler).
Proof.
  intros Hm Hh i a Hresolved. unfold tryCatch in *.
  destruct (outcomeOf (m i)) as [a' | thrown] eqn:Hm'.
  - exact (Hm i a' Hm').
  - cbn [outcomeOf eventsOf fst snd] in *.
    apply endsWithReply_app. exact (Hh thrown _ a Hresolved).
Qed.

Lemma showAttendance_repliesLast inv y m : repliesLast (showAttendance inv y m).
Proof.
  unfold showAttendance.
  destruct (guild inv) as [g |]; [| apply repliesLast_editReply].
  apply repliesLast_bind. intros [[| member members] |];
    try apply repliesLast_editReply.
  destruct (map _ (filter _ (member :: members))) as [| info infos];
    [apply repliesLast_editReply |].
  apply repliesLast_bind. intros [[| c selected] |];
    try apply repliesLast_editReply.
  destruct (find _ (info :: infos)) as [selectedMember |];
    [| apply repliesLast_editReply].
  unfold showCalendar. apply repliesLast_tryCatch.
  - apply repliesLast_bind. intros _.
    destruct (playerAttendance inv _); [| apply repliesLast_throw].
    apply repliesLast_bind. intros _. apply repliesLast_editReply.
  - intros thrown. apply repliesLast_editReply.
Qed.

Lemma attempt_repliesLast inv : repliesLast (attempt inv).
Proof.
  unfold attempt. apply repliesLast_bind. intros _.
  destruct (resolveMonth inv) as [message | [y m]].
  - apply repliesLast_editReply.
  - apply showAttendance_repliesLast.
Qed.

(** *** Steps that do not throw while no call is rejected *)

Section NoRejection.
Variable rejects : nat -> option Thrown.
Hypothesis never : forall n, rejects n = None.

Lemma resolves_call e resolved : resolves (call rejects e resolved).
Proof. intros i. unfold call. rewrite never. exists tt. reflexivity. Qed.

Lemma resolves_ret {A} (a : A) : resolves (ret a).
Proof. intros i. exists a. reflexivity. Qed.

Lemma resolves_emit e : resolves (emit e).
Proof. intros i. exists tt. reflexivity. Qed.

Lemma resolves_lift {A} (p : list Event * A) : resolves (lift p).
Proof. intros i. exists (snd p). reflexivity. Qed.

Lemma resolves_bind {A B} (m : Run A) (k : A -> Run B) :
  resolves m -> (forall a, resolves (k a)) -> resolves (bind m k).
Proof.
  intros Hm Hk i. unfold bind. destruct (Hm i) as [a ->].
  destruct (Hk a (interactionOf (m i))) as [b Hb].
  exists b. exact Hb.
Qed.

Lemma resolves_tryCatch {A} (m : Run A) handler :
  (forall thrown, resolves (handler thrown)) -> resolves (tryCatch m handler).
Proof.
  intros Hh i. unfold tryCatch.
  destruct (outcomeOf (m i)) as [a | thrown] eqn:Hm; [eauto |].
  destruct (Hh thrown (interactionOf (m i))) as [b Hb].
  exists b. exact Hb.
Qed.

Lemma resolves_handleMemberSelection memberList sels page :
  resolves (handleMemberSelection rejects memberList sels page).
Proof.
  revert page. induction sels as [| sel rest IH]; intros page;
    cbn [handleMemberSelection].
  all: apply resolves_bind; [apply resolves_call | intros _].
  all: apply resolves_bind; [apply resolves_emit | intros _].
  { apply resolves_ret. }
  destruct sel as [| | v]; try apply resolves_ret.
  apply resolves_bind; [apply resolves_emit | intros _].
  destruct (String.eqb _ "page"); [apply IH | apply resolves_ret].
Qed.
End NoRejection.

Lemma attempt_resolves inv :
  (forall n, rejects inv n = None) -> resolves (attempt inv).
Proof.
  intros Hnever.
  assert (Hedit : forall content components,
             resolves (editReply (rejects inv) content components))
    by (intros; apply resolves_call; exact Hnever).
  unfold attempt. apply resolves_bind;
    [apply resolves_call; exact Hnever | intros _].
  destruct (resolveMonth inv) as [message | [y m]]; [apply Hedit |].
  unfold showAttendance.
  destruct (guild inv) as [g |]; [| apply Hedit].
  apply resolves_bind; [apply resolves_lift |].
  intros [[| member members] |]; try apply Hedit.
  destruct (map _ (filter _ (member :: members))) as [| info infos];
    [apply Hedit |].
  apply resolves_bind;
    [apply resolves_handleMemberSelection; exact Hnever |].
  intros [[| c selected] |]; try apply Hedit.
  destruct (find _ (info :: infos)) as [selectedMember |]; [| apply Hedit].
  unfold showCalendar. apply resolves_tryCatch. intros thrown. apply Hedit.
Qed.

(** While no call is rejected the outer [catch] is not entered. *)
Lemma execute_resolved inv :
  (forall n, rejects inv n = None) ->
  execute inv = eventsOf (attempt inv freshInteraction).
Proof.
  intros Hnever. unfold execute, tryCatch.
  destruct (attempt_resolves inv Hnever freshInteraction) as [a ->].
  reflexivity.
Qed.

(** The outer [catch] makes one call, which answers the user. *)
Lemma recover_answers inv thrown i :
  exists answer,
    eventsOf (recover inv thrown i) = [answer] /\ isAnswer answer = true.
Proof.
  unfold recover, swallow, tryCatch, reply, editReply, call.
  destruct (negb (replied i) && negb (deferred i));
    destruct (rejects inv (callsMade i));
    cbn [outcomeOf eventsOf fst snd ret app]; eauto.
Qed.

(** X17: the last thing every run does is a call that answers the user,
    [editReply] or [reply], whatever Discord rejects.  While no call is
    rejected, the run starts by deferring the reply and ends with a reply
    edit that resolved.  When [deferReply] itself is rejected, the run is
    that rejection followed by one [reply] with the text of the outer
    [catch]. *)
Theorem execute_ends_with_reply (inv : Invocation) :
  (exists before answer,
     execute inv = (before ++ [answer])%list /\ isAnswer answer = true)
  /\ ((forall n, rejects inv n = None) ->
      hd_error (execute inv) = Some DeferReply
      /\ exists content components,
           last (execute inv) DeferReply = EditReply content components)
  /\ (forall thrown, rejects inv 0%nat = Some thrown ->
      execute inv
      = [ Rejected DeferReply;
          match rejects inv 1%nat with
          | None => Reply (executionError thrown)
          | Some _ => Rejected (Reply (executionError thrown))
          end ]).
Proof.
  split; [| split].
  - unfold execute, tryCatch.
    destruct (outcomeOf (attempt inv freshInteraction)) as [a | thrown] eqn:Hrun.
    + destruct (attempt_repliesLast inv freshInteraction a Hrun)
        as [before [content [components Hevents]]].
      exists before, (EditReply content components). split; [exact Hevents |].
      reflexivity.
    + cbn [eventsOf fst].
      destruct (recover_answers inv thrown
                  (interactionOf (attempt inv freshInteraction)))
        as [answer [Hevents Hanswer]].
      exists (eventsOf (attempt inv freshInteraction)), answer.
      rewrite Hevents. split; [reflexivity | exact Hanswer].
  - intros Hnever. rewrite (execute_resolved inv Hnever). split.
    + unfold attempt, bind, deferReply.
      rewrite (call_resolves (rejects inv) DeferReply setDeferred
                 freshInteraction (Hnever _)).
      reflexivity.
    + destruct (attempt_resolves inv Hnever freshInteraction) as [a Hrun].
      destruct (attempt_repliesLast inv freshInteraction a Hrun)
        as [before [content [components ->]]].
      exists content, components. apply last_last.
  - intros thrown Hdefer.
    unfold execute, tryCatch, attempt, bind, deferReply.
    rewrite (call_rejected (rejects inv) DeferReply setDeferred
               freshInteraction thrown Hdefer).
    cbn [outcomeOf interactionOf eventsOf fst snd].
    unfold recover, swallow, tryCatch, reply, call.
    cbn [afterCall freshInteraction replied deferred callsMade negb andb].
    destruct (rejects inv 1%nat); reflexivity.
Qed.

(** X18: an attendance lookup is only ever made for the display name of a
    member of the fetched list that is not a bot. *)
Theorem attendance_lookup_only_for_non_bots (inv : Invocation) (name : string) :
  In (GetPlayerAttendance name) (execute inv) ->
  exists g members member,
    guild inv = Some g
    /\ snd (fetchGuildMembers g (chunkFetch inv) (listFetch inv))
       = Some members
    /\ In member members
    /\ bot member = false
    /\ displayName member = name.
Proof.
  intros Hin.
  pose proof (proj1 (Forall_forall _ _) (execute_expected inv) _ Hin)
    as Hexpected.
  cbn [expected] in Hexpected. destruct Hexpected as [_ Hname].
  exact Hname.
Qed.
End Execute.

(** The sample run, where no call is rejected, and the same invocation
    when [deferReply] is rejected. *)
Lemma execute_ends_with_reply_witness :
  ((forall n, rejects (Samples.invocation None None) n = None)
   /\ rejects (Samples.rejectedAt 0 (Samples.invocation None None)) 0%nat
      = Some (ErrorObject "Unknown interaction"))
  /\ (hd_error (execute (host := Samples.utcHost)
                  (Samples.invocation None None)) = Some DeferReply
      /\ exists content components,
           last (execute (host := Samples.utcHost)
                   (Samples.invocation None None)) DeferReply
           = EditReply content components)
  /\ execute (host := Samples.utcHost)
       (Samples.rejectedAt 0 (Samples.invocation None None))
     = [ Rejected DeferReply;
         match rejects (Samples.rejectedAt 0 (Samples.invocation None None))
                 1%nat with
         | None => Reply (executionError (ErrorObject "Unknown interaction"))
         | Some _ =>
             Rejected
               (Reply (executionError (ErrorObject "Unknown interaction")))
         end ].
Proof.
  split; [split; [intros n |]; reflexivity |].
  split.
  - apply (proj1 (proj2 (execute_ends_with_reply (host := Samples.utcHost)
                           (Samples.invocation None None)))).
    intros n. reflexivity.
  - apply (proj2 (proj2 (execute_ends_with_reply (host := Samples.utcHost)
                           (Samples.rejectedAt 0
                              (Samples.invocation None None))))).
    reflexivity.
Defined.

Lemma attendance_lookup_only_for_non_bots_witness :
  In (GetPlayerAttendance "Bob")
     (execute (host := Samples.utcHost) (Samples.invocation None None))
  /\ exists g members member,
       guild (Samples.invocation None None) = Some g
       /\ snd (fetchGuildMembers g
                 (chunkFetch (Samples.invocation None None))
                 (listFetch (Samples.invocation None None)))
          = Some members
       /\ In member members
       /\ bot member = false
       /\ displayName member = "Bob".
Proof.
  assert (Hin : In (GetPlayerAttendance "Bob")
                   (execute (host := Samples.utcHost)
                      (Samples.invocation None None))).
  { vm_compute. do 5 right. left. reflexivity. }
  split; [exact Hin |].
  exact (attendance_lookup_only_for_non_bots (host := Samples.utcHost)
           (Samples.invocation None None) "Bob" Hin).
Defined.

(** ** From a choice to the calendar *)

Section HappyPath.
Context {host : Host}.

Lemma find_by_unique_id (members : list GuildMember) (member : GuildMember) :
  NoDup (map id members) ->
  In member members ->
  bot member = false ->
  find (fun info => String.eqb (info_id info) (id member))
       (map memberInfo (filter (fun m => negb (bot m)) members))
  = Some (memberInfo member).
Proof.
  intros Hnodup Hin Hbot.
  induction members as [| m members IH]; [destruct Hin |].
  cbn [map] in Hnodup. inversion Hnodup as [| ? ? Hfresh Hrest]; subst.
  cbn [filter]. destruct Hin as [-> | Hin].
  - rewrite Hbot. cbn [negb map find memberInfo info_id].
    rewrite String.eqb_refl. reflexivity.
  - destruct (negb (bot m)); [| exact (IH Hrest Hin)].
    cbn [map find memberInfo info_id].
    destruct (String.eqb_spec (id m) (id member)) as [Heq | _];
      [| exact (IH Hrest Hin)].
    exfalso. apply Hfresh. rewrite Heq. apply in_map. exact Hin.
Qed.

(** The steps of lines 171-220 once a member id is selected. *)
Lemma showCalendar_run inv y m name i :
  showCalendar inv y m name i
  = match playerAttendance inv name with
    | Some attendanceData =>
        let embed :=
          generateCalendarEmbed (clock inv) attendanceData y m name in
        match rejects inv (callsMade i) with
        | Some _ =>
            match rejects inv (S (callsMade i)) with
            | Some thrown =>
                ([ GetPlayerAttendance name;
                   Rejected (FollowUp embed);
                   Rejected (EditReply retrievalError Cleared) ],
                 afterCall (afterCall i), inr thrown)
            | None =>
                ([ GetPlayerAttendance name;
                   Rejected (FollowUp embed);
                   EditReply retrievalError Cleared ],
                 setReplied (afterCall (afterCall i)), inl tt)
            end
        | None =>
            match rejects inv (S (callsMade i)) with
            | Some _ =>
                match rejects inv (S (S (callsMade i))) with
                | Some thrown =>
                    ([ GetPlayerAttendance name;
                       FollowUp embed;
                       Rejected (EditReply calendarDisplayed Cleared);
                       Rejected (EditReply retrievalError Cleared) ],
                     afterCall (afterCall (setReplied (afterCall i))),
                     inr thrown)
                | None =>
                    ([ GetPlayerAttendance name;
                       FollowUp embed;
                       Rejected (EditReply calendarDisplayed Cleared);
                       EditReply retrievalError Cleared ],
                     setReplied
                       (afterCall (afterCall (setReplied (afterCall i)))),
                     inl tt)
                end
            | None =>
                ([ GetPlayerAttendance name;
                   FollowUp embed;
                   EditReply calendarDisplayed Cleared ],
                 setReplied (afterCall (setReplied (afterCall i))), inl tt)
            end
        end
    | None =>
        match rejects inv (callsMade i) with
        | Some thrown =>
            ([ GetPlayerAttendance name;
               Rejected (EditReply retrievalError Cleared) ],
             afterCall i, inr thrown)
        | None =>
            ([ GetPlayerAttendance name; EditReply retrievalError Cleared ],
             setReplied (afterCall i), inl tt)
        end
    end.
Proof.
  unfold showCalendar, tryCatch, bind, emit, throw, followUp, editReply, call.
  cbn [outcomeOf interactionOf eventsOf fst snd].
  destruct (playerAttendance inv name) as [attendanceData |];
    cbn [outcomeOf interactionOf eventsOf fst snd].
  - destruct (rejects inv (callsMade i));
      cbn [outcomeOf interactionOf eventsOf fst snd afterCall setReplied
           callsMade app].
    + destruct (rejects inv (S (callsMade i))); reflexivity.
    + destruct (rejects inv (S (callsMade i)));
        cbn [outcomeOf interactionOf eventsOf fst snd afterCall setReplied
             callsMade app];
        [destruct (rejects inv (S (S (callsMade i)))) |]; reflexivity.
  - destruct (rejects inv (callsMade i)); reflexivity.
Qed.

(** X19: when the month is accepted, the members are fetched with unique
    ids, the user picks the option of a member that is not a bot (whose id
    is not empty and holds no underscore) and the lookup succeeds, then,
    provided Discord rejects none of the calls on the interaction, the
    command looks up that member's attendance once and follows up with
    the calendar of exactly that member and the resolved month. *)
Theorem chosen_member_gets_calendar
    (inv : Invocation) (g : Guild) (members : list GuildMember)
    (member : GuildMember) (rest : list Selection)
    (attendanceData : list AttendanceRecord) (y m : number) :
  (forall n, rejects inv n = None) ->
  resolveMonth inv = inr (y, m) ->
  guild inv = Some g ->
  snd (fetchGuildMembers g (chunkFetch inv) (listFetch inv)) = Some members ->
  NoDup (map id members) ->
  In member members ->
  bot member = false ->
  id member <> EmptyString ->
  contains "_" (id member) = false ->
  selections inv
  = SelValue (opt_value (memberOption (memberInfo member))) :: rest ->
  playerAttendance inv (displayName member) = Some attendanceData ->
  execute inv
  = (DeferReply
     :: fst (fetchGuildMembers g (chunkFetch inv) (listFetch inv))
     ++ shownPage (map memberInfo (filter (fun m => negb (bot m)) members))
                  (Some 0)
     ++ [ DeferUpdate;
          GetPlayerAttendance (displayName member);
          FollowUp (generateCalendarEmbed (clock inv) attendanceData y m
                      (displayName member));
          EditReply "Attendance calendar has been displayed." Cleared ])%list.
Proof.
  intros Hnever Hmonth Hguild Hfetch Hnodup Hin Hbot Hne Hid Hsel Hdata.
  rewrite (execute_resolved inv Hnever).
  unfold attempt, bind at 1, deferReply.
  rewrite (call_resolves (rejects inv) DeferReply setDeferred
             freshInteraction (Hnever _)).
  cbn [outcomeOf interactionOf eventsOf fst snd app]. f_equal.
  rewrite Hmonth. unfold showAttendance. rewrite Hguild.
  unfold bind at 1, lift. cbn [outcomeOf interactionOf eventsOf fst snd].
  rewrite Hfetch. f_equal.
  destruct members as [| m0 members0] eqn:Hmembers; [destruct Hin |].
  rewrite <- Hmembers in *. clear Hmembers m0 members0.
  fold memberInfo.
  change (map (fun m1 => {| info_id := id m1;
                            info_displayName := displayName m1 |}))
    with (map memberInfo).
  pose proof (find_by_unique_id members member Hnodup Hin Hbot) as Hfind.
  set (memberList := map memberInfo (filter (fun m1 => negb (bot m1)) members))
    in *.
  destruct memberList as [| info infos] eqn:Hl; [discriminate Hfind |].
  unfold bind. rewrite Hsel.
  rewrite (member_choice_returns_id (rejects inv) (info :: infos)
             (memberInfo member) rest (Some 0) _ Hid (Hnever _)).
  cbn [outcomeOf interactionOf eventsOf fst snd memberInfo info_id].
  rewrite <- app_assoc. f_equal. cbn [app]. f_equal.
  assert (Hrep : replace "member_" EmptyString (id member) = id member)
    by exact (replace_absent "member" "_" EmptyString EmptyString
                (id member) Hid).
  destruct (id member) as [| c rest'] eqn:Hidm; [congruence |].
  rewrite Hrep, Hfind. cbn [memberInfo info_displayName].
  rewrite showCalendar_run, Hdata, !Hnever. reflexivity.
Qed.

(** When Discord rejects the follow-up that carries the calendar, the
    [catch] of lines 214-220 edits the reply with the retry-later text;
    when that edit is rejected too, the outer [catch] edits it once
    more. *)
Lemma rejected_followUp_is_reported inv y m name attendanceData thrown i :
  playerAttendance inv name = Some attendanceData ->
  rejects inv (callsMade i) = Some thrown ->
  eventsOf (showCalendar inv y m name i)
  = [ GetPlayerAttendance name;
      Rejected (FollowUp (generateCalendarEmbed (clock inv) attendanceData
                            y m name));
      match rejects inv (S (callsMade i)) with
      | None => EditReply retrievalError Cleared
      | Some _ => Rejected (EditReply retrievalError Cleared)
      end ].
Proof.
  intros Hdata Hrejected. rewrite showCalendar_run, Hdata, Hrejected.
  destruct (rejects inv (S (callsMade i))); reflexivity.
Qed.
End HappyPath.

Lemma chosen_member_gets_calendar_witness :
  execute (host := Samples.utcHost) (Samples.invocation None None)
  = (DeferReply
     :: fst (fetchGuildMembers
               {| cache := []; community := false; cacheAfterFetch := [] |}
               FetchFailed (Fetched [Samples.bob]))
     ++ shownPage (map memberInfo
                     (filter (fun m => negb (bot m)) [Samples.bob]))
                  (Some 0)
     ++ [ DeferUpdate;
          GetPlayerAttendance (displayName Samples.bob);
          FollowUp
            (generateCalendarEmbed (host := Samples.utcHost)
               Samples.clock_jan_4
               [Samples.record_jan_3; Samples.record_jan_3]
               (Some 2024) (Some 0) (displayName Samples.bob));
          EditReply "Attendance calendar has been displayed." Cleared ])%list.
Proof.
  apply (chosen_member_gets_calendar (host := Samples.utcHost)
           (Samples.invocation None None)
           {| cache := []; community := false; cacheAfterFetch := [] |}
           [Samples.bob] Samples.bob []
           [Samples.record_jan_3; Samples.record_jan_3]
           (Some 2024) (Some 0)).
  - intros n. reflexivity.
  - reflexivity.
  - reflexivity.
  - reflexivity.
  - constructor; [intros [] | constructor].
  - left. reflexivity.
  - reflexivity.
  - discriminate.
  - reflexivity.
  - reflexivity.
  - reflexivity.
Defined.

(** The sample run when the follow-up (the third call on the interaction)
    is rejected: no calendar is shown and the reply asks to retry. *)
Example rejected_followUp_run :
  execute (host := Samples.utcHost)
    (Samples.rejectedAt 2 (Samples.invocation None None))
  = [ DeferReply;
      MembersFetch ListFetch;
      EditReply selectPrompt
        (SelectMenu [ {| opt_label := "Bob"; opt_value := "member_42";
                         opt_description := "View attendance for Bob" |} ]);
      AwaitMessageComponent;
      DeferUpdate;
      GetPlayerAttendance "Bob";
      Rejected
        (FollowUp
           (generateCalendarEmbed (host := Samples.utcHost)
              Samples.clock_jan_4
              [Samples.record_jan_3; Samples.record_jan_3]
              (Some 2024) (Some 0) "Bob"));
      EditReply retrievalError Cleared ].
Proof. vm_compute. reflexivity. Qed.

(** ** Which custom dates are accepted *)

Section CustomDate.
Context {host : Host}.

(** X20: a non-empty custom date is accepted exactly when its first field
    reads with [parseInt] (which skips leading white space, Unicode white
    space included) as a month from 1 to 12, its second field has a
    [length] of exactly four UTF-16 code units and reads as a number, and
    the first day of that month is neither before the tracking start nor
    after "today"; the command then shows that year and the month index
    one below. *)
Theorem custom_date_accepted_iff
    (inv : Invocation) (s : string) (y m : number) :
  customDate inv = Some s ->
  s <> EmptyString ->
  resolveMonth inv = inr (y, m)
  <-> exists monthStr yearStr others monthNumber yearNumber,
        split "/" s = monthStr :: yearStr :: others
        /\ parseInt monthStr = Some monthNumber
        /\ 1 <= monthNumber <= 12
        /\ parseInt yearStr = Some yearNumber
        /\ codeUnits yearStr = 4%nat
        /\ JSNum.lt (Date_local LocalTZA (Some yearNumber)
                       (Some (monthNumber - 1)) (Some 1))
                    (Some TRACKING_START_DATE) = false
        /\ JSNum.gt (Date_local LocalTZA (Some yearNumber)
                       (Some (monthNumber - 1)) (Some 1))
                    (Some (today inv)) = false
        /\ y = Some yearNumber
        /\ m = Some (monthNumber - 1).
Proof.
  intros Hcustom Hne. unfold resolveMonth. rewrite Hcustom.
  assert (Htruthy : negb (String.eqb s EmptyString) = true).
  { destruct s; [congruence | reflexivity]. }
  rewrite Htruthy.
  pose proof (split_nonempty "/" s) as Hsplit.
  destruct (split "/" s) as [| monthStr [| yearStr others]];
    [congruence | |]; cbn [hd tl hd_error].
  - (* no slash: there is no year *)
    change (parseInt_opt None) with (@None Z).
    cbn [JSNum.isNaN]. rewrite orb_true_r. cbn [orb].
    split; [discriminate |].
    intros [? [? [? [? [? [H _]]]]]]. discriminate H.
  - cbn [parseInt_opt].
    destruct (parseInt monthStr) as [monthNumber |] eqn:Hm;
      [| cbn; split; [discriminate |];
         intros [? [? [? [? [? [H [H' _]]]]]]]; injection H as <- <- <-;
         congruence].
    destruct (parseInt yearStr) as [yearNumber |] eqn:Hy;
      [| cbn; split; [discriminate |];
         intros [? [? [? [? [? [H [_ [_ [H' _]]]]]]]]];
         injection H as <- <- <-; congruence].
    cbn [JSNum.sub JSNum.lift2 JSNum.isNaN JSNum.lt JSNum.gt JSNum.cmp orb].
    destruct (Z.ltb_spec (monthNumber - 1) 0) as [Hlow | Hlow].
    { cbn [orb]. split; [discriminate |].
      intros [? [? [? [mn [? [H [Hmn [Hr _]]]]]]]].
      injection H as <- <- <-. rewrite Hm in Hmn. injection Hmn as <-. lia. }
    destruct (Z.gtb_spec (monthNumber - 1) 11) as [Hhigh | Hhigh].
    { cbn [orb]. split; [discriminate |].
      intros [? [? [? [mn [? [H [Hmn [Hr _]]]]]]]].
      injection H as <- <- <-. rewrite Hm in Hmn. injection Hmn as <-. lia. }
    cbn [orb].
    destruct (Z.eqb_spec (Z.of_nat (codeUnits yearStr)) 4) as [Hlen | Hlen].
    2:{ cbn [negb]. split; [discriminate |].
        intros [? [? [? [? [? [H [_ [_ [_ [Hl _]]]]]]]]]].
        injection H as <- <- <-. lia. }
    cbn [negb].
    set (customDateObj := Date_local LocalTZA (Some yearNumber)
                            (Some (monthNumber - 1)) (Some 1)).
    destruct (JSNum.lt customDateObj (Some TRACKING_START_DATE)) eqn:Hlt.
    { split; [discriminate |].
      intros [? [? [? [mn [yn [H [Hmn [_ [Hyn [_ [Hl _]]]]]]]]]]].
      injection H as <- <- <-. rewrite Hm in Hmn. injection Hmn as <-.
      rewrite Hy in Hyn. injection Hyn as <-.
      fold customDateObj in Hl. congruence. }
    destruct (JSNum.gt customDateObj (Some (today inv))) eqn:Hgt.
    { split; [discriminate |].
      intros [? [? [? [mn [yn [H [Hmn [_ [Hyn [_ [_ [Hg _]]]]]]]]]]]].
      injection H as <- <- <-. rewrite Hm in Hmn. injection Hmn as <-.
      rewrite Hy in Hyn. injection Hyn as <-.
      fold customDateObj in Hg. congruence. }
    split.
    + intros H. injection H as <- <-.
      exists monthStr, yearStr, others, monthNumber, yearNumber.
      repeat split; try assumption; try lia.
    + intros [? [? [? [mn [yn [H [Hmn [_ [Hyn [_ [_ [_ [-> ->]]]]]]]]]]]]].
      injection H as <- <- <-. rewrite Hm in Hmn. injection Hmn as <-.
      rewrite Hy in Hyn. injection Hyn as <-. reflexivity.
Qed.
End CustomDate.

(** The custom date "01/2024" on 4 January 2024. *)
Lemma custom_date_accepted_iff_witness :
  (customDate (Samples.invocation None (Some "01/2024")) = Some "01/2024"
   /\ "01/2024" <> EmptyString)
  /\ resolveMonth (host := Samples.utcHost)
       (Samples.invocation None (Some "01/2024"))
     = inr (Some 2024, Some 0).
Proof.
  assert (H1 : customDate (Samples.invocation None (Some "01/2024"))
               = Some "01/2024") by reflexivity.
  assert (H2 : "01/2024" <> EmptyString) by discriminate.
  split; [exact (conj H1 H2) |].
  apply (proj2 (custom_date_accepted_iff (host := Samples.utcHost)
                  (Samples.invocation None (Some "01/2024")) "01/2024"
                  (Some 2024) (Some 0) H1 H2)).
  exists "01", "2024", [], 1, 2024. repeat split; try reflexivity; lia.
Defined.

(** White space before the month is skipped in whatever form it comes: a
    space, or the two bytes 194 160 of a no-break space (U+00A0).  A year
    of four characters is accepted when one of them takes two bytes: the
    bytes 195 169 are one "e" with an acute accent, which ends the number
    [parseInt] reads, so "1/20\u00e94" asks for January of the year 20,
    that is 1920, before the tracking start. *)
Example custom_date_white_space :
  resolveMonth (host := Samples.utcHost)
    (Samples.invocation None (Some " 1/2024"))
  = inr (Some 2024, Some 0)
  /\ resolveMonth (host := Samples.utcHost)
       (Samples.invocation None
          (Some (String (ascii_of_nat 194)
                   (String (ascii_of_nat 160) "1/2024"))))
     = inr (Some 2024, Some 0)
  /\ codeUnits (String "2" (String "0" (String (ascii_of_nat 195)
                   (String (ascii_of_nat 169) "4")))) = 4%nat
  /\ resolveMonth (host := Samples.utcHost)
       (Samples.invocation None
          (Some (String "1" (String "/" (String "2" (String "0"
                   (String (ascii_of_nat 195)
                      (String (ascii_of_nat 169) "4"))))))))
     = inl (beforeTrackingStart (host := Samples.utcHost)).
Proof. repeat split; vm_compute; reflexivity. Qed.

(** ** Which month the month option selects *)

Ltac split_cascade :=
  repeat match goal with
         | |- context [if ?a <? ?b then _ else _] =>
             destruct (Z.ltb_spec a b)
         end.

Lemma MonthFromDay_bounds d :
  0 <= MonthFromDay d <= 11
  /\ monthStart (InLeapYearOf (YearFromDay d)) (MonthFromDay d)
     <= DayWithinYear d
     < monthStart (InLeapYearOf (YearFromDay d)) (MonthFromDay d + 1).
Proof.
  pose proof (DayWithinYear_range d) as Hw.
  unfold MonthFromDay.
  destruct (InLeapYearOf_range (YearFromDay d)) as [Hl | Hl];
    rewrite Hl in *; split_cascade; month_values; lia.
Qed.

Lemma month_or_end_cases m :
  0 <= m <= 12 ->
  m = 0 \/ m = 1 \/ m = 2 \/ m = 3 \/ m = 4 \/ m = 5 \/ m = 6 \/ m = 7 \/
  m = 8 \/ m = 9 \/ m = 10 \/ m = 11 \/ m = 12.
Proof. lia. Qed.

Ltac each_month_or_end H :=
  destruct (month_or_end_cases _ H) as
    [-> | [-> | [-> | [-> | [-> | [-> | [-> | [-> | [-> | [-> | [-> | [-> | ->]]]]]]]]]]]].

(** [monthStart] written with the table of a common year. *)
Lemma monthStart_leap leap m :
  0 <= m <= 12 ->
  monthStart leap m = monthStart 0 m + (if m <? 2 then 0 else leap).
Proof. intros Hm. each_month_or_end Hm; cbn; lia. Qed.

Lemma monthStart_common_mono a b :
  0 <= a <= b -> b <= 12 -> monthStart 0 a <= monthStart 0 b.
Proof.
  intros Hab Hb.
  assert (Ha : 0 <= a <= 12) by lia. assert (Hb' : 0 <= b <= 12) by lia.
  each_month_or_end Ha; each_month_or_end Hb'; cbn; lia.
Qed.

Lemma monthStart_common_range m :
  0 <= m <= 12 -> 0 <= monthStart 0 m <= 365.
Proof. intros Hm. each_month_or_end Hm; cbn; lia. Qed.

Lemma YearFromDay_since_epoch d : 0 <= d -> 1970 <= YearFromDay d.
Proof.
  intros Hd. pose proof (YearFromDay_spec d) as Hs.
  destruct (Z.le_gt_cases 1970 (YearFromDay d)) as [H | H]; [exact H |].
  pose proof (DayFromYear_mono (YearFromDay d + 1) 1970 ltac:(lia)) as Hm.
  change (DayFromYear 1970) with 0 in Hm. lia.
Qed.

Section MonthOption.
Context {host : Host}.

(** X21: with no custom date, a month option that reads as a month index
    0..11 is never rejected, and the month shown has begun (in local time)
    and began less than 367 days before "today": an index above the
    current month means that month of the previous year. *)
Theorem month_option_selects_recent_month
    (inv : Invocation) (requested : string) (monthIndex : Z) :
  customDate inv = None \/ customDate inv = Some EmptyString ->
  requestedMonth inv = Some requested ->
  parseInt requested = Some monthIndex ->
  0 <= monthIndex <= 11 ->
  - msPerDay <= LocalTZA <= msPerDay ->
  0 <= today inv + LocalTZA ->
  today inv <= maxTime ->
  exists shownYear firstOfMonth,
    resolveMonth inv = inr (Some shownYear, Some monthIndex)
    /\ Date_local LocalTZA (Some shownYear) (Some monthIndex) (Some 1)
       = Some firstOfMonth
    /\ firstOfMonth <= today inv
    /\ today inv - firstOfMonth < 367 * msPerDay.
Proof.
  intros Hcustom Hrequested Hparse Hindex Htz Hlocal Hvalid.
  set (d := Day (LocalTime LocalTZA (today inv))).
  assert (Hd : d * msPerDay <= today inv + LocalTZA < (d + 1) * msPerDay).
  { subst d. unfold Day, LocalTime, msPerDay.
    Z.div_mod_to_equations. lia. }
  assert (Hd0 : 0 <= d).
  { subst d. unfold Day, LocalTime, msPerDay. apply Z.div_pos; lia. }
  pose proof (YearFromDay_since_epoch d Hd0) as Hepoch.
  destruct (MonthFromDay_bounds d) as [Hmonth Hwithin].
  set (Y := YearFromDay d) in *. set (M := MonthFromDay d) in *.
  assert (HdW : d = DayFromYear Y + DayWithinYear d)
    by (unfold DayWithinYear; fold Y; lia).
  (* the first of the month shown, as a local day number *)
  assert (Hdate : forall yv first,
             1969 <= yv ->
             first = DayFromYear yv + monthStart (InLeapYearOf yv) monthIndex ->
             first <= d -> d - first <= 366 ->
             Date_local LocalTZA (Some yv) (Some monthIndex) (Some 1)
             = Some (first * msPerDay - LocalTZA)
             /\ first * msPerDay - LocalTZA <= today inv
             /\ today inv - (first * msPerDay - LocalTZA) < 367 * msPerDay).
  { intros yv first Hyv Hfirst Hle Hnear.
    assert (Hbounds : first * msPerDay - LocalTZA <= today inv
                      /\ today inv - (first * msPerDay - LocalTZA)
                         < 367 * msPerDay)
      by (unfold msPerDay in *; lia).
    split; [| exact Hbounds].
    unfold Date_local, MakeFullYear.
    destruct (Z.leb_spec yv 99); [lia |]. rewrite andb_false_r.
    unfold MakeDay. rewrite Z.div_small, Z.mod_small, Z.add_0_r by lia.
    cbn [MakeDate UTC option_map]. change (MakeTime 0 0 0 0) with 0.
    replace (DayFromYear yv + monthStart (InLeapYearOf yv) monthIndex + 1 - 1)
      with first by lia.
    unfold TimeClip.
    destruct (Z.leb_spec (Z.abs (first * msPerDay + 0 - LocalTZA)) maxTime);
      [f_equal; lia |].
    unfold msPerDay, maxTime in *. lia. }
  assert (Hresolve :
            resolveMonth inv
            = inr (if monthIndex >? M then Some (Y - 1) else Some Y,
                   Some monthIndex)).
  { unfold resolveMonth.
    assert (Hfalsy : match customDate inv with
                     | Some s' => negb (String.eqb s' EmptyString)
                     | None => false
                     end = false)
      by (destruct Hcustom as [-> | ->]; reflexivity).
    rewrite Hfalsy, Hrequested, Hparse.
    cbn [getMonth getFullYear option_map JSNum.gt JSNum.cmp JSNum.sub
         JSNum.lift2].
    unfold MonthFromTime, YearFromTime. fold d. fold M. fold Y.
    destruct (monthIndex >? M); reflexivity. }
  pose proof (monthStart_leap (InLeapYearOf Y) M ltac:(lia)) as HsM.
  pose proof (monthStart_leap (InLeapYearOf Y) (M + 1) ltac:(lia)) as HsM1.
  pose proof (monthStart_leap (InLeapYearOf Y) monthIndex ltac:(lia)) as HsI.
  pose proof (monthStart_leap (InLeapYearOf (Y - 1)) monthIndex ltac:(lia))
    as HsI'.
  pose proof (monthStart_common_range monthIndex ltac:(lia)) as HrI.
  pose proof (DayWithinYear_range d) as HW. fold Y in HW.
  destruct (Z.gtb_spec monthIndex M) as [Hprev | Hsame]; rewrite Hresolve.
  - (* an index above the current month: the previous year *)
    pose proof (monthStart_common_mono (M + 1) monthIndex ltac:(lia)
                  ltac:(lia)) as Hmono.
    pose proof (DayFromYear_succ (Y - 1)) as Hsucc.
    replace (Y - 1 + 1) with Y in Hsucc by lia.
    rewrite DaysInYear_leap in Hsucc.
    assert (HI12 : 334 >= monthStart 0 monthIndex)
      by (each_month Hindex; cbn; lia).
    destruct (Hdate (Y - 1)
                (DayFromYear (Y - 1)
                 + monthStart (InLeapYearOf (Y - 1)) monthIndex))
      as [Hlocaldate [Hpast Hnear]]; try lia.
    + destruct (InLeapYearOf_range Y) as [Hl | Hl],
        (InLeapYearOf_range (Y - 1)) as [Hl' | Hl'];
        rewrite Hl, Hl' in *;
        destruct (M <? 2), (M + 1 <? 2), (monthIndex <? 2); lia.
    + destruct (InLeapYearOf_range Y) as [Hl | Hl],
        (InLeapYearOf_range (Y - 1)) as [Hl' | Hl'];
        rewrite Hl, Hl' in *;
        destruct (Z.ltb_spec M 2), (Z.ltb_spec (M + 1) 2),
          (Z.ltb_spec monthIndex 2); lia.
    + eexists _, _. split; [reflexivity |]. split; [exact Hlocaldate |].
      split; assumption.
  - (* the current month or an earlier one of this year *)
    pose proof (monthStart_common_mono monthIndex M ltac:(lia) ltac:(lia))
      as Hmono.
    destruct (Hdate Y (DayFromYear Y
                       + monthStart (InLeapYearOf Y) monthIndex))
      as [Hlocaldate [Hpast Hnear]]; try lia.
    + destruct (InLeapYearOf_range Y) as [Hl | Hl]; rewrite Hl in *;
        destruct (Z.ltb_spec M 2), (Z.ltb_spec monthIndex 2); lia.
    + destruct (InLeapYearOf_range Y) as [Hl | Hl]; rewrite Hl in *;
        destruct (Z.ltb_spec M 2), (Z.ltb_spec monthIndex 2); lia.
    + eexists _, _. split; [reflexivity |]. split; [exact Hlocaldate |].
      split; assumption.
Qed.
End MonthOption.

Lemma month_option_selects_recent_month_witness :
  (customDate (Samples.invocation (Some "11") None) = None
   \/ customDate (Samples.invocation (Some "11") None) = Some EmptyString)
  /\ exists shownYear firstOfMonth,
       resolveMonth (host := Samples.utcHost)
         (Samples.invocation (Some "11") None)
       = inr (Some shownYear, Some 11)
       /\ Date_local (LocalTZA (Host := Samples.utcHost))
            (Some shownYear) (Some 11) (Some 1) = Some firstOfMonth
       /\ firstOfMonth <= today (Samples.invocation (Some "11") None)
       /\ today (Samples.invocation (Some "11") None) - firstOfMonth
          < 367 * msPerDay.
Proof.
  assert (Hc : customDate (Samples.invocation (Some "11") None) = None
               \/ customDate (Samples.invocation (Some "11") None)
                  = Some EmptyString) by (left; reflexivity).
  split; [exact Hc |].
  apply (month_option_selects_recent_month (host := Samples.utcHost)
           (Samples.invocation (Some "11") None) "11" 11 Hc).
  - reflexivity.
  - reflexivity.
  - lia.
  - unfold Samples.utcHost, msPerDay. cbn. lia.
  - unfold Samples.utcHost, Samples.invocation, Samples.jan_4_2024. cbn. lia.
  - unfold Samples.invocation, Samples.jan_4_2024, maxTime. cbn. lia.
Defined.

(** ** PerscomService: the paging loop as a walk over the pages *)

Section PagingWalk.
Variable api : Z -> PageResponse.

Lemma pagesFrom_nil page lastPage : page > lastPage -> pagesFrom page lastPage = [].
Proof.
  intros H. unfold pagesFrom.
  replace (Z.to_nat (lastPage + 1 - page)) with O by lia. reflexivity.
Qed.

Lemma pagesFrom_cons page lastPage :
  page <= lastPage ->
  pagesFrom page lastPage = page :: pagesFrom (page + 1) lastPage.
Proof.
  intros H. unfold pagesFrom.
  replace (Z.to_nat (lastPage + 1 - page))
    with (S (Z.to_nat (lastPage + 1 - (page + 1)))) by lia.
  cbn [List.seq map]. rewrite Z.add_0_r. f_equal.
  rewrite <- seq_shift, map_map. apply map_ext. intros i. lia.
Qed.

(** The while loop asks for the pages of [page..lastPage] up to the first
    that fails, and appends what the pages before it hold. *)
Lemma pagingLoop_walk lastPage page all :
  pagesRequested (fst (pagingLoop api lastPage page all))
  = requestedOf api (pagesFrom page lastPage)
  /\ snd (pagingLoop api lastPage page all)
     = (all ++ collectedOf api (pagesFrom page lastPage))%list.
Proof.
  funelim (pagingLoop api lastPage page all).
  - rewrite pagesFrom_nil by assumption. cbn. rewrite app_nil_r. auto.
  - rewrite pagesFrom_cons by assumption.
    cbn [requestedOf collectedOf]. unfold pageIsOk. rewrite Heq.
    cbn. rewrite app_nil_r. auto.
  - rewrite pagesFrom_cons by assumption.
    cbn [requestedOf collectedOf]. unfold pageIsOk. rewrite Heq.
    cbn. rewrite app_nil_r. auto.
  - rewrite pagesFrom_cons by assumption.
    cbn [requestedOf collectedOf]. unfold pageIsOk, form1OfPage.
    rewrite Heq.
    match goal with
    | IH : _ /\ _ |- _ => destruct IH as [Hreq Hres]
    end.
    destruct (pagingLoop api lastPage (page + 1)
                (all ++ form1Submissions data)) as [events result].
    cbn [fst snd pagesRequested] in *.
    rewrite Hreq, Hres, app_assoc. auto.
Qed.

Lemma requestedOf_all_ok pages :
  (forall p, In p pages -> pageIsOk api p = true) ->
  requestedOf api pages = pages
  /\ collectedOf api pages = flat_map (form1OfPage api) pages.
Proof.
  induction pages as [| p pages IH]; intros Hok; [split; reflexivity |].
  cbn [requestedOf collectedOf flat_map].
  rewrite (Hok p (or_introl eq_refl)).
  destruct IH as [-> ->]; [intros q Hq; apply Hok; right; exact Hq |].
  split; reflexivity.
Qed.

Lemma requestedOf_first_failure before q after :
  (forall p, In p before -> pageIsOk api p = true) ->
  pageIsOk api q = false ->
  requestedOf api (before ++ q :: after) = (before ++ [q])%list
  /\ collectedOf api (before ++ q :: after)
     = flat_map (form1OfPage api) before.
Proof.
  induction before as [| p before IH]; intros Hok Hq.
  - cbn. rewrite Hq. split; reflexivity.
  - cbn [app requestedOf collectedOf flat_map].
    rewrite (Hok p (or_introl eq_refl)).
    destruct IH as [-> ->];
      [intros r Hr; apply Hok; right; exact Hr | exact Hq |].
    split; reflexivity.
Qed.

Lemma pagesFrom_In p page lastPage :
  In p (pagesFrom page lastPage) <-> page <= p <= lastPage.
Proof.
  unfold pagesFrom. rewrite in_map_iff. split.
  - intros [i [<- Hi]]. apply in_seq in Hi. lia.
  - intros Hp. exists (Z.to_nat (p - page)). split; [lia |].
    apply in_seq. lia.
Qed.

Lemma pagesFrom_split page q lastPage :
  page <= q <= lastPage ->
  pagesFrom page lastPage
  = (pagesFrom page (q - 1) ++ q :: pagesFrom (q + 1) lastPage)%list.
Proof.
  intros Hq.
  remember (Z.to_nat (q - page)) as k eqn:Hk.
  revert page Hq Hk. induction k as [| k IH]; intros page Hq Hk.
  - assert (page = q) by lia. subst page.
    rewrite (pagesFrom_nil q (q - 1)) by lia.
    rewrite pagesFrom_cons by lia. reflexivity.
  - rewrite (pagesFrom_cons page lastPage) by lia.
    rewrite (pagesFrom_cons page (q - 1)) by lia.
    rewrite (IH (page + 1)) by lia. reflexivity.
Qed.

(** X22: when the metadata request fails, or the service has fewer than
    four pages, no page is asked for and the result is empty. *)
Theorem fewer_than_four_pages_gives_nothing (metadata : MetadataResponse) :
  (forall lastPage, metadata = MetaOk (Some lastPage) -> lastPage < 4) ->
  pagesRequested (fst (getAllForm1Data metadata api)) = []
  /\ snd (getAllForm1Data metadata api) = [].
Proof.
  intros Hfew. unfold getAllForm1Data.
  destruct metadata as [| status statusText | [lastPage |]];
    try (split; reflexivity).
  specialize (Hfew lastPage eq_refl).
  destruct (pagingLoop_walk lastPage firstPage []) as [Hreq Hres].
  destruct (pagingLoop api lastPage firstPage []) as [events result].
  cbn [fst snd pagesRequested] in *.
  rewrite Hreq, Hres, pagesFrom_nil by (unfold firstPage; lia).
  split; reflexivity.
Qed.


End PagingWalk.

Lemma fewer_than_four_pages_gives_nothing_witness :
  (forall lastPage, MetaOk (Some 3) = MetaOk (Some lastPage) -> lastPage < 4)
  /\ pagesRequested (fst (getAllForm1Data (MetaOk (Some 3)) Samples.sixPages))
     = []
  /\ snd (getAllForm1Data (MetaOk (Some 3)) Samples.sixPages) = [].
Proof.
  assert (H : forall lastPage,
             MetaOk (Some 3) = MetaOk (Some lastPage) -> lastPage < 4).
  { intros lastPage Heq. injection Heq as <-. lia. }
  split; [exact H |].
  exact (fewer_than_four_pages_gives_nothing Samples.sixPages
           (MetaOk (Some 3)) H).
Defined.



(** ** PerscomService.getSubmissionStatus *)

Section SubmissionStatus.
Variable Server : Type.
Variable respond : Server -> Z -> StatusOutcome * Server.
Variable statusId : Z.

Lemma find_existsb {A} (f : A -> bool) l :
  match find f l with Some _ => true | None => false end = existsb f l.
Proof.
  induction l as [| x l IH]; [reflexivity |].
  cbn. destruct (f x); [reflexivity | exact IH].
Qed.

(** One round asks for the statuses of the submission's [form_id] and
    pushes the submission exactly when a status with the wanted id came
    back. *)
Lemma statusOf_round server submission :
  statusesRequested (fst (fst (statusOf respond statusId server submission)))
  = [Form1Submission.form_id submission]
  /\ snd (fst (statusOf respond statusId server submission))
     = (if hasStatus statusId
             (fst (respond server (Form1Submission.form_id submission)))
        then [toAccepted submission] else [])
  /\ snd (statusOf respond statusId server submission)
     = snd (respond server (Form1Submission.form_id submission)).
Proof.
  unfold statusOf.
  destruct (respond server (Form1Submission.form_id submission))
    as [outcome server'].
  destruct outcome as [| [[| status0 statuses] |]]; cbn [fst snd hasStatus];
    try (repeat split; reflexivity).
  rewrite <- find_existsb.
  destruct (find _ (status0 :: statuses)); repeat split; reflexivity.
Qed.

Lemma getSubmissionStatus_cons server submission rest :
  getSubmissionStatus respond statusId server (submission :: rest)
  = ((fst (fst (statusOf respond statusId server submission))
      ++ fst (fst (getSubmissionStatus respond statusId
                     (snd (statusOf respond statusId server submission))
                     rest)))%list,
     (snd (fst (statusOf respond statusId server submission))
      ++ snd (fst (getSubmissionStatus respond statusId
                     (snd (statusOf respond statusId server submission))
                     rest)))%list,
     snd (getSubmissionStatus respond statusId
            (snd (statusOf respond statusId server submission)) rest)).
Proof.
  cbn [getSubmissionStatus].
  destruct (statusOf respond statusId server submission)
    as [[events pushed] server'].
  cbn [fst snd].
  destruct (getSubmissionStatus respond statusId server' rest)
    as [[events' activeUsers] server''].
  reflexivity.
Qed.

Lemma statusesRequested_app events events' :
  statusesRequested (events ++ events')
  = (statusesRequested events ++ statusesRequested events')%list.
Proof.
  induction events as [| e events IH]; [reflexivity |].
  destruct e; cbn; rewrite IH; reflexivity.
Qed.

Lemma getSubmissionStatus_requests server submissions :
  statusesRequested
    (fst (fst (getSubmissionStatus respond statusId server submissions)))
  = map Form1Submission.form_id submissions.
Proof.
  revert server. induction submissions as [| submission rest IH];
    intros server; [reflexivity |].
  rewrite getSubmissionStatus_cons. cbn [fst snd map].
  rewrite statusesRequested_app, IH.
  destruct (statusOf_round server submission) as [-> _]. reflexivity.
Qed.

(** X25: the statuses of every submission are asked for, in order, under
    the submission's [form_id] field, whether or not earlier requests
    failed. *)
Theorem status_requests_cover_every_submission
    (server : Server) (before after : list Form1Submission.t)
    (submission : Form1Submission.t) :
  statusesRequested
    (fst (fst (getSubmissionStatus respond statusId server
                 (before ++ submission :: after))))
  = (map Form1Submission.form_id before
     ++ Form1Submission.form_id submission
     :: map Form1Submission.form_id after)%list.
Proof.
  rewrite getSubmissionStatus_requests, map_app. reflexivity.
Qed.

End SubmissionStatus.


(** The accepted users of that run: submission 40 only. *)
Example getSubmissionStatus_run :
  map AcceptedUsers.form_id
      (snd (fst (getSubmissionStatus Samples.statusServer 7 O
                   (snd (getAllForm1Data (MetaOk (Some 6))
                           Samples.sixPages)))))
  = [Some 40]
  /\ fst (fst (getSubmissionStatus Samples.statusServer 7 O
                 (snd (getAllForm1Data (MetaOk (Some 6)) Samples.sixPages))))
     = [GetStatuses 40; GetStatuses 50; ErrorFetchingStatuses 50;
        GetStatuses 60].
Proof. split; reflexivity. Qed.

(** ** From the submissions to their statuses *)

Section Pipeline.
Variable Server : Type.
Variable respond : Server -> Z -> StatusOutcome * Server.

(** X27: when the result of [getAllForm1Data] is passed on to
    [getSubmissionStatus], every status request carries the [id] of a
    form-1 submission served on a page from 4 on (not a form id). *)
Theorem status_requests_use_submission_ids
    (metadata : MetadataResponse) (api : Z -> PageResponse)
    (statusId : Z) (server : Server) (requested : Z) :
  In requested
     (statusesRequested
        (fst (fst (getSubmissionStatus respond statusId server
                     (snd (getAllForm1Data metadata api)))))) ->
  exists p submission,
    4 <= p
    /\ servedOn api p submission
    /\ Submission.form_id submission = 1
    /\ Submission.id submission = requested.
Proof.
  rewrite getSubmissionStatus_requests, in_map_iff.
  intros [x [<- Hx]]. unfold getAllForm1Data in Hx.
  destruct metadata as [| status statusText | [lastPage |]];
    try (destruct Hx).
  destruct (pagingLoop_spec api lastPage firstPage []) as [_ Hresult].
  destruct (pagingLoop api lastPage firstPage []) as [events result].
  cbn [fst snd] in *.
  destruct (Hresult x Hx)
    as [[] | [p [submission [_ [Hp [Hserved [Hform ->]]]]]]].
  exists p, submission. unfold firstPage in Hp.
  repeat split; try assumption; lia.
Qed.
End Pipeline.

Lemma status_requests_use_submission_ids_witness :
  In 50
     (statusesRequested
        (fst (fst (getSubmissionStatus Samples.statusServer 7 O
                     (snd (getAllForm1Data (MetaOk (Some 6))
                             Samples.sixPages))))))
  /\ exists p submission,
       4 <= p
       /\ servedOn Samples.sixPages p submission
       /\ Submission.form_id submission = 1
       /\ Submission.id submission = 50.
Proof.
  assert (H : In 50
                (statusesRequested
                   (fst (fst (getSubmissionStatus Samples.statusServer 7 O
                                (snd (getAllForm1Data (MetaOk (Some 6))
                                        Samples.sixPages)))))))
    by (vm_compute; right; left; reflexivity).
  split; [exact H |].
  exact (status_requests_use_submission_ids nat Samples.statusServer
           (MetaOk (Some 6)) Samples.sixPages 7 O 50 H).
Defined.

(** ** PerscomService.deleteUsers: what the log holds *)

Section DeleteLog.
Variable Server : Type.
Variable respond : Server -> Z -> DeleteResponse * Server.

(** X28: a run writes, for each user, the request and one log entry; the
    error entries are as many as the deletions that failed. *)
Theorem deleteUsers_log_matches_failures
    (server : Server) (users : list DeniedUsers.t) :
  List.length (fst (deleteUsers respond server users))
  = (2 * List.length users)%nat
  /\ countErrors (fst (deleteUsers respond server users))
     = List.length (filter failed (deleteResponses respond server users)).
Proof.
  revert server. induction users as [| user rest IH]; intros server;
    [split; reflexivity |].
  rewrite deleteUsers_cons. cbn [fst deleteResponses filter].
  destruct (deleteUser_round Server respond server user)
    as [entry [Hevents [Hserver [Hentry _]]]].
  rewrite Hevents, Hserver.
  destruct (IH (snd (respond server (DeniedUsers.user_id user))))
    as [Hlen Herr].
  unfold countErrors in *. cbn [app List.length filter isErrorLog].
  rewrite Hlen, Hentry.
  destruct (failed (fst (respond server (DeniedUsers.user_id user))));
    cbn [List.length]; rewrite Herr; split; lia.
Qed.
End DeleteLog.

(** ** commandBot: registering and dispatching *)

Section BotRegistration.
Variable Rest : Type.
Variable put : Rest -> string -> string -> list string -> bool * Rest.
Variable userId : option string.

Lemma putsSent_app events events' :
  Bot.putsSent (events ++ events')
  = (Bot.putsSent events ++ Bot.putsSent events')%list.
Proof.
  induction events as [| e events IH]; [reflexivity |].
  destruct e; cbn; rewrite IH; reflexivity.
Qed.

Lemma refreshGuilds_puts rest body guilds :
  Bot.putsSent (fst (Bot.refreshGuilds put userId rest body guilds))
  = map Bot.guild_id guilds.
Proof.
  revert rest. induction guilds as [| g others IH]; intros rest;
    [reflexivity |].
  cbn [Bot.refreshGuilds]. unfold Bot.refreshGuild.
  destruct (put rest (Bot.applicationId userId) (Bot.guild_id g) body)
    as [ok rest'].
  specialize (IH rest').
  destruct (Bot.refreshGuilds put userId rest' body others)
    as [events' rest''].
  cbn [fst] in *. rewrite putsSent_app, IH. destruct ok; reflexivity.
Qed.

(** X29: when the client is ready and the command data can be built, a
    PUT is sent for every guild of the cache, in order, whether or not the
    requests for earlier guilds failed; the run is framed by the start and
    finish log lines. *)
Theorem ready_refreshes_every_guild
    (tag : option string) (rest : Rest) (body : list string)
    (guilds : list Bot.GuildInfo) :
  Bot.putsSent (fst (Bot.onReady put userId (Some body) tag rest guilds))
  = map Bot.guild_id guilds
  /\ hd_error (fst (Bot.onReady put userId (Some body) tag rest guilds))
     = Some (Bot.LogLoggedIn tag)
  /\ last (fst (Bot.onReady put userId (Some body) tag rest guilds))
          Bot.ErrorManagingCommands
     = Bot.LogFinished.
Proof.
  unfold Bot.onReady.
  pose proof (refreshGuilds_puts rest body guilds) as Hputs.
  destruct (Bot.refreshGuilds put userId rest body guilds) as [events rest'].
  cbn [fst] in *. split; [| split].
  - cbn [Bot.putsSent]. rewrite putsSent_app, Hputs. cbn.
    apply app_nil_r.
  - reflexivity.
  - change (Bot.LogLoggedIn tag :: Bot.LogStartedRefreshing
            :: events ++ [Bot.LogFinished])%list
      with (([Bot.LogLoggedIn tag; Bot.LogStartedRefreshing] ++ events)
            ++ [Bot.LogFinished])%list.
    apply last_last.
Qed.
End BotRegistration.

Section BotDispatch.
Variable E : Type.
Variable I : Type.

Lemma get_set_same key (value : Bot.Command E I) c :
  Bot.get key (Bot.set key value c) = Some value.
Proof.
  induction c as [| [key' value'] c IH]; cbn.
  - rewrite String.eqb_refl. reflexivity.
  - destruct (String.eqb key' key) eqn:Hk; cbn; rewrite Hk; auto.
Qed.

Lemma get_set_other key key' (value : Bot.Command E I) c :
  key <> key' -> Bot.get key' (Bot.set key value c) = Bot.get key' c.
Proof.
  intros Hne. induction c as [| [k v] c IH]; cbn.
  - destruct (String.eqb_spec key key'); [contradiction | reflexivity].
  - destruct (String.eqb_spec k key) as [-> | Hk]; cbn.
    + destruct (String.eqb_spec key key'); [contradiction | reflexivity].
    + destruct (String.eqb k key'); [reflexivity | exact IH].
Qed.

Lemma get_register_absent key (commands : list (Bot.Command E I)) c :
  ~ In key (map Bot.name commands) ->
  Bot.get key (Bot.register commands c) = Bot.get key c.
Proof.
  revert c. induction commands as [| command rest IH]; intros c Hout;
    [reflexivity |].
  cbn [Bot.register]. rewrite IH by (intros H; apply Hout; right; exact H).
  apply get_set_other. intros Heq. apply Hout. left. exact Heq.
Qed.

Lemma get_register_unique (commands : list (Bot.Command E I)) command c :
  NoDup (map Bot.name commands) ->
  In command commands ->
  Bot.get (Bot.name command) (Bot.register commands c) = Some command.
Proof.
  revert c. induction commands as [| first rest IH]; intros c Hnodup Hin;
    [destruct Hin |].
  cbn [map] in Hnodup. inversion Hnodup as [| ? ? Hfresh Hrest]; subst.
  cbn [Bot.register]. destruct Hin as [-> | Hin].
  - rewrite get_register_absent by exact Hfresh. apply get_set_same.
  - apply IH; assumption.
Qed.

(** X30: with commands registered under distinct names, an interaction
    naming one of them runs that command, and reports a thrown error with
    a follow-up when the interaction was replied to or deferred and with a
    reply otherwise; an interaction naming no registered command, or one
    that is not a chat input command, runs nothing. *)
Theorem interaction_runs_the_named_command
    (commands : list (Bot.Command E I)) (interaction : I) :
  NoDup (map Bot.name commands) ->
  (forall command,
      In command commands ->
      Bot.onInteraction (Bot.register commands []) true
                        (Bot.name command) interaction
      = (Bot.LogReceived (Bot.name command)
         :: Bot.Ran (fst (Bot.execute command interaction))
         :: match snd (Bot.execute command interaction) with
            | Bot.Returned => []
            | Bot.Threw repliedOrDeferred =>
                [ Bot.ErrorExecuting (Bot.name command);
                  if repliedOrDeferred then Bot.FollowUpError
                  else Bot.ReplyError ]
            end))
  /\ (forall commandName,
         ~ In commandName (map Bot.name commands) ->
         Bot.onInteraction (Bot.register commands []) true
                           commandName interaction
         = [Bot.LogReceived commandName; Bot.LogNotFound commandName])
  /\ (forall commandName,
         Bot.onInteraction (Bot.register commands []) false
                           commandName interaction = []).
Proof.
  intros Hnodup. split; [| split].
  - intros command Hin. unfold Bot.onInteraction. cbn [negb].
    rewrite (get_register_unique commands command [] Hnodup Hin).
    destruct (Bot.execute command interaction) as [events [| b]];
      reflexivity.
  - intros commandName Hout. unfold Bot.onInteraction. cbn [negb].
    rewrite (get_register_absent commandName commands [] Hout).
    reflexivity.
  - reflexivity.
Qed.
End BotDispatch.

Lemma interaction_runs_the_named_command_witness :
  NoDup (map Bot.name [Samples.otherCommand; Samples.attendanceCommand])
  /\ Bot.onInteraction
       (Bot.register [Samples.otherCommand; Samples.attendanceCommand] [])
       true (Bot.name Samples.attendanceCommand)
       (Samples.invocation None (Some "13/2024"))
     = (Bot.LogReceived (Bot.name Samples.attendanceCommand)
        :: Bot.Ran (fst (Bot.execute Samples.attendanceCommand
                           (Samples.invocation None (Some "13/2024"))))
        :: match snd (Bot.execute Samples.attendanceCommand
                        (Samples.invocation None (Some "13/2024"))) with
           | Bot.Returned => []
           | Bot.Threw repliedOrDeferred =>
               [ Bot.ErrorExecuting (Bot.name Samples.attendanceCommand);
                 if repliedOrDeferred then Bot.FollowUpError
                 else Bot.ReplyError ]
           end).
Proof.
  assert (Hnodup : NoDup (map Bot.name
                            [Samples.otherCommand; Samples.attendanceCommand])).
  { constructor.
    - intros [H | []]. discriminate H.
    - constructor; [intros [] | constructor]. }
  split; [exact Hnodup |].
  apply (proj1 (interaction_runs_the_named_command Event Invocation
                  [Samples.otherCommand; Samples.attendanceCommand]
                  (Samples.invocation None (Some "13/2024")) Hnodup)).
  right. left. reflexivity.
Defined.

(** The guilds "g1", "g2", "g3" against a service that refuses "g2". *)
Example onReady_flaky_run :
  fst (Bot.onReady Samples.flakyRest (Some "app") (Some ["{}"]) (Some "bot#1")
         O
         [ {| Bot.guild_name := "One"; Bot.guild_id := "g1" |};
           {| Bot.guild_name := "Two"; Bot.guild_id := "g2" |};
           {| Bot.guild_name := "Three"; Bot.guild_id := "g3" |} ])
  = [ Bot.LogLoggedIn (Some "bot#1"); Bot.LogStartedRefreshing;
      Bot.LogRefreshing "One"; Bot.Put "app" "g1" ["{}"];
      Bot.LogRefreshed "One";
      Bot.LogRefreshing "Two"; Bot.Put "app" "g2" ["{}"];
      Bot.ErrorRefreshFailed "Two";
      Bot.LogRefreshing "Three"; Bot.Put "app" "g3" ["{}"];
      Bot.LogRefreshed "Three";
      Bot.LogFinished ].
Proof. reflexivity. Qed.
